(** * AWS Bedrock pricing provider: a shallow embedding and its properties

    The development follows [backend/providers/aws_bedrock.py] and
    [backend/services/fetcher.py].

    Conventions of the embedding.
    - A Python [str] is a Rocq [string]; a character is read as the code
      point of the same number, so the model covers the strings whose code
      points are below 256.  On that range [str.lower] and the regular
      expression class [\s] stay inside the range, so nothing is lost.
    - A Python [dict] is an association list in insertion order (the order
      [dict.items()] and [dict.values()] iterate in).
    - A Python [float] is a primitive binary64 float.
    - An exception is the [Raised] outcome of a computation.
    - [datetime.now()] reads an explicit clock. *)

From Stdlib Require Import String Ascii List ZArith NArith Bool Lia.
From Corelib Require PrimFloat SpecFloat FloatOps.
Import ListNotations.

Local Open Scope string_scope.
Local Open Scope Z_scope.
Set Warnings "-inexact-float".

(* ================================================================== *)
(** ** Python strings *)

Module PyStr.

Definition code (c : ascii) : N := N_of_ascii c.

Definition between (lo hi n : N) : bool := (N.leb lo n && N.leb n hi)%bool.

(** [str.isspace] per character, which is also what [\s] matches in a
    [str] pattern: TAB..CR, FS..US, SPACE, NEL and NBSP. *)
Definition isspace (c : ascii) : bool :=
  let n := code c in
  (between 9 13 n || between 28 31 n || N.eqb n 32
   || N.eqb n 133 || N.eqb n 160)%bool.

Definition isdigit (c : ascii) : bool := between 48 57 (code c).

Definition is_lower_az (c : ascii) : bool := between 97 122 (code c).

(** Characters that [str.lower] changes: A-Z and the Latin-1 capitals
    (all of 192..222 but the multiplication sign 215). *)
Definition is_upper (c : ascii) : bool :=
  let n := code c in
  (between 65 90 n || (between 192 222 n && negb (N.eqb n 215)))%bool.

Definition lower_char (c : ascii) : ascii :=
  if is_upper c then ascii_of_N (code c + 32) else c.

(** [s.lower()] *)
Fixpoint lower (s : string) : string :=
  match s with
  | EmptyString => EmptyString
  | String c r => String (lower_char c) (lower r)
  end.

(** [s.startswith(p)] *)
Fixpoint startswith (p s : string) : bool :=
  match p, s with
  | EmptyString, _ => true
  | String _ _, EmptyString => false
  | String a p', String b s' => (Ascii.eqb a b && startswith p' s')%bool
  end.

(** [needle in hay] *)
Fixpoint contains (needle hay : string) : bool :=
  match hay with
  | EmptyString => startswith needle EmptyString
  | String _ r => (startswith needle hay || contains needle r)%bool
  end.

(** [any(x in s for x in xs)] *)
Definition any_in (xs : list string) (s : string) : bool :=
  existsb (fun x => contains x s) xs.

Fixpoint all_chars (p : ascii -> bool) (s : string) : bool :=
  match s with
  | EmptyString => true
  | String c r => (p c && all_chars p r)%bool
  end.

Fixpoint filter_chars (p : ascii -> bool) (s : string) : string :=
  match s with
  | EmptyString => EmptyString
  | String c r => if p c then String c (filter_chars p r) else filter_chars p r
  end.

Fixpoint drop_while (p : ascii -> bool) (s : string) : string :=
  match s with
  | EmptyString => EmptyString
  | String c r => if p c then drop_while p r else s
  end.

Fixpoint drop (n : nat) (s : string) : string :=
  match n, s with
  | O, _ => s
  | S _, EmptyString => EmptyString
  | S k, String _ r => drop k r
  end.

(** [not s], the truth value of a string *)
Definition is_empty (s : string) : bool :=
  match s with EmptyString => true | _ => false end.

End PyStr.

(* ================================================================== *)
(** ** The three regular-expression substitutions of the provider *)

Module Regex.
Import PyStr.

(** [re.sub(r"\s+", "-", s)]: every maximal run of whitespace becomes one
    hyphen. *)
Fixpoint sub_ws_runs (s : string) : string :=
  match s with
  | EmptyString => EmptyString
  | String c r =>
      if isspace c
      then match r with
           | String d _ => if isspace d then sub_ws_runs r
                           else String "-"%char (sub_ws_runs r)
           | EmptyString => String "-"%char EmptyString
           end
      else String c (sub_ws_runs r)
  end.

(** The class [[a-z0-9\s\-\.]] whose complement the slug rule deletes. *)
Definition slug_char (c : ascii) : bool :=
  (is_lower_az c || isdigit c || isspace c
   || Ascii.eqb c "-"%char || Ascii.eqb c "."%char)%bool.

(** [re.sub(r"[^a-z0-9\s\-\.]", "", s)] *)
Definition sub_non_slug (s : string) : string := filter_chars slug_char s.

Definition edition_suffix : string := "(Amazon Bedrock Edition)".

(** Does the whole of [t] match [\s*\(Amazon Bedrock Edition\)\s*$]?  The
    literal ends in a non-space character, so once it is read the rest
    up to the end can only be the second [\s*]; [$] just before a final
    newline gives the same answer, the newline being whitespace. *)
Definition edition_match (t : string) : bool :=
  let u := drop_while isspace t in
  (startswith edition_suffix u
   && all_chars isspace (drop (String.length edition_suffix) u))%bool.

(** [re.sub(r"\s*\(Amazon Bedrock Edition\)\s*$", "", s)]: the leftmost
    position where the pattern matches; the match then runs to the end
    of the string and is deleted. *)
Fixpoint sub_edition (s : string) : string :=
  if edition_match s then EmptyString
  else match s with
       | EmptyString => EmptyString
       | String c r => String c (sub_edition r)
       end.

End Regex.

(* ================================================================== *)
(** ** Python's [float(str)] *)

Module PyFloat.
Import PyStr.

Definition float : Set := PrimFloat.float.

Definition chars (s : string) : list ascii := list_ascii_of_string s.

(** Whitespace that [float] strips at both ends: the ASCII blanks, and
    NEL and NBSP, which the conversion first turns into blanks. *)
Definition float_space (c : ascii) : bool :=
  let n := code c in
  (between 9 13 n || N.eqb n 32 || N.eqb n 133 || N.eqb n 160)%bool.

Fixpoint lstrip (l : list ascii) : list ascii :=
  match l with
  | c :: r => if float_space c then lstrip r else l
  | [] => []
  end.

Definition strip (l : list ascii) : list ascii :=
  rev (lstrip (rev (lstrip l))).

Definition is_underscore (c : ascii) : bool := Ascii.eqb c "_"%char.

(** An underscore is accepted only between two digits; [prev] is the
    character before the head of [l]. *)
Fixpoint underscores_ok (prev : ascii) (l : list ascii) : bool :=
  match l with
  | [] => negb (is_underscore prev)
  | c :: r =>
      (if is_underscore c then isdigit prev
       else if is_underscore prev then isdigit c else true)
      && underscores_ok c r
  end%bool.

Definition drop_underscores (l : list ascii) : list ascii :=
  filter (fun c => negb (is_underscore c)) l.

Fixpoint span_digits (l : list ascii) : list ascii * list ascii :=
  match l with
  | c :: r =>
      if isdigit c then let (d, t) := span_digits r in (c :: d, t)
      else ([], l)
  | [] => ([], [])
  end.

Definition digits_value (ds : list ascii) : Z :=
  fold_left (fun acc c => 10 * acc + (Z.of_N (code c) - 48)) ds 0.

Definition parse_sign (l : list ascii) : bool * list ascii :=
  match l with
  | c :: r =>
      if Ascii.eqb c "-"%char then (true, r)
      else if Ascii.eqb c "+"%char then (false, r)
      else (false, l)
  | [] => (false, [])
  end.

Definition same_word (w : string) (l : list ascii) : bool :=
  String.eqb w (string_of_list_ascii (map lower_char l)).

(** What the text after the sign denotes. *)
Inductive literal : Set :=
| LInf
| LNan
| LDec (mantissa exp10 : Z).   (* mantissa * 10 ^ exp10 *)

Definition parse_exponent (frac_len : nat) (mant : Z) (l : list ascii)
  : option literal :=
  match l with
  | [] => Some (LDec mant (- Z.of_nat frac_len))
  | e :: r =>
      if (Ascii.eqb e "e"%char || Ascii.eqb e "E"%char)%bool then
        let (neg, r1) := parse_sign r in
        let (d, r2) := span_digits r1 in
        match d, r2 with
        | _ :: _, [] =>
            let v := digits_value d in
            Some (LDec mant ((if neg then - v else v) - Z.of_nat frac_len))
        | _, _ => None
        end
      else None
  end.

Definition parse_literal (l : list ascii) : option literal :=
  if (same_word "inf" l || same_word "infinity" l)%bool then Some LInf
  else if same_word "nan" l then Some LNan
  else
    let (d1, r1) := span_digits l in
    let (d2, r2) :=
      match r1 with
      | c :: r => if Ascii.eqb c "."%char then span_digits r else ([], r1)
      | [] => ([], [])
      end in
    match (d1 ++ d2)%list with
    | [] => None
    | ds => parse_exponent (List.length d2) (digits_value ds) r2
    end.

(** The binary64 number nearest to [n / d] (ties to even), for [0 < n]
    and [0 < d]: the quotient is taken with more than 64 bits and a
    sticky bit for the remainder, then rounded once. *)
Definition round_ratio (neg : bool) (n d : Z) : float :=
  let s := Z.max 0 (Z.log2 d - Z.log2 n + 66) in
  let q := (n * 2 ^ s) / d in
  let sticky := if (n * 2 ^ s) mod d =? 0 then 0 else 1 in
  let m := 2 * q + sticky in
  FloatOps.SF2Prim
    (SpecFloat.binary_normalize FloatOps.prec FloatOps.emax
       (if neg then - m else m) (- s - 1) false).

Definition value_of (neg : bool) (x : literal) : float :=
  match x with
  | LInf => if neg then PrimFloat.neg_infinity else PrimFloat.infinity
  | LNan => PrimFloat.nan
  | LDec m e =>
      if m =? 0 then (if neg then PrimFloat.neg_zero else PrimFloat.zero)
      else if 0 <=? e then round_ratio neg (m * 10 ^ e) 1
      else round_ratio neg m (10 ^ (- e))
  end.

(** [float(s)]; [None] stands for [ValueError]. *)
Definition float_of_str (s : string) : option float :=
  let l := strip (chars s) in
  if underscores_ok " "%char l then
    let (neg, body) := parse_sign (drop_underscores l) in
    option_map (value_of neg) (parse_literal body)
  else None.

(** [0.0 <= x] *)
Definition nonneg (x : float) : bool := PrimFloat.leb PrimFloat.zero x.

End PyFloat.

(* ================================================================== *)
(** ** Exceptions and dictionaries *)

Inductive exn : Set :=
| KeyError (key : string)
| IndexError
| ValueError
| HTTPError (what : string).

Inductive Outcome (A : Type) : Type :=
| Returned (a : A)
| Raised (e : exn).
Arguments Returned {A} a.
Arguments Raised {A} e.

Module Dict.

Definition t (V : Type) : Type := list (string * V).

(** [d.get(k)] *)
Fixpoint get {V} (d : t V) (k : string) : option V :=
  match d with
  | [] => None
  | (k', v) :: r => if String.eqb k k' then Some v else get r k
  end.

(** [d.get(k, dflt)] *)
Definition get_default {V} (d : t V) (k : string) (dflt : V) : V :=
  match get d k with Some v => v | None => dflt end.

(** [k in d] *)
Definition mem {V} (d : t V) (k : string) : bool :=
  match get d k with Some _ => true | None => false end.

(** [d[k]] *)
Definition item {V} (d : t V) (k : string) : Outcome V :=
  match get d k with Some v => Returned v | None => Raised (KeyError k) end.

(** [d[k] = v]: the value of a present key is replaced where it stands, a
    new key goes to the end. *)
Fixpoint set {V} (d : t V) (k : string) (v : V) : t V :=
  match d with
  | [] => [(k, v)]
  | (k', v') :: r =>
      if String.eqb k k' then (k', v) :: r else (k', v') :: set r k v
  end.

Definition keys {V} (d : t V) : list string := map fst d.

(** [list(d.values())] *)
Definition values {V} (d : t V) : list V := map snd d.

(** [list(d.values())[0]] *)
Definition first_value {V} (d : t V) : Outcome V :=
  match d with
  | [] => Raised IndexError
  | (_, v) :: _ => Returned v
  end.

End Dict.

(* ================================================================== *)
(** ** The pricing record *)

Definition datetime : Set := Z.

(** The package [models] that the provider imports [ModelPricing],
    [Pricing] and [BatchPricing] from is not among the sources.  The three
    records below have the fields of the spec's data model under the names
    the provider uses ([pricing.input], [pricing.output],
    [pricing.cached_input], [pricing.cached_write], [batch_pricing.input],
    [batch_pricing.output]); every price defaults to [None], and
    [capabilities] is the list the provider builds. *)
Module Pricing.

(** Modelled from the spec: class [Pricing] of the missing package
    [models]; the optional price fields of the spec's data model. *)
Record t : Set := mk {
  input : option PyFloat.float;
  output : option PyFloat.float;
  cached_input : option PyFloat.float;
  cached_write : option PyFloat.float;
  reasoning : option PyFloat.float;
  image_input : option PyFloat.float;
  embedding : option PyFloat.float
}.

(** [Pricing()] *)
Definition empty : t := mk None None None None None None None.

Definition set_input (p : t) (v : PyFloat.float) : t :=
  mk (Some v) (output p) (cached_input p) (cached_write p)
     (reasoning p) (image_input p) (embedding p).
Definition set_output (p : t) (v : PyFloat.float) : t :=
  mk (input p) (Some v) (cached_input p) (cached_write p)
     (reasoning p) (image_input p) (embedding p).
Definition set_cached_input (p : t) (v : PyFloat.float) : t :=
  mk (input p) (output p) (Some v) (cached_write p)
     (reasoning p) (image_input p) (embedding p).
Definition set_cached_write (p : t) (v : PyFloat.float) : t :=
  mk (input p) (output p) (cached_input p) (Some v)
     (reasoning p) (image_input p) (embedding p).
End Pricing.

Module BatchPricing.

(** Modelled from the spec: class [BatchPricing] of the missing package
    [models]; of the batch prices the provider touches only these two. *)
Record t : Set := mk {
  input : option PyFloat.float;
  output : option PyFloat.float
}.

(** [BatchPricing()] *)
Definition empty : t := mk None None.

Definition set_input (b : t) (v : PyFloat.float) : t := mk (Some v) (output b).
Definition set_output (b : t) (v : PyFloat.float) : t := mk (input b) (Some v).
End BatchPricing.

Module ModelPricing.

(** Modelled from the spec: class [ModelPricing] of the missing package
    [models], with the fields the provider passes to its constructor. *)
Record t : Set := mk {
  id : string;
  provider : string;
  model_id : string;
  model_name : string;
  pricing : Pricing.t;
  batch_pricing : option BatchPricing.t;
  capabilities : list string;
  last_updated : datetime
}.

Definition set_pricing (m : t) (p : Pricing.t) : t :=
  mk (id m) (provider m) (model_id m) (model_name m) p
     (batch_pricing m) (capabilities m) (last_updated m).
Definition set_batch_pricing (m : t) (b : option BatchPricing.t) : t :=
  mk (id m) (provider m) (model_id m) (model_name m) (pricing m)
     b (capabilities m) (last_updated m).
Definition set_last_updated (m : t) (d : datetime) : t :=
  mk (id m) (provider m) (model_id m) (model_name m) (pricing m)
     (batch_pricing m) (capabilities m) d.
End ModelPricing.

(* ================================================================== *)
(** ** The raw catalogs, as [json()] decodes them *)

Module Catalog.

(** One entry of [priceDimensions]; an absent key is [None]. *)
Record PriceDimension : Type := {
  pricePerUnit : option (Dict.t string);
  description : option string
}.

Record Term : Type := {
  priceDimensions : option (Dict.t PriceDimension)
}.

Record Product : Type := {
  attributes : option (Dict.t string)
}.

Record Terms : Type := {
  OnDemand : option (Dict.t (Dict.t Term))
}.

Record t : Type := {
  products : option (Dict.t Product);
  terms : option Terms
}.

(** [data.get("products", {})] *)
Definition get_products (data : t) : Dict.t Product :=
  match products data with Some d => d | None => [] end.

(** [data.get("terms", {}).get("OnDemand", {})] *)
Definition get_on_demand (data : t) : Dict.t (Dict.t Term) :=
  match terms data with
  | Some ts => match OnDemand ts with Some d => d | None => [] end
  | None => []
  end.

(** [product.get("attributes", {})] *)
Definition get_attributes (p : Product) : Dict.t string :=
  match attributes p with Some d => d | None => [] end.

End Catalog.

(* ================================================================== *)
(** ** Computations that read the clock and may raise *)

(** The state is the number of [datetime.now()] calls made so far; the
    [n]-th call returns [clock n]. *)
Definition M (A : Type) : Type := (nat -> datetime) -> nat -> Outcome (A * nat).

Definition ret {A} (a : A) : M A := fun _ n => Returned (a, n).

Definition bind {A B} (c : M A) (k : A -> M B) : M B :=
  fun clock n =>
    match c clock n with
    | Returned (a, n') => k a clock n'
    | Raised e => Raised e
    end.

Definition raise {A} (e : exn) : M A := fun _ _ => Raised e.

Definition lift {A} (o : Outcome A) : M A :=
  match o with Returned a => ret a | Raised e => raise e end.

(** [datetime.now()] *)
Definition now : M datetime := fun clock n => Returned (clock n, S n).

Notation "x <- c ;; k" := (bind c (fun x => k))
  (at level 61, c at next level, right associativity).
Notation "' pat <- c ;; k" := (bind c (fun x => match x with pat => k end))
  (at level 61, pat pattern, c at next level, right associativity).

(** [for k, v in d.items(): acc = body(k, v, acc)] *)
Fixpoint for_items {V S} (body : string -> V -> S -> M S) (d : Dict.t V) (acc : S)
  : M S :=
  match d with
  | [] => ret acc
  | (k, v) :: r => acc' <- body k v acc ;; for_items body r acc'
  end.

(* ================================================================== *)
(** ** [class AWSBedrockProvider] *)

Module AWSBedrockProvider.
Import PyStr.

Definition name : string := "aws_bedrock".
Definition display_name : string := "AWS Bedrock".

(** [models: dict[str, ModelPricing]] *)
Definition Models : Type := Dict.t ModelPricing.t.

(** [_normalize_model_id] *)
Definition _normalize_model_id (name : string) : string :=
  let model_id := lower name in
  let model_id := Regex.sub_non_slug model_id in
  let model_id := Regex.sub_ws_runs model_id in
  model_id.

(** [f"{self.name}:{model_id}"] *)
Definition full_id_of (model_id : string) : string :=
  name ++ ":" ++ model_id.

(** Lines 74-77 and again 140-143: the price and the description of the
    first price dimension of the first term. *)
Definition price_of (term_data : Dict.t Catalog.Term)
  : Outcome (PyFloat.float * string) :=
  match Dict.first_value term_data with
  | Raised e => Raised e
  | Returned term =>
      match Catalog.priceDimensions term with
      | None => Raised (KeyError "priceDimensions")
      | Some dims =>
          match Dict.first_value dims with
          | Raised e => Raised e
          | Returned price_dim =>
              match Catalog.pricePerUnit price_dim with
              | None => Raised (KeyError "pricePerUnit")
              | Some per_unit =>
                  match PyFloat.float_of_str
                          (Dict.get_default per_unit "USD" "0") with
                  | None => Raised ValueError
                  | Some price_usd =>
                      Returned
                        (price_usd,
                         match Catalog.description price_dim with
                         | Some d => d
                         | None => ""
                         end)
                  end
              end
          end
      end
  end.

(** [if not term_data], for the result of [terms.get(sku)] *)
Definition falsy_term_data (td : option (Dict.t Catalog.Term)) : bool :=
  match td with
  | None | Some [] => true
  | Some (_ :: _) => false
  end.

(** [if model.batch_pricing is None: model.batch_pricing = BatchPricing()],
    giving the batch prices the record holds from then on. *)
Definition ensure_batch (model : ModelPricing.t) : BatchPricing.t :=
  match ModelPricing.batch_pricing model with
  | None => BatchPricing.empty
  | Some b => b
  end.

Definition with_batch (model : ModelPricing.t) (b : BatchPricing.t)
  : ModelPricing.t :=
  ModelPricing.set_batch_pricing model (Some b).

Definition with_pricing (model : ModelPricing.t) (p : Pricing.t)
  : ModelPricing.t :=
  ModelPricing.set_pricing model p.

(** *** [_parse_bedrock_data] *)

(** Lines 80-82, "Determine price type from description/usagetype". *)
Definition bedrock_is_input (usage_type description : string) : bool :=
  (contains "input" (lower usage_type) || contains "input" (lower description))%bool.
Definition bedrock_is_output (usage_type description : string) : bool :=
  (contains "output" (lower usage_type) || contains "output" (lower description))%bool.
Definition bedrock_is_batch (usage_type description : string) : bool :=
  (contains "batch" (lower usage_type) || contains "batch" (lower description))%bool.

(** Lines 103-114, "Update prices". *)
Definition bedrock_update (is_batch is_input is_output : bool)
    (price_usd : PyFloat.float) (model : ModelPricing.t) : ModelPricing.t :=
  if is_batch then
    let b := ensure_batch model in
    if is_input then with_batch model (BatchPricing.set_input b price_usd)
    else if is_output then with_batch model (BatchPricing.set_output b price_usd)
    else with_batch model b
  else
    if is_input then
      with_pricing model (Pricing.set_input (ModelPricing.pricing model) price_usd)
    else if is_output then
      with_pricing model (Pricing.set_output (ModelPricing.pricing model) price_usd)
    else model.

(** Lines 89-98: the record a new id gets in the general catalog. *)
Definition bedrock_new (full_id model_id model_name : string) (t : datetime)
  : ModelPricing.t :=
  ModelPricing.mk full_id name model_id model_name
    Pricing.empty None ["text"] t.

(** The body of the loop of lines 58-114; [continue] returns the
    dictionary as it is. *)
Definition bedrock_item (terms : Dict.t (Dict.t Catalog.Term))
    (sku : string) (product : Catalog.Product) (models : Models) : M Models :=
  let attrs := Catalog.get_attributes product in
  let model_name := Dict.get_default attrs "model" "" in
  if is_empty model_name then ret models else
  let usage_type := Dict.get_default attrs "usagetype" "" in
  if (contains "Guardrail" usage_type || contains "CustomModel" usage_type)%bool
  then ret models else
  let term_data := Dict.get terms sku in
  if falsy_term_data term_data then ret models else
  '(price_usd, description) <-
     lift (price_of (match term_data with Some td => td | None => [] end)) ;;
  let is_input := bedrock_is_input usage_type description in
  let is_output := bedrock_is_output usage_type description in
  let is_batch := bedrock_is_batch usage_type description in
  let model_id := _normalize_model_id model_name in
  let full_id := full_id_of model_id in
  models <-
    (if Dict.mem models full_id then ret models
     else t <- now ;;
          ret (Dict.set models full_id
                 (bedrock_new full_id model_id model_name t))) ;;
  model <- lift (Dict.item models full_id) ;;
  ret (Dict.set models full_id
         (bedrock_update is_batch is_input is_output price_usd model)).

Definition _parse_bedrock_data (data : Catalog.t) (models : Models) : M Models :=
  let products := Catalog.get_products data in
  let terms := Catalog.get_on_demand data in
  for_items (bedrock_item terms) products models.

(** *** [_parse_fm_data] *)

(** Lines 146-150, "Determine price type". *)
Definition fm_is_input (usage_type : string) : bool :=
  contains "Input" usage_type.
Definition fm_is_output (usage_type description : string) : bool :=
  (contains "Output" usage_type || contains "Response" description)%bool.
Definition fm_is_batch (usage_type description : string) : bool :=
  (contains "batch" (lower usage_type) || contains "Batch" description)%bool.
Definition fm_is_cache_read (usage_type description : string) : bool :=
  (contains "CacheRead" usage_type || contains "Cache Read" description)%bool.
Definition fm_is_cache_write (usage_type description : string) : bool :=
  (contains "CacheWrite" usage_type || contains "Cache Write" description)%bool.

(** Lines 162-169, "Detect capabilities from model name". *)
Definition detect_capabilities (model_name : string) : list string :=
  let capabilities := ["text"] in
  let name_lower := lower model_name in
  let capabilities :=
    if any_in ["vision"; "vl"; "image"; "stable"] name_lower
    then (capabilities ++ ["vision"])%list else capabilities in
  let capabilities :=
    if any_in ["audio"; "sonic"; "voxtral"] name_lower
    then (capabilities ++ ["audio"])%list else capabilities in
  let capabilities :=
    if contains "embed" name_lower then ["embedding"] else capabilities in
  capabilities.

(** Lines 171-180. *)
Definition fm_new (full_id model_id model_name : string) (t : datetime)
  : ModelPricing.t :=
  ModelPricing.mk full_id name model_id model_name
    Pricing.empty None (detect_capabilities model_name) t.

(** Lines 185-202, "Update prices based on type". *)
Definition fm_update
    (is_batch is_cache_read is_cache_write is_input is_output : bool)
    (price_usd : PyFloat.float) (model : ModelPricing.t) : ModelPricing.t :=
  let pricing := ModelPricing.pricing model in
  if is_batch then
    let b := ensure_batch model in
    if is_input then with_batch model (BatchPricing.set_input b price_usd)
    else if is_output then with_batch model (BatchPricing.set_output b price_usd)
    else with_batch model b
  else if is_cache_read then
    with_pricing model (Pricing.set_cached_input pricing price_usd)
  else if is_cache_write then
    with_pricing model (Pricing.set_cached_write pricing price_usd)
  else if (is_input && negb is_cache_read && negb is_cache_write)%bool then
    match Pricing.input pricing with
    | None => with_pricing model (Pricing.set_input pricing price_usd)
    | Some _ => model
    end
  else if is_output then
    match Pricing.output pricing with
    | None => with_pricing model (Pricing.set_output pricing price_usd)
    | Some _ => model
    end
  else model.

(** The body of the loop of lines 123-202. *)
Definition fm_item (terms : Dict.t (Dict.t Catalog.Term))
    (sku : string) (product : Catalog.Product) (models : Models) : M Models :=
  let attrs := Catalog.get_attributes product in
  let service_name := Dict.get_default attrs "servicename" "" in
  if is_empty service_name then ret models else
  let model_name := Regex.sub_edition service_name in
  let usage_type := Dict.get_default attrs "usagetype" "" in
  let term_data := Dict.get terms sku in
  if falsy_term_data term_data then ret models else
  '(price_usd, description) <-
     lift (price_of (match term_data with Some td => td | None => [] end)) ;;
  let is_input := fm_is_input usage_type in
  let is_output := fm_is_output usage_type description in
  let is_batch := fm_is_batch usage_type description in
  let is_cache_read := fm_is_cache_read usage_type description in
  let is_cache_write := fm_is_cache_write usage_type description in
  if contains "ProvisionedThroughput" usage_type then ret models else
  let model_id := _normalize_model_id model_name in
  let full_id := full_id_of model_id in
  models <-
    (if Dict.mem models full_id then ret models
     else t <- now ;;
          ret (Dict.set models full_id (fm_new full_id model_id model_name t))) ;;
  model <- lift (Dict.item models full_id) ;;
  ret (Dict.set models full_id
         (fm_update is_batch is_cache_read is_cache_write is_input is_output
            price_usd model)).

Definition _parse_fm_data (data : Catalog.t) (models : Models) : M Models :=
  let products := Catalog.get_products data in
  let terms := Catalog.get_on_demand data in
  for_items (fm_item terms) products models.

(** *** [fetch] *)

(** Lines 41-49: the normalization of the two decoded catalogs. *)
Definition normalize (bedrock_data fm_data : Catalog.t)
  : M (list ModelPricing.t) :=
  let models : Models := [] in
  models <- _parse_bedrock_data bedrock_data models ;;
  models <- _parse_fm_data fm_data models ;;
  ret (Dict.values models).

(** What an HTTP response is to [fetch]: whether [raise_for_status()]
    passes, and what [json()] gives. *)
Record Response : Type := {
  status_ok : bool;
  json : Outcome Catalog.t
}.

Definition raise_for_status (r : Response) : M unit :=
  if status_ok r then ret tt else raise (HTTPError "status").

(** [fetch], given the outcome of the [asyncio.gather] of the two GETs:
    the exception one of them raised, or the two responses. *)
Definition fetch (gathered : Outcome (Response * Response))
  : M (list ModelPricing.t) :=
  '(bedrock_resp, fm_resp) <- lift gathered ;;
  _ <- raise_for_status bedrock_resp ;;
  _ <- raise_for_status fm_resp ;;
  bedrock_data <- lift (json bedrock_resp) ;;
  fm_data <- lift (json fm_resp) ;;
  normalize bedrock_data fm_data.

End AWSBedrockProvider.

(* ================================================================== *)
(** ** Line-items, price classes and price fields

    The loops of the two parsers read a product as a line-item (or skip
    it, or fail on it) and then write its price into the record of its
    model.  The definitions of this section name these two halves, and the
    lemmas [bedrock_item_view] and [fm_item_view] below show that the loop
    bodies are their composition. *)

Module LineItem.
Import PyStr AWSBedrockProvider.

Record t : Set := mk {
  model_name : string;
  usage_type : string;
  description : string;
  price_usd : PyFloat.float
}.

Inductive Extracted : Set :=
| Skipped
| Failed (e : exn)
| Priced (li : t).

(** What lines 59-77 make of a product of the general catalog. *)
Definition bedrock_extract (terms : Dict.t (Dict.t Catalog.Term))
    (sku : string) (product : Catalog.Product) : Extracted :=
  let attrs := Catalog.get_attributes product in
  let model_name := Dict.get_default attrs "model" "" in
  if is_empty model_name then Skipped else
  let usage_type := Dict.get_default attrs "usagetype" "" in
  if (contains "Guardrail" usage_type || contains "CustomModel" usage_type)%bool
  then Skipped else
  match Dict.get terms sku with
  | None | Some [] => Skipped
  | Some term_data =>
      match price_of term_data with
      | Raised e => Failed e
      | Returned (price_usd, description) =>
          Priced (mk model_name usage_type description price_usd)
      end
  end.

(** What lines 124-154 make of a product of the foundation-model catalog. *)
Definition fm_extract (terms : Dict.t (Dict.t Catalog.Term))
    (sku : string) (product : Catalog.Product) : Extracted :=
  let attrs := Catalog.get_attributes product in
  let service_name := Dict.get_default attrs "servicename" "" in
  if is_empty service_name then Skipped else
  let usage_type := Dict.get_default attrs "usagetype" "" in
  match Dict.get terms sku with
  | None | Some [] => Skipped
  | Some term_data =>
      match price_of term_data with
      | Raised e => Failed e
      | Returned (price_usd, description) =>
          if contains "ProvisionedThroughput" usage_type then Skipped
          else Priced (mk (Regex.sub_edition service_name) usage_type
                          description price_usd)
      end
  end.

Definition model_id (li : t) : string := _normalize_model_id (model_name li).

(** The id of the record the line-item belongs to. *)
Definition id (li : t) : string := full_id_of (model_id li).

(** The record the line-item is written into: the one the dictionary has
    under its id, or the new one made by [new]. *)
Definition target (new : string -> string -> string -> datetime -> ModelPricing.t)
    (li : t) (models : Models) (now : datetime) : ModelPricing.t :=
  match Dict.get models (id li) with
  | Some model => model
  | None => new (id li) (model_id li) (model_name li) now
  end.

Definition bedrock_write (li : t) (model : ModelPricing.t) : ModelPricing.t :=
  bedrock_update
    (bedrock_is_batch (usage_type li) (description li))
    (bedrock_is_input (usage_type li) (description li))
    (bedrock_is_output (usage_type li) (description li))
    (price_usd li) model.

Definition fm_write (li : t) (model : ModelPricing.t) : ModelPricing.t :=
  fm_update
    (fm_is_batch (usage_type li) (description li))
    (fm_is_cache_read (usage_type li) (description li))
    (fm_is_cache_write (usage_type li) (description li))
    (fm_is_input (usage_type li))
    (fm_is_output (usage_type li) (description li))
    (price_usd li) model.

(** Lines 85-114 and 157-202 for a line-item: the dictionary afterwards,
    and whether the clock was read. *)
Definition apply (new : string -> string -> string -> datetime -> ModelPricing.t)
    (write : t -> ModelPricing.t -> ModelPricing.t)
    (li : t) (models : Models) : M Models :=
  fun clock n =>
    Returned (Dict.set models (id li) (write li (target new li models (clock n))),
              if Dict.mem models (id li) then n else S n).

Definition run (new : string -> string -> string -> datetime -> ModelPricing.t)
    (write : t -> ModelPricing.t -> ModelPricing.t)
    (e : Extracted) (models : Models) : M Models :=
  match e with
  | Skipped => ret models
  | Failed e => raise e
  | Priced li => apply new write li models
  end.

End LineItem.

(** The price fields of a record. *)
Inductive Field : Set :=
| F_input | F_output | F_cached_input | F_cached_write
| F_reasoning | F_image_input | F_embedding
| F_batch_input | F_batch_output.

Definition field_value (f : Field) (m : ModelPricing.t) : option PyFloat.float :=
  let p := ModelPricing.pricing m in
  let batch (g : BatchPricing.t -> option PyFloat.float) :=
    match ModelPricing.batch_pricing m with
    | Some b => g b
    | None => None
    end in
  match f with
  | F_input => Pricing.input p
  | F_output => Pricing.output p
  | F_cached_input => Pricing.cached_input p
  | F_cached_write => Pricing.cached_write p
  | F_reasoning => Pricing.reasoning p
  | F_image_input => Pricing.image_input p
  | F_embedding => Pricing.embedding p
  | F_batch_input => batch BatchPricing.input
  | F_batch_output => batch BatchPricing.output
  end.

Definition Field_eq_dec (f g : Field) : {f = g} + {f <> g}.
Proof. decide equality. Defined.

(** The value of field [f] of the record [id] of a dictionary; [None] also
    when there is no such record. *)
Definition price_at (models : AWSBedrockProvider.Models) (id : string) (f : Field)
  : option PyFloat.float :=
  match Dict.get models id with
  | Some m => field_value f m
  | None => None
  end.

(** The seven classes of a line-item. *)
Inductive PriceClass : Set :=
| C_input | C_output | C_batch_input | C_batch_output
| C_cache_read | C_cache_write | C_unclassified.

Definition class_field (c : PriceClass) : option Field :=
  match c with
  | C_input => Some F_input
  | C_output => Some F_output
  | C_batch_input => Some F_batch_input
  | C_batch_output => Some F_batch_output
  | C_cache_read => Some F_cached_input
  | C_cache_write => Some F_cached_write
  | C_unclassified => None
  end.

(** The class the general catalog's parser gives a line-item: batch first,
    then input, then output; all three tests ignore case and look at the
    usage type and at the description. *)
Definition classify_bedrock (li : LineItem.t) : PriceClass :=
  let u := LineItem.usage_type li in
  let d := LineItem.description li in
  if AWSBedrockProvider.bedrock_is_batch u d then
    if AWSBedrockProvider.bedrock_is_input u d then C_batch_input
    else if AWSBedrockProvider.bedrock_is_output u d then C_batch_output
    else C_unclassified
  else if AWSBedrockProvider.bedrock_is_input u d then C_input
  else if AWSBedrockProvider.bedrock_is_output u d then C_output
  else C_unclassified.

(** The class the foundation-model catalog's parser gives a line-item:
    batch first, then cache read, cache write, input, output. *)
Definition classify_fm (li : LineItem.t) : PriceClass :=
  let u := LineItem.usage_type li in
  let d := LineItem.description li in
  if AWSBedrockProvider.fm_is_batch u d then
    if AWSBedrockProvider.fm_is_input u then C_batch_input
    else if AWSBedrockProvider.fm_is_output u d then C_batch_output
    else C_unclassified
  else if AWSBedrockProvider.fm_is_cache_read u d then C_cache_read
  else if AWSBedrockProvider.fm_is_cache_write u d then C_cache_write
  else if AWSBedrockProvider.fm_is_input u then C_input
  else if AWSBedrockProvider.fm_is_output u d then C_output
  else C_unclassified.

(** Going from [models] to [models'], the record [id] is there afterwards,
    the field of class [c] of that record is populated afterwards, and no
    other field of any record has changed. *)
Definition writes_only (c : PriceClass) (id : string)
    (models models' : AWSBedrockProvider.Models) : Prop :=
  Dict.mem models' id = true
  /\ (forall f, class_field c = Some f -> price_at models' id f <> None)
  /\ (forall id' f,
        ~ (id' = id /\ class_field c = Some f) ->
        price_at models' id' f = price_at models id' f).

(** Every populated price of every record of a dictionary is at least
    [0.0]. *)
Definition all_nonneg (models : AWSBedrockProvider.Models) : Prop :=
  forall k m f v,
    In (k, m) models -> field_value f m = Some v -> PyFloat.nonneg v = true.

(** Every price a catalog's terms can yield is at least [0.0]. *)
Definition prices_nonneg (data : Catalog.t) : bool :=
  forallb
    (fun entry : string * Dict.t Catalog.Term =>
       match AWSBedrockProvider.price_of (snd entry) with
       | Returned (price_usd, _) => PyFloat.nonneg price_usd
       | Raised _ => true
       end)
    (Catalog.get_on_demand data).

(** The first price dimension of the first term has a [pricePerUnit]
    without a [USD] entry. *)
Definition usd_missing (term_data : Dict.t Catalog.Term) : bool :=
  match term_data with
  | (_, term) :: _ =>
      match Catalog.priceDimensions term with
      | Some ((_, price_dim) :: _) =>
          match Catalog.pricePerUnit price_dim with
          | Some per_unit => negb (Dict.mem per_unit "USD")
          | None => false
          end
      | _ => false
      end
  | [] => false
  end.

(** A record without its timestamp, and the outcome of a normalization
    without its timestamps and without the count of clock readings. *)
Definition erase_timestamp (m : ModelPricing.t) : ModelPricing.t :=
  ModelPricing.set_last_updated m 0.

Definition timeless (o : Outcome (list ModelPricing.t * nat))
  : Outcome (list ModelPricing.t) :=
  match o with
  | Returned (records, _) => Returned (map erase_timestamp records)
  | Raised e => Raised e
  end.

Definition erase_models (models : AWSBedrockProvider.Models)
  : AWSBedrockProvider.Models :=
  map (fun entry : string * ModelPricing.t =>
         (fst entry, erase_timestamp (snd entry))) models.

(** Two outcomes of a parser agree: both raise the same exception, or both
    return, and the dictionaries differ in timestamps at most. *)
Definition agree (o1 o2 : Outcome (AWSBedrockProvider.Models * nat)) : Prop :=
  match o1, o2 with
  | Returned (a, _), Returned (b, _) => erase_models a = erase_models b
  | Raised e1, Raised e2 => e1 = e2
  | _, _ => False
  end.

(* ================================================================== *)
(** ** The slug rule in the words of the specification

    Case-folding, the slug alphabet and whitespace are given here by
    tables of their own; nothing of [PyStr] or [Regex] is used, so that
    the comparison with [_normalize_model_id] below is a comparison of two
    separate definitions. *)

Module SlugSpec.

Definition member (c : ascii) (s : string) : bool :=
  existsb (Ascii.eqb c) (list_ascii_of_string s).

(** The alphabet of a slug: [a-z0-9.-]. *)
Definition in_alphabet (c : ascii) : bool :=
  member c "abcdefghijklmnopqrstuvwxyz0123456789.-".

(** The capital letters among the code points below 256 and, place for
    place, their small letters: the twenty-six letters of the alphabet,
    and the accented capitals of Latin-1 (192..214 and 216..222) with the
    small letters thirty-two places on. *)
Definition capitals : list ascii :=
  (list_ascii_of_string "ABCDEFGHIJKLMNOPQRSTUVWXYZ"
   ++ map ascii_of_nat (seq 192 23 ++ seq 216 7))%list.

Definition smalls : list ascii :=
  (list_ascii_of_string "abcdefghijklmnopqrstuvwxyz"
   ++ map ascii_of_nat (seq 224 23 ++ seq 248 7))%list.

(** The character that stands in [to] where [c] stands in [from]; [c]
    itself when it is not in [from]. *)
Fixpoint translate (from to : list ascii) (c : ascii) : ascii :=
  match from, to with
  | a :: from', b :: to' => if Ascii.eqb c a then b else translate from' to' c
  | _, _ => c
  end.

Definition casefold_char (c : ascii) : ascii := translate capitals smalls c.

(** Case-folding, character by character. *)
Definition casefold (s : string) : string :=
  string_of_list_ascii (map casefold_char (list_ascii_of_string s)).

(** Whitespace: the blank, the layout controls TAB, LF, VT, FF and CR, the
    separators FS, GS, RS and US, the next-line control and the no-break
    space. *)
Definition whitespace : list ascii :=
  map ascii_of_nat [32; 9; 10; 11; 12; 13; 28; 29; 30; 31; 133; 160]%nat.

Definition is_whitespace (c : ascii) : bool :=
  existsb (Ascii.eqb c) whitespace.

(** Stripping: only whitespace and the slug alphabet survive. *)
Definition strip_outside (s : string) : string :=
  string_of_list_ascii
    (filter (fun c => (in_alphabet c || is_whitespace c)%bool)
       (list_ascii_of_string s)).

(** Whitespace runs become hyphens: a hyphen is written when a run starts,
    and the rest of the run is dropped ([in_run] says the previous
    character was whitespace). *)
Fixpoint hyphenate (in_run : bool) (s : string) : string :=
  match s with
  | EmptyString => EmptyString
  | String c r =>
      if is_whitespace c then
        if in_run then hyphenate true r
        else String "-"%char (hyphenate true r)
      else String c (hyphenate false r)
  end.

Definition slug (name : string) : string :=
  hyphenate false (strip_outside (casefold name)).

End SlugSpec.

(* ================================================================== *)
(** ** The classification rule in the words of the specification

    Like the slug rule above, the two readings of the rule use nothing of
    [PyStr]: a marker occurs in a text when the library's [index] finds
    it, and case is folded by [SlugSpec.casefold]. *)

Module ClassSpec.

(** The marker [w] occurs in the text [s]. *)
Definition occurs (w s : string) : bool :=
  match String.index 0 w s with
  | Some _ => true
  | None => false
  end.

End ClassSpec.

(** The class a reader of the specification expects: batch first, then
    the cache markers, then input and output, every marker looked for in
    the usage type and in the description without regard to case. *)
Definition classify_ignoring_case (li : LineItem.t) : PriceClass :=
  let u := SlugSpec.casefold (LineItem.usage_type li) in
  let d := SlugSpec.casefold (LineItem.description li) in
  let has (w : string) := (ClassSpec.occurs w u || ClassSpec.occurs w d)%bool in
  if has "batch" then
    if has "input" then C_batch_input
    else if has "output" then C_batch_output
    else C_unclassified
  else if (has "cacheread" || has "cache read")%bool then C_cache_read
  else if (has "cachewrite" || has "cache write")%bool then C_cache_write
  else if has "input" then C_input
  else if has "output" then C_output
  else C_unclassified.

(** The same precedence with the markers of the foundation-model catalog,
    each looked for where that catalog carries it and with the capitals
    it has there: "batch" in the usage type in any case or "Batch" in the
    description; "CacheRead" in the usage type or "Cache Read" in the
    description, and likewise for the cache write; "Input" in the usage
    type; "Output" in the usage type or "Response" in the description. *)
Definition classify_by_markers (li : LineItem.t) : PriceClass :=
  let u := LineItem.usage_type li in
  let d := LineItem.description li in
  let input := ClassSpec.occurs "Input" u in
  let output := (ClassSpec.occurs "Output" u || ClassSpec.occurs "Response" d)%bool in
  if (ClassSpec.occurs "batch" (SlugSpec.casefold u) || ClassSpec.occurs "Batch" d)%bool
  then
    if input then C_batch_input
    else if output then C_batch_output
    else C_unclassified
  else if (ClassSpec.occurs "CacheRead" u || ClassSpec.occurs "Cache Read" d)%bool
  then C_cache_read
  else if (ClassSpec.occurs "CacheWrite" u || ClassSpec.occurs "Cache Write" d)%bool
  then C_cache_write
  else if input then C_input
  else if output then C_output
  else C_unclassified.

(* ================================================================== *)
(** ** The store, the registry and the orchestrator *)

(** A dictionary of records is well keyed when no key occurs twice and
    every record sits under its own id. *)
Definition well_keyed (d : Dict.t ModelPricing.t) : Prop :=
  NoDup (Dict.keys d)
  /\ forall k m, In (k, m) d -> ModelPricing.id m = k.

(** Modelled from the spec: [services/pricing.py] ([PricingService]) is
    not among the sources.  The unified store is a dictionary of records
    keyed by [id]; a record that is saved replaces the record the store has
    under its id, or is added.  Which of the older records a refresh keeps
    (none, or those of the providers that did not deliver) is the parameter
    [retain]. *)
Module PricingService.

(** Modelled from the spec: the unified store of the missing
    [PricingService], records indexed by [id]. *)
Definition Store : Type := Dict.t ModelPricing.t.

(** Modelled from the spec: a later record for the same [id] replaces the
    prior one ([PricingService] is missing). *)
Definition put (store : Store) (m : ModelPricing.t) : Store :=
  Dict.set store (ModelPricing.id m) m.

(** Modelled from the spec: [PricingService.save_models], which is
    missing; the records of a refresh are merged into the store. *)
Definition save_models (retain : list ModelPricing.t -> ModelPricing.t -> bool)
    (models : list ModelPricing.t) (store : Store) : Store :=
  fold_left put models
    (filter (fun entry : string * ModelPricing.t => retain models (snd entry))
       store).

(** Modelled from the spec: [PricingService.get_by_id], which is missing;
    [None] is its NotFound. *)
Definition get_by_id (store : Store) (id : string) : option ModelPricing.t :=
  Dict.get store id.

(** Modelled from the spec: [PricingService.get_all] without filters,
    which is missing. *)
Definition get_all (store : Store) : list ModelPricing.t := Dict.values store.

End PricingService.

(** Modelled from the spec: [providers/registry.py] ([ProviderRegistry])
    and [providers/base.py] are not among the sources.  [fetch_all] runs
    the fetch of every registered provider; a fetch that raises is caught
    and recorded for that provider alone, and the records of the others
    are returned together.  The fetches run concurrently, so the model is
    given their outcomes, in registration order. *)
Module ProviderRegistry.

Definition Fetched : Type := list (string * Outcome (list ModelPricing.t)).

(** Modelled from the spec: [ProviderRegistry.fetch_all], which is
    missing; the records of the providers whose fetch returned. *)
Definition fetch_all (fetched : Fetched) : list ModelPricing.t :=
  flat_map
    (fun p : string * Outcome (list ModelPricing.t) =>
       match snd p with Returned records => records | Raised _ => [] end)
    fetched.

(** Modelled from the spec: the failures the missing [fetch_all] catches
    and records, one per provider whose fetch raised. *)
Definition failures (fetched : Fetched) : list (string * exn) :=
  flat_map
    (fun p : string * Outcome (list ModelPricing.t) =>
       match snd p with Returned _ => [] | Raised e => [(fst p, e)] end)
    fetched.

End ProviderRegistry.

(** [class Fetcher] of [services/fetcher.py]. *)
Module Fetcher.

(** The dictionary [refresh_all] returns; [elapsed_seconds] is kept as the
    difference of the two clock readings. *)
Record Summary : Set := {
  status : string;
  models_count : nat;
  elapsed_seconds : Z;
  timestamp : datetime
}.

(** [refresh_all] *)
Definition refresh_all (retain : list ModelPricing.t -> ModelPricing.t -> bool)
    (fetched : ProviderRegistry.Fetched) (store : PricingService.Store)
  : M (Summary * PricingService.Store) :=
  start <- now ;;
  let models := ProviderRegistry.fetch_all fetched in
  let store := PricingService.save_models retain models store in
  finish <- now ;;
  let elapsed := finish - start in
  stamp <- now ;;
  ret ({| status := "ok";
          models_count := List.length models;
          elapsed_seconds := elapsed;
          timestamp := stamp |},
       store).

End Fetcher.

(* ================================================================== *)
(** ** Building catalogs for examples *)

Module Build.

(** A price dimension with the given [USD] entry (none for [None]) and
    description. *)
Definition dimension (usd : option string) (desc : option string)
  : Catalog.PriceDimension :=
  {| Catalog.pricePerUnit :=
       Some (match usd with Some u => [("USD", u)] | None => [] end);
     Catalog.description := desc |}.

(** The terms of one SKU: one offer term with one price dimension. *)
Definition term_data (sku : string) (usd : option string) (desc : option string)
  : Dict.t Catalog.Term :=
  [(sku ++ ".JRTCKXETXF",
    {| Catalog.priceDimensions :=
         Some [(sku ++ ".JRTCKXETXF.6YS6EN2CT7", dimension usd desc)] |})].

Definition product (attrs : Dict.t string) : Catalog.Product :=
  {| Catalog.attributes := Some attrs |}.

Definition catalog (products : Dict.t Catalog.Product)
    (on_demand : Dict.t (Dict.t Catalog.Term)) : Catalog.t :=
  {| Catalog.products := Some products;
     Catalog.terms := Some {| Catalog.OnDemand := Some on_demand |} |}.

Definition empty_catalog : Catalog.t := catalog [] [].

Definition ok_response (data : Catalog.t) : AWSBedrockProvider.Response :=
  {| AWSBedrockProvider.status_ok := true;
     AWSBedrockProvider.json := Returned data |}.

End Build.

Module Example.
Import Build.
Import PrimFloat.

(** Catalog A of the end-to-end example: SKU [s1]. *)
Definition catalog_A : Catalog.t :=
  catalog
    [("s1", product [("usagetype", "USE1-Input-Bytes"); ("model", "Claude Model")])]
    [("s1", term_data "s1" (Some "0.003") None)].

(** Catalog B of the end-to-end example: SKU [s2]. *)
Definition catalog_B : Catalog.t :=
  catalog
    [("s2", product [("servicename", "Claude Model (Amazon Bedrock Edition)");
                     ("usagetype", "Output")])]
    [("s2", term_data "s2" (Some "0.015") None)].

Definition merged_record (t : datetime) : ModelPricing.t :=
  {| ModelPricing.id := "aws_bedrock:claude-model";
     ModelPricing.provider := "aws_bedrock";
     ModelPricing.model_id := "claude-model";
     ModelPricing.model_name := "Claude Model";
     ModelPricing.pricing :=
       Pricing.set_output (Pricing.set_input Pricing.empty 0.003%float) 0.015%float;
     ModelPricing.batch_pricing := None;
     ModelPricing.capabilities := ["text"];
     ModelPricing.last_updated := t |}.

(** One model of the foundation-model catalog with a standard and a
    latency-optimized input price, in this order. *)
Definition fm_two_tiers : Catalog.t :=
  catalog
    [("std", product [("servicename", "Claude Model (Amazon Bedrock Edition)");
                      ("usagetype", "USE1-InputTokenCount")]);
     ("lo", product [("servicename", "Claude Model (Amazon Bedrock Edition)");
                     ("usagetype", "USE1-InputTokenCount-LatencyOptimized")])]
    [("std", term_data "std" (Some "0.003") None);
     ("lo", term_data "lo" (Some "0.005") None)].

(** The same two prices in the general catalog. *)
Definition general_two_tiers : Catalog.t :=
  catalog
    [("std", product [("usagetype", "USE1-Input-Tokens"); ("model", "Claude Model")]);
     ("lo", product [("usagetype", "USE1-Input-Tokens-LatencyOptimized");
                     ("model", "Claude Model")])]
    [("std", term_data "std" (Some "0.003") None);
     ("lo", term_data "lo" (Some "0.005") None)].

(** Two cache-read prices of one model in the foundation-model catalog. *)
Definition fm_two_cache_reads : Catalog.t :=
  catalog
    [("std", product [("servicename", "Claude Model (Amazon Bedrock Edition)");
                      ("usagetype", "USE1-CacheReadInputTokenCount")]);
     ("lo", product [("servicename", "Claude Model (Amazon Bedrock Edition)");
                     ("usagetype", "USE1-CacheReadInputTokenCount-LatencyOptimized")])]
    [("std", term_data "std" (Some "0.003") None);
     ("lo", term_data "lo" (Some "0.005") None)].

Definition standard_item : LineItem.t :=
  LineItem.mk "Claude Model" "USE1-InputTokenCount" "" 0.003%float.

Definition claude_id : string := "aws_bedrock:claude-model".

Definition standard_price : PyFloat.float := 0.003%float.
Definition output_price : PyFloat.float := 0.015%float.
Definition optimized_price : PyFloat.float := 0.005%float.

Definition standard_product : Catalog.Product :=
  product [("servicename", "Claude Model (Amazon Bedrock Edition)");
           ("usagetype", "USE1-InputTokenCount")].

Definition optimized_product : Catalog.Product :=
  product [("servicename", "Claude Model (Amazon Bedrock Edition)");
           ("usagetype", "USE1-InputTokenCount-LatencyOptimized")].

(** What the parse of [fm_two_tiers] leaves in an empty dictionary. *)
Definition two_tiers_models (t : datetime) : AWSBedrockProvider.Models :=
  [(claude_id,
    ModelPricing.set_pricing (merged_record t)
      (Pricing.set_input Pricing.empty standard_price))].

(** A product of the foundation-model catalog that carries none of the
    markers. *)
Definition fm_unmarked : Catalog.t :=
  catalog
    [("u1", product [("servicename", "Foo Model"); ("usagetype", "USE1-Misc")])]
    [("u1", term_data "u1" (Some "1") None)].

Definition unmarked_product : Catalog.Product :=
  product [("servicename", "Foo Model"); ("usagetype", "USE1-Misc")].

Definition unmarked_item : LineItem.t :=
  LineItem.mk "Foo Model" "USE1-Misc" "" 1%float.

Definition unmarked_record (t : datetime) : ModelPricing.t :=
  {| ModelPricing.id := "aws_bedrock:foo-model";
     ModelPricing.provider := "aws_bedrock";
     ModelPricing.model_id := "foo-model";
     ModelPricing.model_name := "Foo Model";
     ModelPricing.pricing := Pricing.empty;
     ModelPricing.batch_pricing := None;
     ModelPricing.capabilities := ["text"];
     ModelPricing.last_updated := t |}.

(** A line-item whose usage type has the input marker in lower case. *)
Definition lowercase_item : LineItem.t :=
  LineItem.mk "Foo Model" "use1-input-tokens" "" 1%float.

(** An embedding model of the general catalog. *)
Definition general_embeddings : Catalog.t :=
  catalog
    [("e1", product [("usagetype", "USE1-Input-Tokens");
                     ("model", "Titan Embeddings")])]
    [("e1", term_data "e1" (Some "0.0001") None)].

(** The same model in the foundation-model catalog. *)
Definition fm_embeddings : Catalog.t :=
  catalog
    [("e1", product [("servicename", "Titan Embeddings (Amazon Bedrock Edition)");
                     ("usagetype", "USE1-InputTokenCount")])]
    [("e1", term_data "e1" (Some "0.0001") None)].

(** A negative price in the general catalog. *)
Definition general_negative : Catalog.t :=
  catalog
    [("n1", product [("usagetype", "USE1-Input-Tokens"); ("model", "Claude Model")])]
    [("n1", term_data "n1" (Some "-1") None)].

(** A price dimension without a [USD] entry. *)
Definition general_no_usd : Catalog.t :=
  catalog
    [("z1", product [("usagetype", "USE1-Input-Tokens"); ("model", "Claude Model")])]
    [("z1", term_data "z1" None None)].

Definition no_usd_product : Catalog.Product :=
  product [("usagetype", "USE1-Input-Tokens"); ("model", "Claude Model")].

Definition no_usd_item : LineItem.t :=
  LineItem.mk "Claude Model" "USE1-Input-Tokens" "" PrimFloat.zero.

(** A standard input price of the foundation-model catalog, and after it
    an input price of the same model whose price dimension has no [USD]
    entry. *)
Definition fm_priced_then_no_usd : Catalog.t :=
  catalog
    [("std", standard_product); ("lo", optimized_product)]
    [("std", term_data "std" (Some "0.003") None);
     ("lo", term_data "lo" None None)].

Definition no_usd_optimized_item : LineItem.t :=
  LineItem.mk "Claude Model" "USE1-InputTokenCount-LatencyOptimized" ""
    PrimFloat.zero.

Definition cache_read_price : PyFloat.float := 0.0003%float.

(** An input price and a cache-read price of one model, both in the
    general catalog. *)
Definition general_cache_read : Catalog.t :=
  catalog
    [("in", product [("usagetype", "USE1-Input-Tokens"); ("model", "Claude Model")]);
     ("cr", product [("usagetype", "USE1-CacheReadInputTokenCount");
                     ("model", "Claude Model")])]
    [("in", term_data "in" (Some "0.003") None);
     ("cr", term_data "cr" (Some "0.0003") None)].

Definition general_cache_read_item : LineItem.t :=
  LineItem.mk "Claude Model" "USE1-CacheReadInputTokenCount" "" 0.0003%float.

Definition general_cache_read_models (t : datetime) : AWSBedrockProvider.Models :=
  [(claude_id,
    ModelPricing.set_pricing (merged_record t)
      (Pricing.set_input Pricing.empty cache_read_price))].

(** The outcomes of two providers, the second of which failed. *)
Definition one_failed : ProviderRegistry.Fetched :=
  [("aws_bedrock", Returned [merged_record 7]);
   ("other", Raised (HTTPError "timeout"))].

End Example.

(** Two records that differ in their prices at most. *)
Definition same_identity (a b : ModelPricing.t) : Prop :=
  ModelPricing.id a = ModelPricing.id b
  /\ ModelPricing.provider a = ModelPricing.provider b
  /\ ModelPricing.model_id a = ModelPricing.model_id b
  /\ ModelPricing.model_name a = ModelPricing.model_name b
  /\ ModelPricing.capabilities a = ModelPricing.capabilities b
  /\ ModelPricing.last_updated a = ModelPricing.last_updated b.

(** The provider, the id and the model id of a record fit its name. *)
Definition consistent (m : ModelPricing.t) : Prop :=
  ModelPricing.provider m = AWSBedrockProvider.name
  /\ ModelPricing.id m = AWSBedrockProvider.full_id_of (ModelPricing.model_id m)
  /\ ModelPricing.model_id m
     = AWSBedrockProvider._normalize_model_id (ModelPricing.model_name m).

(** The number of characters of a string that are not whitespace. *)
Fixpoint count_nonspace (s : string) : nat :=
  match s with
  | EmptyString => O
  | String c r =>
      if PyStr.isspace c then count_nonspace r else S (count_nonspace r)
  end.

(** The last character of the string is whitespace. *)
Fixpoint ends_with_space (s : string) : bool :=
  match s with
  | EmptyString => false
  | String c EmptyString => PyStr.isspace c
  | String _ r => ends_with_space r
  end.

(** The products of a catalog that are read as line-items, in the order
    of the catalog ([extract] is [LineItem.bedrock_extract terms] or
    [LineItem.fm_extract terms]). *)
Fixpoint priced_items (extract : string -> Catalog.Product -> LineItem.Extracted)
    (products : Dict.t Catalog.Product) : list LineItem.t :=
  match products with
  | [] => []
  | (sku, product) :: rest =>
      match extract sku product with
      | LineItem.Priced li => li :: priced_items extract rest
      | _ => priced_items extract rest
      end
  end.

(** The line-item belongs to the record [k] and its class has field [f]. *)
Definition is_for (classify : LineItem.t -> PriceClass) (k : string) (f : Field)
    (li : LineItem.t) : bool :=
  (String.eqb (LineItem.id li) k
   && match class_field (classify li) with
      | Some g => if Field_eq_dec g f then true else false
      | None => false
      end)%bool.

(** The price of the last, and of the first, line-item for field [f] of
    record [k]. *)
Fixpoint last_price (classify : LineItem.t -> PriceClass) (k : string) (f : Field)
    (items : list LineItem.t) : option PyFloat.float :=
  match items with
  | [] => None
  | li :: rest =>
      match last_price classify k f rest with
      | Some p => Some p
      | None =>
          if is_for classify k f li then Some (LineItem.price_usd li) else None
      end
  end.

Fixpoint first_price (classify : LineItem.t -> PriceClass) (k : string) (f : Field)
    (items : list LineItem.t) : option PyFloat.float :=
  match items with
  | [] => None
  | li :: rest =>
      if is_for classify k f li then Some (LineItem.price_usd li)
      else first_price classify k f rest
  end.

(** What a write makes of the old value of the field of its class: the
    general catalog's parser overwrites, the foundation-model catalog's
    parser keeps a populated input or output price. *)
Definition bedrock_law (f : Field) (old : option PyFloat.float)
    (price : PyFloat.float) : option PyFloat.float :=
  Some price.

Definition fm_law (f : Field) (old : option PyFloat.float)
    (price : PyFloat.float) : option PyFloat.float :=
  match f, old with
  | (F_input | F_output), Some v => Some v
  | _, _ => Some price
  end.

(** The value of field [f] of record [k] after the line-items, given its
    value before them. *)
Fixpoint replay
    (law : Field -> option PyFloat.float -> PyFloat.float -> option PyFloat.float)
    (classify : LineItem.t -> PriceClass) (k : string) (f : Field)
    (items : list LineItem.t) (old : option PyFloat.float)
  : option PyFloat.float :=
  match items with
  | [] => old
  | li :: rest =>
      replay law classify k f rest
        (if is_for classify k f li then law f old (LineItem.price_usd li)
         else old)
  end.

(** The record [k] of the dictionary has a [batch_pricing] object. *)
Definition has_batch (models : AWSBedrockProvider.Models) (k : string) : bool :=
  match Dict.get models k with
  | Some m => match ModelPricing.batch_pricing m with
              | Some _ => true
              | None => false
              end
  | None => false
  end.

(** [li] is what a product of the general catalog is read as. *)
Definition priced_in_general (data : Catalog.t) (li : LineItem.t) : Prop :=
  exists sku product,
    In (sku, product) (Catalog.get_products data)
    /\ LineItem.bedrock_extract (Catalog.get_on_demand data) sku product
       = LineItem.Priced li.

(** [li] is what a product of the foundation-model catalog is read as. *)
Definition priced_in_fm (data : Catalog.t) (li : LineItem.t) : Prop :=
  exists sku product,
    In (sku, product) (Catalog.get_products data)
    /\ LineItem.fm_extract (Catalog.get_on_demand data) sku product
       = LineItem.Priced li.

(** More catalogs, for the further properties. *)
Module Sample.
Import Build.

Definition claude_input : Catalog.Product :=
  product [("usagetype", "USE1-Input-Tokens"); ("model", "Claude Model")].

Definition claude_output : Catalog.Product :=
  product [("usagetype", "USE1-Output-Tokens"); ("model", "Claude Model")].

(** A general catalog whose first product has a price that is no number. *)
Definition bad_price : Catalog.t :=
  catalog [("b1", claude_input); ("g1", claude_output)]
          [("b1", term_data "b1" (Some "n/a") None);
           ("g1", term_data "g1" (Some "0.015") None)].

(** A catalog with products and without the key ["terms"]. *)
Definition no_terms : Catalog.t :=
  {| Catalog.products := Some [("b1", claude_input); ("g1", claude_output)];
     Catalog.terms := None |}.

(** A provisioned-throughput product whose term has no price dimensions. *)
Definition provisioned : Catalog.Product :=
  product [("servicename", "Claude Model (Amazon Bedrock Edition)");
           ("usagetype", "USE1-ProvisionedThroughput-ModelUnits")].

Definition broken_term_data : Dict.t Catalog.Term :=
  [("p1.JRTCKXETXF", {| Catalog.priceDimensions := None |})].

Definition optimized_general_product : Catalog.Product :=
  product [("usagetype", "USE1-Input-Tokens-LatencyOptimized");
           ("model", "Claude Model")].

Definition standard_general_product : Catalog.Product :=
  product [("usagetype", "USE1-Input-Tokens"); ("model", "Claude Model")].

(** The second line-item of [Example.general_two_tiers]. *)
Definition optimized_general_item : LineItem.t :=
  LineItem.mk "Claude Model" "USE1-Input-Tokens-LatencyOptimized" ""
    Example.optimized_price.

Definition standard_cache_product : Catalog.Product :=
  product [("servicename", "Claude Model (Amazon Bedrock Edition)");
           ("usagetype", "USE1-CacheReadInputTokenCount")].

Definition optimized_cache_product : Catalog.Product :=
  product [("servicename", "Claude Model (Amazon Bedrock Edition)");
           ("usagetype", "USE1-CacheReadInputTokenCount-LatencyOptimized")].

(** The second line-item of [Example.fm_two_cache_reads]. *)
Definition optimized_cache_item : LineItem.t :=
  LineItem.mk "Claude Model" "USE1-CacheReadInputTokenCount-LatencyOptimized" ""
    Example.optimized_price.

(** What the parse of [Example.general_two_tiers] leaves in an empty
    dictionary, and the parse of [Example.fm_two_cache_reads]. *)
Definition general_two_tiers_models (t : datetime) : AWSBedrockProvider.Models :=
  [(Example.claude_id,
    ModelPricing.set_pricing (Example.merged_record t)
      (Pricing.set_input Pricing.empty Example.optimized_price))].

Definition two_cache_reads_models (t : datetime) : AWSBedrockProvider.Models :=
  [(Example.claude_id,
    ModelPricing.set_pricing (Example.merged_record t)
      (Pricing.set_cached_input Pricing.empty Example.optimized_price))].

(** A cache-read line-item of the foundation-model catalog whose price
    dimension has no [USD] entry, and the terms of its SKU. *)
Definition no_usd_cache_item : LineItem.t :=
  LineItem.mk "Claude Model" "USE1-CacheReadInputTokenCount-LatencyOptimized" ""
    PrimFloat.zero.

Definition no_usd_terms : Dict.t (Dict.t Catalog.Term) :=
  [("lo", term_data "lo" None None)].

(** The product and the line-item of [Example.catalog_A]. *)
Definition example_input_product : Catalog.Product :=
  product [("usagetype", "USE1-Input-Bytes"); ("model", "Claude Model")].

Definition example_input_item : LineItem.t :=
  LineItem.mk "Claude Model" "USE1-Input-Bytes" "" Example.standard_price.

End Sample.

(* ================================================================== *)
(** * Properties *)

(** ** Dictionaries *)

Section DictFacts.
Context {V : Type}.
Implicit Types (d : Dict.t V) (k : string) (v : V).

Lemma get_set_same d k v : Dict.get (Dict.set d k v) k = Some v.
Proof.
  induction d as [|[k' v'] d IH]; simpl.
  - now rewrite String.eqb_refl.
  - destruct (String.eqb k k') eqn:E; simpl; rewrite E; auto.
Qed.

Lemma get_set_other d k k' v :
  k' <> k -> Dict.get (Dict.set d k v) k' = Dict.get d k'.
Proof.
  intros Hne. induction d as [|[k0 v0] d IH]; simpl.
  - destruct (String.eqb k' k) eqn:E; auto.
    apply String.eqb_eq in E. contradiction.
  - destruct (String.eqb k k0) eqn:E; simpl.
    + apply String.eqb_eq in E. subst k0.
      destruct (String.eqb k' k) eqn:E'; auto.
      apply String.eqb_eq in E'. contradiction.
    + destruct (String.eqb k' k0); auto.
Qed.

Lemma set_set d k v w : Dict.set (Dict.set d k v) k w = Dict.set d k w.
Proof.
  induction d as [|[k' v'] d IH]; simpl.
  - now rewrite String.eqb_refl.
  - destruct (String.eqb k k') eqn:E; simpl; rewrite E; congruence.
Qed.

Lemma mem_get d k : Dict.mem d k = true <-> exists v, Dict.get d k = Some v.
Proof.
  unfold Dict.mem. destruct (Dict.get d k); split; eauto.
  - intros H; discriminate.
  - intros [v H]; discriminate.
Qed.

Lemma get_in d k v : Dict.get d k = Some v -> In (k, v) d.
Proof.
  induction d as [|[k' v'] d IH]; simpl; [discriminate|].
  destruct (String.eqb k k') eqn:E.
  - apply String.eqb_eq in E. intros [= ->]. subst. now left.
  - intros H. right. auto.
Qed.

Lemma get_none_keys d k : Dict.get d k = None <-> ~ In k (Dict.keys d).
Proof.
  induction d as [|[k' v'] d IH]; simpl.
  - tauto.
  - destruct (String.eqb k k') eqn:E.
    + apply String.eqb_eq in E. subst. split; [discriminate | tauto].
    + apply String.eqb_neq in E. rewrite IH. split.
      * intros H [H1 | H1]; [congruence | tauto].
      * tauto.
Qed.

Lemma in_get d k v : NoDup (Dict.keys d) -> In (k, v) d -> Dict.get d k = Some v.
Proof.
  induction d as [|[k' v'] d IH]; simpl; [tauto|].
  intros Hnd [H | H].
  - injection H as -> ->. now rewrite String.eqb_refl.
  - inversion Hnd as [|? ? Hnotin Hnd']; subst.
    destruct (String.eqb k k') eqn:E; auto.
    apply String.eqb_eq in E. subst k'.
    exfalso. apply Hnotin. change k with (fst (k, v)). now apply in_map.
Qed.

(** Assigning to a present key keeps the keys; assigning to a new key adds
    it at the end. *)
Lemma keys_set d k v :
  Dict.keys (Dict.set d k v)
  = if Dict.mem d k then Dict.keys d else (Dict.keys d ++ [k])%list.
Proof.
  unfold Dict.mem. induction d as [|[k' v'] d IH]; simpl; auto.
  destruct (String.eqb k k') eqn:E; simpl; auto.
  rewrite IH. destruct (Dict.get d k); auto.
Qed.

Lemma in_set d k v k' v' :
  In (k', v') (Dict.set d k v) -> (k' = k /\ v' = v) \/ In (k', v') d.
Proof.
  induction d as [|[k0 v0] d IH]; simpl.
  - intros [[= <- <-] | []]. auto.
  - destruct (String.eqb k k0) eqn:E; simpl.
    + apply String.eqb_eq in E. subst k0.
      intros [[= <- <-] | H]; auto.
    + intros [H | H]; auto. destruct (IH H); auto.
Qed.

Lemma nodup_keys_set d k v :
  NoDup (Dict.keys d) -> NoDup (Dict.keys (Dict.set d k v)).
Proof.
  intros Hnd. rewrite keys_set. unfold Dict.mem.
  destruct (Dict.get d k) eqn:E; auto.
  apply get_none_keys in E.
  apply NoDup_app; auto.
  - constructor; [tauto | constructor].
  - intros x Hx [<- | []]. contradiction.
Qed.

Lemma values_in d v : In v (Dict.values d) -> exists k, In (k, v) d.
Proof.
  unfold Dict.values. rewrite in_map_iff. intros [[k w] [<- H]]. eauto.
Qed.

End DictFacts.

(** ** Loops *)

Lemma for_items_app {V S} (body : string -> V -> S -> M S)
    (d1 d2 : Dict.t V) (acc : S) clock n :
  for_items body (d1 ++ d2)%list acc clock n
  = match for_items body d1 acc clock n with
    | Returned (acc', n') => for_items body d2 acc' clock n'
    | Raised e => Raised e
    end.
Proof.
  revert acc n. induction d1 as [|[k v] d1 IH]; intros acc n; simpl; auto.
  unfold bind. destruct (body k v acc clock n) as [[acc' n']|e]; auto.
Qed.

(** A property that every turn of the loop preserves holds at the end, if
    the loop ends without raising. *)
Lemma for_items_invariant {V S} (body : string -> V -> S -> M S)
    (d : Dict.t V) (P : S -> Prop) :
  (forall k v acc clock n acc' n',
      In (k, v) d -> P acc ->
      body k v acc clock n = Returned (acc', n') -> P acc') ->
  forall acc clock n acc' n',
    P acc -> for_items body d acc clock n = Returned (acc', n') -> P acc'.
Proof.
  induction d as [|[k v] d IH]; intros Hstep acc clock n acc' n' HP Hrun.
  - injection Hrun as <- _. exact HP.
  - simpl in Hrun. unfold bind in Hrun.
    destruct (body k v acc clock n) as [[acc1 n1]|e] eqn:E; [|discriminate].
    apply IH with (acc := acc1) (clock := clock) (n := n1) (n' := n').
    + intros k0 v0 a c m a' m' Hin. apply Hstep. now right.
    + apply (Hstep k v acc clock n acc1 n1); auto. now left.
    + exact Hrun.
Qed.

(** ** The loop bodies as "read a line-item, then write it" *)

Section ItemView.
Import AWSBedrockProvider.

Lemma create_then_write (models : Models) (id : string)
    (fresh : datetime -> ModelPricing.t)
    (upd : ModelPricing.t -> ModelPricing.t) clock n :
  (models1 <-
     (if Dict.mem models id then ret models
      else t <- now ;; ret (Dict.set models id (fresh t))) ;;
   model <- lift (Dict.item models1 id) ;;
   ret (Dict.set models1 id (upd model))) clock n
  = Returned
      (Dict.set models id
         (upd (match Dict.get models id with
               | Some m => m
               | None => fresh (clock n)
               end)),
       if Dict.mem models id then n else S n).
Proof.
  unfold Dict.mem, Dict.item, bind.
  destruct (Dict.get models id) as [m|] eqn:E; simpl.
  - unfold Dict.item. rewrite E. reflexivity.
  - unfold Dict.item. rewrite get_set_same. simpl. now rewrite set_set.
Qed.

Lemma bedrock_item_view terms sku product models clock n :
  bedrock_item terms sku product models clock n
  = LineItem.run bedrock_new LineItem.bedrock_write
      (LineItem.bedrock_extract terms sku product) models clock n.
Proof.
  unfold bedrock_item, LineItem.bedrock_extract.
  destruct (PyStr.is_empty _); [reflexivity|].
  destruct (_ || _)%bool; [reflexivity|].
  destruct (Dict.get terms sku) as [[|t0 td]|]; [reflexivity| |reflexivity].
  simpl falsy_term_data. cbv iota.
  destruct (price_of (t0 :: td)) as [[p d]|e]; [|reflexivity].
  unfold bind at 1. simpl lift. unfold ret at 1.
  apply create_then_write.
Qed.

Lemma fm_item_view terms sku product models clock n :
  fm_item terms sku product models clock n
  = LineItem.run fm_new LineItem.fm_write
      (LineItem.fm_extract terms sku product) models clock n.
Proof.
  unfold fm_item, LineItem.fm_extract.
  destruct (PyStr.is_empty _); [reflexivity|].
  destruct (Dict.get terms sku) as [[|t0 td]|]; [reflexivity| |reflexivity].
  simpl falsy_term_data. cbv iota.
  destruct (price_of (t0 :: td)) as [[p d]|e]; [|reflexivity].
  unfold bind at 1. simpl lift. unfold ret at 1.
  destruct (PyStr.contains "ProvisionedThroughput" _); [reflexivity|].
  apply create_then_write.
Qed.

End ItemView.

(** ** What a parser preserves *)

Section ParserInvariants.
Import AWSBedrockProvider.
Variable P : Models -> Prop.

Lemma run_invariant new write e models clock n models' n' :
  (forall li t, e = LineItem.Priced li -> P models ->
     P (Dict.set models (LineItem.id li)
          (write li (LineItem.target new li models t)))) ->
  P models ->
  LineItem.run new write e models clock n = Returned (models', n') ->
  P models'.
Proof.
  intros Hstep HP. destruct e as [|e|li]; simpl.
  - intros [= <- _]. exact HP.
  - discriminate.
  - unfold LineItem.apply. intros [= <- _]. now apply Hstep.
Qed.

Lemma parse_bedrock_invariant data :
  (forall sku product li models t,
      In (sku, product) (Catalog.get_products data) ->
      LineItem.bedrock_extract (Catalog.get_on_demand data) sku product
        = LineItem.Priced li ->
      P models ->
      P (Dict.set models (LineItem.id li)
           (LineItem.bedrock_write li
              (LineItem.target bedrock_new li models t)))) ->
  forall models clock n models' n',
    P models ->
    _parse_bedrock_data data models clock n = Returned (models', n') ->
    P models'.
Proof.
  intros Hstep. unfold _parse_bedrock_data.
  apply for_items_invariant.
  intros sku product acc clock n acc' n' Hin HP.
  rewrite bedrock_item_view. apply run_invariant; auto.
  intros li t E. now apply Hstep with sku product.
Qed.

Lemma parse_fm_invariant data :
  (forall sku product li models t,
      In (sku, product) (Catalog.get_products data) ->
      LineItem.fm_extract (Catalog.get_on_demand data) sku product
        = LineItem.Priced li ->
      P models ->
      P (Dict.set models (LineItem.id li)
           (LineItem.fm_write li (LineItem.target fm_new li models t)))) ->
  forall models clock n models' n',
    P models ->
    _parse_fm_data data models clock n = Returned (models', n') ->
    P models'.
Proof.
  intros Hstep. unfold _parse_fm_data.
  apply for_items_invariant.
  intros sku product acc clock n acc' n' Hin HP.
  rewrite fm_item_view. apply run_invariant; auto.
  intros li t E. now apply Hstep with sku product.
Qed.

End ParserInvariants.

(** What [normalize] returns comes from the dictionary the two parsers
    built in turn. *)
Lemma normalize_inv bedrock_data fm_data clock n records n' :
  AWSBedrockProvider.normalize bedrock_data fm_data clock n
    = Returned (records, n') ->
  exists models_a n_a models_b,
    AWSBedrockProvider._parse_bedrock_data bedrock_data [] clock n
      = Returned (models_a, n_a)
    /\ AWSBedrockProvider._parse_fm_data fm_data models_a clock n_a
      = Returned (models_b, n')
    /\ records = Dict.values models_b.
Proof.
  unfold AWSBedrockProvider.normalize, bind.
  destruct (AWSBedrockProvider._parse_bedrock_data _ _ _ _) as [[ma na]|e] eqn:Ea;
    [|discriminate].
  destruct (AWSBedrockProvider._parse_fm_data _ _ _ _) as [[mb nb]|e] eqn:Eb;
    [|discriminate].
  intros [= <- <-]. exists ma, na, mb. auto.
Qed.

(** What [fetch] returns is the normalization of two decoded catalogs. *)
Lemma fetch_inv gathered clock n records n' :
  AWSBedrockProvider.fetch gathered clock n = Returned (records, n') ->
  exists bedrock_data fm_data,
    AWSBedrockProvider.normalize bedrock_data fm_data clock n
      = Returned (records, n').
Proof.
  unfold AWSBedrockProvider.fetch, bind.
  destruct gathered as [[ra rb]|e]; simpl; [|discriminate].
  unfold AWSBedrockProvider.raise_for_status.
  destruct (AWSBedrockProvider.status_ok ra); simpl; [|discriminate].
  destruct (AWSBedrockProvider.status_ok rb); simpl; [|discriminate].
  destruct (AWSBedrockProvider.json ra) as [da|e]; simpl; [|discriminate].
  destruct (AWSBedrockProvider.json rb) as [db|e]; simpl; [|discriminate].
  intros H. now exists da, db.
Qed.

(** ** What a write leaves alone *)

Section WriteFacts.
Import AWSBedrockProvider.

Lemma bedrock_update_frame b i o p m :
  ModelPricing.id (bedrock_update b i o p m) = ModelPricing.id m
  /\ ModelPricing.model_name (bedrock_update b i o p m) = ModelPricing.model_name m
  /\ ModelPricing.capabilities (bedrock_update b i o p m) = ModelPricing.capabilities m
  /\ ModelPricing.last_updated (bedrock_update b i o p m) = ModelPricing.last_updated m
  /\ ModelPricing.provider (bedrock_update b i o p m) = ModelPricing.provider m
  /\ ModelPricing.model_id (bedrock_update b i o p m) = ModelPricing.model_id m.
Proof.
  unfold bedrock_update. destruct b, i, o; simpl; auto 10.
Qed.

Lemma fm_update_frame b cr cw i o p m :
  ModelPricing.id (fm_update b cr cw i o p m) = ModelPricing.id m
  /\ ModelPricing.model_name (fm_update b cr cw i o p m) = ModelPricing.model_name m
  /\ ModelPricing.capabilities (fm_update b cr cw i o p m) = ModelPricing.capabilities m
  /\ ModelPricing.last_updated (fm_update b cr cw i o p m) = ModelPricing.last_updated m
  /\ ModelPricing.provider (fm_update b cr cw i o p m) = ModelPricing.provider m
  /\ ModelPricing.model_id (fm_update b cr cw i o p m) = ModelPricing.model_id m.
Proof.
  unfold fm_update.
  destruct b, cr, cw, i, o; simpl;
    destruct (Pricing.input (ModelPricing.pricing m));
    destruct (Pricing.output (ModelPricing.pricing m)); simpl; auto 10.
Qed.

End WriteFacts.

(** ** Well-keyed dictionaries *)

Lemma well_keyed_nil : well_keyed [].
Proof.
  split; [constructor | intros k m []].
Qed.

Lemma well_keyed_set d k m :
  well_keyed d -> ModelPricing.id m = k -> well_keyed (Dict.set d k m).
Proof.
  intros [Hnd Hid] Hm. split.
  - now apply nodup_keys_set.
  - intros k' m' Hin. apply in_set in Hin.
    destruct Hin as [[-> ->] | Hin]; auto.
Qed.

Lemma well_keyed_ids d :
  well_keyed d -> map ModelPricing.id (Dict.values d) = Dict.keys d.
Proof.
  intros [_ Hid]. unfold Dict.values, Dict.keys. rewrite map_map.
  apply map_ext_in. intros [k m] Hin. simpl. auto.
Qed.

Lemma well_keyed_filter d (keep : string * ModelPricing.t -> bool) :
  well_keyed d -> well_keyed (filter keep d).
Proof.
  intros [Hnd Hid]. split.
  - clear Hid. induction d as [|[k m] d IH]; simpl; auto.
    inversion Hnd as [|? ? Hnotin Hnd']; subst.
    destruct (keep (k, m)); simpl; auto.
    constructor; auto.
    intros Hin. apply Hnotin. unfold Dict.keys in *.
    rewrite in_map_iff in *. destruct Hin as [x [Hx Hin]].
    apply filter_In in Hin. exists x. tauto.
  - intros k m Hin. apply filter_In in Hin. apply Hid. tauto.
Qed.

Section TargetFacts.
Import AWSBedrockProvider.

Lemma target_id new li models t :
  (forall a b c u, ModelPricing.id (new a b c u) = a) ->
  well_keyed models ->
  ModelPricing.id (LineItem.target new li models t) = LineItem.id li.
Proof.
  intros Hnew [_ Hid]. unfold LineItem.target.
  destruct (Dict.get models (LineItem.id li)) eqn:E; auto.
  apply get_in in E. auto.
Qed.

Lemma bedrock_write_id li m :
  ModelPricing.id (LineItem.bedrock_write li m) = ModelPricing.id m.
Proof. apply bedrock_update_frame. Qed.

Lemma fm_write_id li m :
  ModelPricing.id (LineItem.fm_write li m) = ModelPricing.id m.
Proof. apply fm_update_frame. Qed.

Lemma parse_bedrock_well_keyed data models clock n models' n' :
  well_keyed models ->
  _parse_bedrock_data data models clock n = Returned (models', n') ->
  well_keyed models'.
Proof.
  apply parse_bedrock_invariant.
  intros sku product li ms t _ _ Hwk.
  apply well_keyed_set; auto.
  rewrite bedrock_write_id. now apply target_id.
Qed.

Lemma parse_fm_well_keyed data models clock n models' n' :
  well_keyed models ->
  _parse_fm_data data models clock n = Returned (models', n') ->
  well_keyed models'.
Proof.
  apply parse_fm_invariant.
  intros sku product li ms t _ _ Hwk.
  apply well_keyed_set; auto.
  rewrite fm_write_id. now apply target_id.
Qed.

Lemma normalize_well_keyed bedrock_data fm_data clock n records n' :
  normalize bedrock_data fm_data clock n = Returned (records, n') ->
  exists models, well_keyed models /\ records = Dict.values models.
Proof.
  intros H. apply normalize_inv in H.
  destruct H as (ma & na & mb & Ha & Hb & ->).
  exists mb. split; auto.
  eapply parse_fm_well_keyed; [|exact Hb].
  eapply parse_bedrock_well_keyed; [|exact Ha].
  apply well_keyed_nil.
Qed.

End TargetFacts.

(** ** The store *)

Section StoreFacts.
Import PricingService.

Lemma put_well_keyed store m : well_keyed store -> well_keyed (put store m).
Proof.
  intros H. now apply well_keyed_set.
Qed.

Lemma fold_put_well_keyed models store :
  well_keyed store -> well_keyed (fold_left put models store).
Proof.
  revert store. induction models as [|m ms IH]; simpl; auto.
  intros store H. apply IH. now apply put_well_keyed.
Qed.

Lemma save_models_well_keyed retain models store :
  well_keyed store -> well_keyed (save_models retain models store).
Proof.
  intros H. unfold save_models.
  apply fold_put_well_keyed. now apply well_keyed_filter.
Qed.

Lemma fold_put_get_other models store k :
  ~ In k (map ModelPricing.id models) ->
  Dict.get (fold_left put models store) k = Dict.get store k.
Proof.
  revert store. induction models as [|m ms IH]; simpl; auto.
  intros store Hnotin. rewrite IH by tauto.
  unfold put. apply get_set_other. intros ->. tauto.
Qed.

(** Every record that is saved can be looked up afterwards, when the
    saved records have different ids. *)
Lemma fold_put_get models store r :
  NoDup (map ModelPricing.id models) -> In r models ->
  Dict.get (fold_left put models store) (ModelPricing.id r) = Some r.
Proof.
  revert store. induction models as [|m ms IH]; simpl; [tauto|].
  intros store Hnd [-> | Hin]; inversion Hnd as [|? ? Hnotin Hnd']; subst.
  - rewrite fold_put_get_other by assumption.
    unfold put. apply get_set_same.
  - now apply IH.
Qed.

End StoreFacts.

(** ** Unique ids *)

Lemma apply_keeps_keys new write li models clock n models' n' :
  LineItem.apply new write li models clock n = Returned (models', n') ->
  Dict.mem models (LineItem.id li) = true ->
  Dict.keys models' = Dict.keys models.
Proof.
  unfold LineItem.apply. intros [= <- _] Hmem.
  rewrite keys_set. now rewrite Hmem.
Qed.

(** C6.  The records a fetch returns have pairwise different ids, and a
    line-item whose id the dictionary already has is written into the
    record that is there: the keys of the dictionary stay as they are.  In
    the store (modelled from the spec) a refresh keeps the records under
    pairwise different ids, and saving a record under an id the store has
    replaces the record that was there. *)
Theorem ids_unique :
  (forall gathered clock n records n',
      AWSBedrockProvider.fetch gathered clock n = Returned (records, n') ->
      NoDup (map ModelPricing.id records))
  /\ (forall terms sku product li models clock n models' n',
        (LineItem.bedrock_extract terms sku product = LineItem.Priced li
         /\ AWSBedrockProvider.bedrock_item terms sku product models clock n
            = Returned (models', n'))
        \/ (LineItem.fm_extract terms sku product = LineItem.Priced li
            /\ AWSBedrockProvider.fm_item terms sku product models clock n
               = Returned (models', n')) ->
        Dict.mem models (LineItem.id li) = true ->
        Dict.keys models' = Dict.keys models)
  /\ (forall retain fetched store clock n summary store' n',
        well_keyed store ->
        Fetcher.refresh_all retain fetched store clock n
          = Returned ((summary, store'), n') ->
        well_keyed store'
        /\ NoDup (map ModelPricing.id (PricingService.get_all store')))
  /\ (forall store m,
        PricingService.get_by_id (PricingService.put store m) (ModelPricing.id m)
          = Some m
        /\ (Dict.mem store (ModelPricing.id m) = true ->
            Dict.keys (PricingService.put store m) = Dict.keys store)).
Proof.
  split; [|split; [|split]].
  - intros gathered clock n records n' H.
    apply fetch_inv in H. destruct H as (da & db & H).
    apply normalize_well_keyed in H. destruct H as (models & Hwk & ->).
    rewrite well_keyed_ids by assumption. apply Hwk.
  - intros terms sku product li models clock n models' n' [[E H] | [E H]] Hmem.
    + rewrite bedrock_item_view, E in H. simpl in H.
      eapply apply_keeps_keys; eauto.
    + rewrite fm_item_view, E in H. simpl in H.
      eapply apply_keeps_keys; eauto.
  - intros retain fetched store clock n summary store' n' Hwk H.
    unfold Fetcher.refresh_all, bind, now, ret in H.
    injection H as _ <- _.
    assert (Hwk' : well_keyed
                     (PricingService.save_models retain
                        (ProviderRegistry.fetch_all fetched) store))
      by now apply save_models_well_keyed.
    split; [exact Hwk'|].
    unfold PricingService.get_all.
    rewrite well_keyed_ids by exact Hwk'. apply Hwk'.
  - intros store m. split.
    + apply get_set_same.
    + intros Hmem. unfold PricingService.put. rewrite keys_set.
      now rewrite Hmem.
Qed.

Lemma ids_unique_witness :
  NoDup (map ModelPricing.id [Example.merged_record 7]).
Proof.
  apply (proj1 ids_unique
           (Returned (Build.ok_response Example.catalog_A,
                      Build.ok_response Example.catalog_B))
           (fun _ => 7) 0%nat [Example.merged_record 7] 1%nat).
  reflexivity.
Defined.

(** ** Failures of single providers *)

(** C9.  With [fetch_all] and the store modelled from the spec,
    [refresh_all] returns for every list of fetch outcomes, whichever of
    them raised: the summary has status ["ok"], the number of records the
    successful providers delivered, the time between the first two clock
    readings and the third reading as its timestamp; each provider that
    raised is on the list of recorded failures; and when the delivered
    records have pairwise different ids, each of them is in the store
    afterwards and is found under its id. *)
Theorem refresh_all_isolates_failures retain fetched store clock n :
  exists summary store',
    Fetcher.refresh_all retain fetched store clock n
      = Returned ((summary, store'), S (S (S n)))
    /\ Fetcher.status summary = "ok"
    /\ Fetcher.models_count summary
       = List.length (ProviderRegistry.fetch_all fetched)
    /\ Fetcher.elapsed_seconds summary = clock (S n) - clock n
    /\ Fetcher.timestamp summary = clock (S (S n))
    /\ (forall name e,
          In (name, Raised e) fetched ->
          In (name, e) (ProviderRegistry.failures fetched))
    /\ (NoDup (map ModelPricing.id (ProviderRegistry.fetch_all fetched)) ->
        forall name records r,
          In (name, Returned records) fetched -> In r records ->
          PricingService.get_by_id store' (ModelPricing.id r) = Some r
          /\ In r (PricingService.get_all store')).
Proof.
  exists {| Fetcher.status := "ok";
            Fetcher.models_count :=
              List.length (ProviderRegistry.fetch_all fetched);
            Fetcher.elapsed_seconds := clock (S n) - clock n;
            Fetcher.timestamp := clock (S (S n)) |}.
  exists (PricingService.save_models retain
            (ProviderRegistry.fetch_all fetched) store).
  split; [reflexivity|].
  cbn [Fetcher.status Fetcher.models_count Fetcher.elapsed_seconds
       Fetcher.timestamp].
  repeat split.
  - intros name e Hin. unfold ProviderRegistry.failures.
    apply in_flat_map. exists (name, Raised e). simpl. auto.
  - unfold PricingService.get_by_id, PricingService.save_models.
    apply fold_put_get; auto.
    unfold ProviderRegistry.fetch_all. apply in_flat_map.
    exists (name, Returned records). auto.
  - assert (Hget : Dict.get
                     (PricingService.save_models retain
                        (ProviderRegistry.fetch_all fetched) store)
                     (ModelPricing.id r) = Some r).
    { unfold PricingService.save_models. apply fold_put_get; auto.
      unfold ProviderRegistry.fetch_all. apply in_flat_map.
      exists (name, Returned records). auto. }
    apply get_in in Hget. unfold PricingService.get_all, Dict.values.
    apply in_map_iff. exists (ModelPricing.id r, r). auto.
Qed.

Lemma refresh_all_isolates_failures_witness :
  exists summary store',
    Fetcher.refresh_all (fun _ _ => false) Example.one_failed []
      (fun _ => 7) 0%nat
    = Returned ((summary, store'), 3%nat)
    /\ PricingService.get_by_id store' Example.claude_id
       = Some (Example.merged_record 7).
Proof.
  destruct (refresh_all_isolates_failures (fun _ _ => false)
              Example.one_failed [] (fun _ => 7) 0%nat)
    as (summary & store' & Hrun & _ & _ & _ & _ & _ & Hstore).
  exists summary, store'. split; [exact Hrun|].
  apply (Hstore
           (NoDup_cons _ (fun H : In _ [] => H) (NoDup_nil _))
           "aws_bedrock" [Example.merged_record 7] (Example.merged_record 7));
    simpl; auto.
Defined.

(** ** The slug rule *)

Section SlugFacts.
Import PyStr.

Ltac by_cases_on_char c :=
  destruct c as [[] [] [] [] [] [] [] []]; try reflexivity; try discriminate.

Lemma slug_char_spec c :
  Regex.slug_char c = (SlugSpec.in_alphabet c || isspace c)%bool.
Proof. by_cases_on_char c. Qed.

Lemma alphabet_not_space c : SlugSpec.in_alphabet c = true -> isspace c = false.
Proof. by_cases_on_char c. Qed.

Lemma alphabet_lower c : SlugSpec.in_alphabet c = true -> lower_char c = c.
Proof. by_cases_on_char c. Qed.

(** The case-folding and the whitespace of the specification against
    [str.lower] and [\s], character by character. *)
Lemma casefold_char_lower c : SlugSpec.casefold_char c = lower_char c.
Proof. destruct c as [[] [] [] [] [] [] [] []]; vm_compute; reflexivity. Qed.

Lemma whitespace_isspace c : SlugSpec.is_whitespace c = isspace c.
Proof. destruct c as [[] [] [] [] [] [] [] []]; vm_compute; reflexivity. Qed.

Lemma casefold_lower s : SlugSpec.casefold s = lower s.
Proof.
  unfold SlugSpec.casefold.
  induction s as [|c r IH]; cbn [list_ascii_of_string map string_of_list_ascii lower];
    [reflexivity|].
  now rewrite casefold_char_lower, IH.
Qed.

Lemma strip_outside_filter s :
  SlugSpec.strip_outside s = Regex.sub_non_slug s.
Proof.
  unfold SlugSpec.strip_outside, Regex.sub_non_slug.
  induction s as [|c r IH];
    cbn [list_ascii_of_string filter string_of_list_ascii filter_chars];
    [reflexivity|].
  rewrite slug_char_spec, whitespace_isspace.
  destruct (SlugSpec.in_alphabet c || isspace c)%bool;
    cbn [string_of_list_ascii]; congruence.
Qed.

Lemma hyphenate_cons b c r :
  SlugSpec.hyphenate b (String c r)
  = if isspace c
    then if b then SlugSpec.hyphenate true r
         else String "-"%char (SlugSpec.hyphenate true r)
    else String c (SlugSpec.hyphenate false r).
Proof. rewrite <- whitespace_isspace. reflexivity. Qed.

(** The two ways of replacing whitespace runs agree: writing the hyphen
    when the run starts, or when it ends. *)
Lemma hyphenate_sub_ws_runs s :
  SlugSpec.hyphenate false s = Regex.sub_ws_runs s
  /\ forall c, isspace c = true ->
       Regex.sub_ws_runs (String c s)
       = String "-"%char (SlugSpec.hyphenate true s).
Proof.
  induction s as [|a r [IH1 IH2]].
  - split; [reflexivity|]. intros c Hc. simpl. now rewrite Hc.
  - split.
    + rewrite hyphenate_cons. destruct (isspace a) eqn:Ea.
      * now rewrite IH2 by assumption.
      * simpl. rewrite Ea. now rewrite IH1.
    + intros c Hc.
      change (Regex.sub_ws_runs (String c (String a r)))
        with (if isspace c
              then if isspace a then Regex.sub_ws_runs (String a r)
                   else String "-"%char (Regex.sub_ws_runs (String a r))
              else String c (Regex.sub_ws_runs (String a r))).
      rewrite Hc, hyphenate_cons. destruct (isspace a) eqn:Ea.
      * now rewrite IH2 by assumption.
      * simpl. rewrite Ea. now rewrite IH1.
Qed.

Lemma hyphenate_alphabet s b :
  all_chars (fun c => (SlugSpec.in_alphabet c || isspace c)%bool) s = true ->
  all_chars SlugSpec.in_alphabet (SlugSpec.hyphenate b s) = true.
Proof.
  revert b. induction s as [|c r IH]; intros b; [reflexivity|].
  cbn [all_chars]. intros H. apply andb_true_iff in H. destruct H as [Hc Hr].
  rewrite hyphenate_cons. destruct (isspace c) eqn:Ec.
  - destruct b; cbn [all_chars]; auto.
    change (SlugSpec.in_alphabet "-"%char) with true. simpl. auto.
  - rewrite orb_false_r in Hc. cbn [all_chars]. rewrite Hc. simpl. auto.
Qed.

Lemma filter_chars_all p s : all_chars p (filter_chars p s) = true.
Proof.
  induction s as [|c r IH]; simpl; auto.
  destruct (p c) eqn:E; simpl; auto. now rewrite E.
Qed.

Lemma all_chars_ext p q s :
  (forall c, p c = q c) -> all_chars p s = all_chars q s.
Proof.
  intros H. induction s as [|c r IH]; simpl; auto. now rewrite H, IH.
Qed.

Lemma slug_fixed s :
  all_chars SlugSpec.in_alphabet s = true ->
  AWSBedrockProvider._normalize_model_id s = s.
Proof.
  unfold AWSBedrockProvider._normalize_model_id, Regex.sub_non_slug.
  induction s as [|c r IH]; simpl; auto.
  intros H. apply andb_true_iff in H. destruct H as [Hc Hr].
  rewrite (alphabet_lower c Hc), slug_char_spec, Hc. simpl.
  rewrite (alphabet_not_space c Hc). f_equal. now apply IH.
Qed.

End SlugFacts.

(** C5.  The model id is a function of the display name alone (no clock,
    no dictionary enters it), and it is the slug of the specification,
    which is written above without any part of the model of the code: the
    name is case-folded (capital letters become their small letters), the
    characters that are neither whitespace nor in [a-z0-9.-] are stripped,
    and every whitespace run becomes one hyphen.  So a model id has only
    characters of [a-z0-9.-], and normalizing a model id gives it back.
    The name "Claude 3.5  Sonnet (v2)", with its capitals, its run of two
    blanks and its brackets, becomes "claude-3.5-sonnet-v2". *)
Theorem model_id_is_slug (name : string) :
  AWSBedrockProvider._normalize_model_id name = SlugSpec.slug name
  /\ PyStr.all_chars SlugSpec.in_alphabet
       (AWSBedrockProvider._normalize_model_id name) = true
  /\ AWSBedrockProvider._normalize_model_id
       (AWSBedrockProvider._normalize_model_id name)
     = AWSBedrockProvider._normalize_model_id name
  /\ AWSBedrockProvider._normalize_model_id "Claude 3.5  Sonnet (v2)"
     = "claude-3.5-sonnet-v2".
Proof.
  assert (E : AWSBedrockProvider._normalize_model_id name = SlugSpec.slug name).
  { unfold AWSBedrockProvider._normalize_model_id, SlugSpec.slug.
    rewrite casefold_lower, strip_outside_filter.
    symmetry. apply hyphenate_sub_ws_runs. }
  assert (A : PyStr.all_chars SlugSpec.in_alphabet (SlugSpec.slug name) = true).
  { unfold SlugSpec.slug. apply hyphenate_alphabet.
    rewrite strip_outside_filter. unfold Regex.sub_non_slug.
    rewrite <- (all_chars_ext _ _ _ slug_char_spec).
    apply filter_chars_all. }
  split; [exact E|]. rewrite E. split; [exact A|].
  split; [now apply slug_fixed | reflexivity].
Qed.

(** ** What a write does to the price fields *)

Section FieldFacts.
Import AWSBedrockProvider.

Ltac bedrock_flags li :=
  destruct (bedrock_is_batch (LineItem.usage_type li) (LineItem.description li));
  destruct (bedrock_is_input (LineItem.usage_type li) (LineItem.description li));
  destruct (bedrock_is_output (LineItem.usage_type li) (LineItem.description li)).

Ltac fm_flags li :=
  destruct (fm_is_batch (LineItem.usage_type li) (LineItem.description li));
  destruct (fm_is_cache_read (LineItem.usage_type li) (LineItem.description li));
  destruct (fm_is_cache_write (LineItem.usage_type li) (LineItem.description li));
  destruct (fm_is_input (LineItem.usage_type li));
  destruct (fm_is_output (LineItem.usage_type li) (LineItem.description li)).

Ltac crunch_write m :=
  destruct m as [? ? ? ? [[?|] [?|] ? ? ? ? ?] [?|] ? ?];
  simpl; intros; try reflexivity; try congruence.

(** The general catalog's parser writes the price into the field of the
    line-item's class ... *)
Lemma bedrock_write_class li m f :
  class_field (classify_bedrock li) = Some f ->
  field_value f (LineItem.bedrock_write li m) = Some (LineItem.price_usd li).
Proof.
  unfold classify_bedrock, LineItem.bedrock_write, bedrock_update, field_value,
    ensure_batch, with_batch, with_pricing.
  cbv zeta.
  bedrock_flags li; destruct f; simpl; try discriminate; crunch_write m.
Qed.

(** ... and into no other field. *)
Lemma bedrock_write_other li m f :
  class_field (classify_bedrock li) <> Some f ->
  field_value f (LineItem.bedrock_write li m) = field_value f m.
Proof.
  unfold classify_bedrock, LineItem.bedrock_write, bedrock_update, field_value,
    ensure_batch, with_batch, with_pricing.
  cbv zeta.
  bedrock_flags li; destruct f; simpl; crunch_write m.
Qed.

(** The foundation-model catalog's parser writes the price into the field
    of the line-item's class, except that a populated input or output
    price stays. *)
Lemma fm_write_class li m f :
  class_field (classify_fm li) = Some f ->
  field_value f (LineItem.fm_write li m)
  = match f, field_value f m with
    | (F_input | F_output), Some v => Some v
    | _, _ => Some (LineItem.price_usd li)
    end.
Proof.
  unfold classify_fm, LineItem.fm_write, fm_update, field_value,
    ensure_batch, with_batch, with_pricing.
  cbv zeta.
  fm_flags li; destruct f; simpl; try discriminate; crunch_write m.
Qed.

Lemma fm_write_other li m f :
  class_field (classify_fm li) <> Some f ->
  field_value f (LineItem.fm_write li m) = field_value f m.
Proof.
  unfold classify_fm, LineItem.fm_write, fm_update, field_value,
    ensure_batch, with_batch, with_pricing.
  cbv zeta.
  fm_flags li; destruct f; simpl; crunch_write m.
Qed.

(** A populated input or output price survives every write of the
    foundation-model catalog's parser. *)
Lemma fm_write_keeps li m f v :
  f = F_input \/ f = F_output ->
  field_value f m = Some v ->
  field_value f (LineItem.fm_write li m) = Some v.
Proof.
  intros Hf Hv.
  destruct (class_field (classify_fm li)) as [g|] eqn:E.
  - destruct (Field_eq_dec g f) as [->|Hne].
    + rewrite (fm_write_class _ _ _ E).
      destruct Hf as [-> | ->]; now rewrite Hv.
    + rewrite fm_write_other; auto. congruence.
  - rewrite fm_write_other; auto. congruence.
Qed.

Lemma new_fields_empty f full_id model_id model_name t :
  field_value f (bedrock_new full_id model_id model_name t) = None
  /\ field_value f (fm_new full_id model_id model_name t) = None.
Proof. destruct f; auto. Qed.

(** The record a line-item is written into has the prices the dictionary
    has for its id. *)
Lemma target_fields new li models t f :
  (forall a b c u g, field_value g (new a b c u) = None) ->
  field_value f (LineItem.target new li models t)
  = price_at models (LineItem.id li) f.
Proof.
  intros Hnew. unfold LineItem.target, price_at.
  destruct (Dict.get models (LineItem.id li)); auto.
Qed.

Lemma price_at_set_same models id m f :
  price_at (Dict.set models id m) id f = field_value f m.
Proof. unfold price_at. now rewrite get_set_same. Qed.

Lemma price_at_set_other models id id' m f :
  id' <> id -> price_at (Dict.set models id m) id' f = price_at models id' f.
Proof. intros H. unfold price_at. now rewrite get_set_other. Qed.

End FieldFacts.

(** ** Classification *)

Section ClassFacts.
Import AWSBedrockProvider.

Lemma apply_writes_only new write (c : PriceClass) li models clock n :
  (forall a b d u g, field_value g (new a b d u) = None) ->
  (forall m f, class_field c <> Some f ->
               field_value f (write li m) = field_value f m) ->
  (forall m f, class_field c = Some f -> field_value f (write li m) <> None) ->
  exists models' n',
    LineItem.apply new write li models clock n = Returned (models', n')
    /\ writes_only c (LineItem.id li) models models'.
Proof.
  intros Hnew Hother Hclass. unfold LineItem.apply.
  eexists. eexists. split; [reflexivity|]. repeat split.
  - unfold Dict.mem. now rewrite get_set_same.
  - intros f Hf. rewrite price_at_set_same. now apply Hclass.
  - intros id' f Hnot.
    destruct (string_dec id' (LineItem.id li)) as [->|Hne].
    + rewrite price_at_set_same, Hother, target_fields; auto.
    + now apply price_at_set_other.
Qed.

Lemma bedrock_new_empty a b d u g : field_value g (bedrock_new a b d u) = None.
Proof. apply new_fields_empty. Qed.

Lemma fm_new_empty a b d u g : field_value g (fm_new a b d u) = None.
Proof. apply (new_fields_empty g a b d u). Qed.

Lemma classify_bedrock_no_cache li :
  classify_bedrock li <> C_cache_read /\ classify_bedrock li <> C_cache_write.
Proof.
  unfold classify_bedrock. cbv zeta.
  destruct (bedrock_is_batch (LineItem.usage_type li) (LineItem.description li));
    destruct (bedrock_is_input (LineItem.usage_type li) (LineItem.description li));
    destruct (bedrock_is_output (LineItem.usage_type li) (LineItem.description li));
    split; discriminate.
Qed.

End ClassFacts.

(** The occurrence test of the specification against [in] on strings. *)
Lemma prefix_startswith p s : String.prefix p s = PyStr.startswith p s.
Proof.
  revert s. induction p as [|a p IH]; intros [|b s]; try reflexivity.
  cbn [String.prefix PyStr.startswith].
  destruct (ascii_dec a b) as [->|Hne].
  - rewrite Ascii.eqb_refl. apply IH.
  - apply Ascii.eqb_neq in Hne. now rewrite Hne.
Qed.

Lemma occurs_contains w s : ClassSpec.occurs w s = PyStr.contains w s.
Proof.
  unfold ClassSpec.occurs. induction s as [|c r IH].
  - now destruct w.
  - cbn [String.index PyStr.contains]. rewrite prefix_startswith.
    destruct (PyStr.startswith w (String c r)); [reflexivity|].
    cbn [orb]. rewrite <- IH. now destruct (String.index 0 w r).
Qed.

(** Where the reading of the specification finds no cache class, the
    general catalog's parser finds the class of the specification. *)
Lemma classify_bedrock_as_specified li :
  classify_ignoring_case li <> C_cache_read ->
  classify_ignoring_case li <> C_cache_write ->
  classify_bedrock li = classify_ignoring_case li.
Proof.
  unfold classify_bedrock, classify_ignoring_case,
    AWSBedrockProvider.bedrock_is_batch, AWSBedrockProvider.bedrock_is_input,
    AWSBedrockProvider.bedrock_is_output.
  cbv beta zeta. rewrite !occurs_contains, !casefold_lower.
  set (u := PyStr.lower (LineItem.usage_type li)).
  set (d := PyStr.lower (LineItem.description li)).
  destruct (PyStr.contains "batch" u || PyStr.contains "batch" d)%bool;
    destruct (PyStr.contains "input" u || PyStr.contains "input" d)%bool;
    destruct (PyStr.contains "output" u || PyStr.contains "output" d)%bool;
    try reflexivity;
    destruct (PyStr.contains "cacheread" u || PyStr.contains "cacheread" d)%bool;
    destruct (PyStr.contains "cache read" u || PyStr.contains "cache read" d)%bool;
    cbn [orb]; try congruence;
    destruct (PyStr.contains "cachewrite" u || PyStr.contains "cachewrite" d)%bool;
    destruct (PyStr.contains "cache write" u || PyStr.contains "cache write" d)%bool;
    cbn [orb]; congruence.
Qed.

(** The foundation-model catalog's parser finds the class that its
    markers give. *)
Lemma classify_fm_by_markers li : classify_fm li = classify_by_markers li.
Proof.
  unfold classify_fm, classify_by_markers,
    AWSBedrockProvider.fm_is_batch, AWSBedrockProvider.fm_is_input,
    AWSBedrockProvider.fm_is_output, AWSBedrockProvider.fm_is_cache_read,
    AWSBedrockProvider.fm_is_cache_write.
  cbv beta zeta. rewrite !occurs_contains, !casefold_lower. reflexivity.
Qed.

(** C3, as the code has it.  Every line-item has exactly one class.  A
    line-item of the general catalog for which the reading of the
    specification ([classify_ignoring_case]: every marker looked for in
    the usage type and in the description without regard to case, batch
    first, then the cache markers, then input and output) finds no cache
    class gets exactly the class of that reading from the parser.  The
    foundation-model catalog's parser gives a line-item the class of
    [classify_by_markers]: batch first, then the cache-read and
    cache-write markers, then the input and output markers, and but for
    "batch" in the usage type each marker is looked for with the capitals
    it has.  Processing the line-item never raises, leaves a record for
    its model in the dictionary, populates the field of its class, and
    changes no other price of any record; so an unclassified line-item
    changes no price at all.  (Nothing is said of a line-item of the
    general catalog that carries a cache marker.) *)
Theorem line_item_writes_its_class terms sku product li models clock n :
  (LineItem.bedrock_extract terms sku product = LineItem.Priced li ->
   classify_ignoring_case li <> C_cache_read ->
   classify_ignoring_case li <> C_cache_write ->
   classify_bedrock li = classify_ignoring_case li
   /\ exists models' n',
        AWSBedrockProvider.bedrock_item terms sku product models clock n
          = Returned (models', n')
        /\ writes_only (classify_ignoring_case li) (LineItem.id li)
             models models')
  /\ (LineItem.fm_extract terms sku product = LineItem.Priced li ->
      classify_fm li = classify_by_markers li
      /\ exists models' n',
           AWSBedrockProvider.fm_item terms sku product models clock n
             = Returned (models', n')
           /\ writes_only (classify_by_markers li) (LineItem.id li)
                models models').
Proof.
  split.
  - intros E Hr Hw.
    pose proof (classify_bedrock_as_specified li Hr Hw) as Hc.
    split; [exact Hc|]. rewrite <- Hc.
    destruct (apply_writes_only AWSBedrockProvider.bedrock_new
                LineItem.bedrock_write (classify_bedrock li) li models clock n)
      as (models' & n' & Hrun & Hwr).
    + apply bedrock_new_empty.
    + intros m f. apply bedrock_write_other.
    + intros m f Hf. rewrite (bedrock_write_class _ _ _ Hf). discriminate.
    + exists models', n'. rewrite bedrock_item_view, E.
      split; [exact Hrun | exact Hwr].
  - intros E.
    split; [apply classify_fm_by_markers|].
    rewrite <- classify_fm_by_markers.
    destruct (apply_writes_only AWSBedrockProvider.fm_new
                LineItem.fm_write (classify_fm li) li models clock n)
      as (models' & n' & Hrun & Hw).
    + apply fm_new_empty.
    + intros m f. apply fm_write_other.
    + intros m f Hf. rewrite (fm_write_class _ _ _ Hf).
      destruct f; try discriminate; destruct (field_value _ m); discriminate.
    + exists models', n'. rewrite fm_item_view, E. auto.
Qed.

Lemma line_item_writes_its_class_witness :
  (classify_bedrock Sample.example_input_item = C_input
   /\ exists models' n',
        AWSBedrockProvider.bedrock_item
          (Catalog.get_on_demand Example.catalog_A)
          "s1" Sample.example_input_product [] (fun _ => 0) 0%nat
        = Returned (models', n')
        /\ writes_only C_input (LineItem.id Sample.example_input_item)
             [] models')
  /\ (classify_fm Sample.optimized_cache_item = C_cache_read
      /\ exists models' n',
           AWSBedrockProvider.fm_item
             (Catalog.get_on_demand Example.fm_two_cache_reads)
             "lo" Sample.optimized_cache_product
             (Example.two_tiers_models 7) (fun _ => 9) 1%nat
           = Returned (models', n')
           /\ writes_only C_cache_read
                (LineItem.id Sample.optimized_cache_item)
                (Example.two_tiers_models 7) models').
Proof.
  split.
  - apply (proj1 (line_item_writes_its_class
                    (Catalog.get_on_demand Example.catalog_A)
                    "s1" Sample.example_input_product
                    Sample.example_input_item [] (fun _ => 0) 0%nat)).
    + vm_compute. reflexivity.
    + vm_compute. discriminate.
    + vm_compute. discriminate.
  - apply (proj2 (line_item_writes_its_class
                    (Catalog.get_on_demand Example.fm_two_cache_reads)
                    "lo" Sample.optimized_cache_product
                    Sample.optimized_cache_item
                    (Example.two_tiers_models 7) (fun _ => 9) 1%nat)).
    vm_compute. reflexivity.
Defined.

(** C3, as the claim has it, fails twice.  The product [u1] has none of the
    markers, in whatever case, and yet the fetch that has only this product
    returns a record for its model, where the fetch of two empty catalogs
    returns none.  And a usage type with "input" in lower case is an input
    price for a reader who ignores case, and unclassified for the
    foundation-model catalog's parser. *)
Lemma unclassified_item_is_not_ignored :
  LineItem.fm_extract (Catalog.get_on_demand Example.fm_unmarked)
    "u1" Example.unmarked_product = LineItem.Priced Example.unmarked_item
  /\ classify_fm Example.unmarked_item = C_unclassified
  /\ classify_ignoring_case Example.unmarked_item = C_unclassified
  /\ AWSBedrockProvider.normalize Build.empty_catalog Example.fm_unmarked
       (fun _ => 0) 0%nat
     = Returned ([Example.unmarked_record 0], 1%nat)
  /\ AWSBedrockProvider.normalize Build.empty_catalog Build.empty_catalog
       (fun _ => 0) 0%nat
     = Returned ([], 0%nat)
  /\ classify_ignoring_case Example.lowercase_item = C_input
  /\ classify_fm Example.lowercase_item = C_unclassified.
Proof.
  repeat split; vm_compute; reflexivity.
Qed.

(** The general catalog's parser makes none of the cache tests that the
    foundation-model catalog's parser makes before it looks for input and
    output (lines 149-150 and 192-195 against lines 80-82 and 110-114).
    The line-item [cr], a cache-read price for the reading of the
    specification and for the other parser, is an input price to it, and
    replaces the input price 0.003 that the line-item before it gave the
    model.  The statement of C3 above leaves such line-items out. *)
Lemma general_parser_files_cache_read_as_input :
  classify_ignoring_case Example.general_cache_read_item = C_cache_read
  /\ classify_fm Example.general_cache_read_item = C_cache_read
  /\ classify_bedrock Example.general_cache_read_item = C_input
  /\ AWSBedrockProvider._parse_bedrock_data Example.general_cache_read []
       (fun _ => 0) 0%nat
     = Returned (Example.general_cache_read_models 0, 1%nat).
Proof.
  repeat split; vm_compute; reflexivity.
Qed.

(** ** A price dimension without a USD entry *)

Section NoUsd.
Import AWSBedrockProvider.

Lemma price_of_missing_usd term_data :
  usd_missing term_data = true ->
  exists description,
    price_of term_data = Returned (PrimFloat.zero, description).
Proof.
  unfold usd_missing, price_of.
  destruct term_data as [|[k term] rest]; [discriminate|]. simpl.
  destruct (Catalog.priceDimensions term) as [[|[k' dim] dims]|];
    try discriminate. simpl.
  destruct (Catalog.pricePerUnit dim) as [per_unit|]; [|discriminate].
  unfold Dict.mem, Dict.get_default.
  destruct (Dict.get per_unit "USD"); [discriminate|]. intros _.
  eexists. reflexivity.
Qed.

(** The price of a line-item is the price of the terms of its SKU. *)
Lemma bedrock_extract_price terms sku product li :
  LineItem.bedrock_extract terms sku product = LineItem.Priced li ->
  exists term_data description,
    Dict.get terms sku = Some term_data
    /\ price_of term_data = Returned (LineItem.price_usd li, description).
Proof.
  unfold LineItem.bedrock_extract.
  destruct (PyStr.is_empty _); [discriminate|].
  destruct (_ || _)%bool; [discriminate|].
  destruct (Dict.get terms sku) as [[|t0 td]|]; try discriminate.
  destruct (price_of (t0 :: td)) as [[p d]|e] eqn:E; [|discriminate].
  intros [= <-]. now exists (t0 :: td), d.
Qed.

Lemma fm_extract_price terms sku product li :
  LineItem.fm_extract terms sku product = LineItem.Priced li ->
  exists term_data description,
    Dict.get terms sku = Some term_data
    /\ price_of term_data = Returned (LineItem.price_usd li, description).
Proof.
  unfold LineItem.fm_extract.
  destruct (PyStr.is_empty _); [discriminate|].
  destruct (Dict.get terms sku) as [[|t0 td]|]; try discriminate.
  destruct (price_of (t0 :: td)) as [[p d]|e] eqn:E; [|discriminate].
  destruct (PyStr.contains _ _); [discriminate|].
  intros [= <-]. now exists (t0 :: td), d.
Qed.

End NoUsd.

(** C10, as the code has it.  When the first price dimension of a SKU has
    no USD entry, the price read for it is 0.0 (the text "0" goes through
    [float]), not an unknown price.  A line-item with such a price that
    classifies to a field sets the field to 0.0, whatever the field held
    before, with one exception: the input and the output price of the
    foundation-model catalog's parser, which are written only when they
    are empty, become 0.0 when they were empty and keep their price when
    they had one. *)
Theorem missing_usd_is_zero :
  (forall term_data,
      usd_missing term_data = true ->
      exists description,
        AWSBedrockProvider.price_of term_data
        = Returned (PrimFloat.zero, description))
  /\ (forall terms sku product term_data li f models clock n,
        Dict.get terms sku = Some term_data ->
        usd_missing term_data = true ->
        (LineItem.bedrock_extract terms sku product = LineItem.Priced li ->
         class_field (classify_bedrock li) = Some f ->
         exists models' n',
           AWSBedrockProvider.bedrock_item terms sku product models clock n
             = Returned (models', n')
           /\ price_at models' (LineItem.id li) f = Some PrimFloat.zero)
        /\ (LineItem.fm_extract terms sku product = LineItem.Priced li ->
            class_field (classify_fm li) = Some f ->
            exists models' n',
              AWSBedrockProvider.fm_item terms sku product models clock n
                = Returned (models', n')
              /\ price_at models' (LineItem.id li) f
                 = match f, price_at models (LineItem.id li) f with
                   | (F_input | F_output), Some v => Some v
                   | _, _ => Some PrimFloat.zero
                   end)).
Proof.
  split; [exact price_of_missing_usd|].
  intros terms sku product term_data li f models clock n Hget Hmiss.
  destruct (price_of_missing_usd _ Hmiss) as [d0 Hzero].
  split.
  - intros E Hf.
    destruct (bedrock_extract_price _ _ _ _ E) as (td & d & Hget' & Hp).
    assert (Hprice : LineItem.price_usd li = PrimFloat.zero).
    { rewrite Hget in Hget'. injection Hget' as <-.
      rewrite Hzero in Hp. now injection Hp as <- _. }
    rewrite bedrock_item_view, E. unfold LineItem.run, LineItem.apply.
    eexists. eexists. split; [reflexivity|].
    rewrite price_at_set_same, (bedrock_write_class _ _ _ Hf).
    now rewrite Hprice.
  - intros E Hf.
    destruct (fm_extract_price _ _ _ _ E) as (td & d & Hget' & Hp).
    assert (Hprice : LineItem.price_usd li = PrimFloat.zero).
    { rewrite Hget in Hget'. injection Hget' as <-.
      rewrite Hzero in Hp. now injection Hp as <- _. }
    rewrite fm_item_view, E. unfold LineItem.run, LineItem.apply.
    eexists. eexists. split; [reflexivity|].
    rewrite price_at_set_same, (fm_write_class _ _ _ Hf), Hprice.
    destruct f; try reflexivity;
      rewrite target_fields by apply fm_new_empty; reflexivity.
Qed.

Lemma missing_usd_is_zero_witness :
  (exists models' n',
      AWSBedrockProvider.bedrock_item
        (Catalog.get_on_demand Example.general_no_usd)
        "z1" Example.no_usd_product [] (fun _ => 0) 0%nat
      = Returned (models', n')
      /\ price_at models' (LineItem.id Example.no_usd_item) F_input
         = Some PrimFloat.zero)
  /\ (exists models' n',
        AWSBedrockProvider.fm_item Sample.no_usd_terms
          "lo" Sample.optimized_cache_product
          (Sample.two_cache_reads_models 7) (fun _ => 9) 1%nat
        = Returned (models', n')
        /\ price_at models' (LineItem.id Sample.no_usd_cache_item)
             F_cached_input
           = Some PrimFloat.zero).
Proof.
  split.
  - apply (proj1 (proj2 missing_usd_is_zero
                    (Catalog.get_on_demand Example.general_no_usd)
                    "z1" Example.no_usd_product
                    (Build.term_data "z1" None None)
                    Example.no_usd_item F_input [] (fun _ => 0) 0%nat
                    eq_refl eq_refl));
      vm_compute; reflexivity.
  - apply (proj2 (proj2 missing_usd_is_zero
                    Sample.no_usd_terms
                    "lo" Sample.optimized_cache_product
                    (Build.term_data "lo" None None)
                    Sample.no_usd_cache_item F_cached_input
                    (Sample.two_cache_reads_models 7) (fun _ => 9) 1%nat
                    eq_refl eq_refl));
      vm_compute; reflexivity.
Defined.

(** C10, as the claim has it, fails where the foundation-model catalog's
    parser guards the field (lines 198 and 201).  The line-item [lo]
    classifies to the input price and its price dimension has no USD
    entry, but the line-item [std] before it has given the model the
    input price 0.003: after the parse the field holds 0.003, not 0.0. *)
Lemma missing_usd_keeps_earlier_price :
  usd_missing (Build.term_data "lo" None None) = true
  /\ LineItem.fm_extract (Catalog.get_on_demand Example.fm_priced_then_no_usd)
       "lo" Example.optimized_product
     = LineItem.Priced Example.no_usd_optimized_item
  /\ class_field (classify_fm Example.no_usd_optimized_item) = Some F_input
  /\ AWSBedrockProvider._parse_fm_data Example.fm_priced_then_no_usd []
       (fun _ => 0) 0%nat
     = Returned (Example.two_tiers_models 0, 1%nat)
  /\ price_at (Example.two_tiers_models 0)
       (LineItem.id Example.no_usd_optimized_item) F_input
     = Some Example.standard_price
  /\ Some Example.standard_price <> Some PrimFloat.zero.
Proof.
  repeat split; try (vm_compute; reflexivity).
  intros H.
  apply (f_equal (fun o => match o with
                           | Some x => PrimFloat.eqb x Example.standard_price
                           | None => false
                           end)) in H.
  vm_compute in H. discriminate.
Qed.

(** ** First writer wins *)

Section FirstWriter.
Import AWSBedrockProvider.

(** The foundation-model catalog's parser never changes an input or output
    price that is populated. *)
Lemma parse_fm_keeps data id f v models clock n models' n' :
  f = F_input \/ f = F_output ->
  price_at models id f = Some v ->
  _parse_fm_data data models clock n = Returned (models', n') ->
  price_at models' id f = Some v.
Proof.
  intros Hf. apply (parse_fm_invariant (fun ms => price_at ms id f = Some v)).
  intros sku product li ms t _ _ Hv.
  destruct (string_dec id (LineItem.id li)) as [->|Hne].
  - rewrite price_at_set_same. apply fm_write_keeps; auto.
    rewrite target_fields by apply fm_new_empty. exact Hv.
  - now rewrite price_at_set_other.
Qed.

End FirstWriter.

(** C1, as the code has it.  In the foundation-model catalog's parse, an
    input or output price that is populated (by the general catalog's
    parse or by an earlier line-item) is never changed; and the line-item
    that classifies to the input or output price of a model and finds it
    unpopulated decides its final value, whatever line-items follow. *)
Theorem first_writer_wins_fm :
  (forall data id f v models clock n models' n',
      f = F_input \/ f = F_output ->
      price_at models id f = Some v ->
      AWSBedrockProvider._parse_fm_data data models clock n
        = Returned (models', n') ->
      price_at models' id f = Some v)
  /\ (forall data before sku product after li f models clock n
             models1 n1 models' n',
        Catalog.get_products data = (before ++ (sku, product) :: after)%list ->
        LineItem.fm_extract (Catalog.get_on_demand data) sku product
          = LineItem.Priced li ->
        class_field (classify_fm li) = Some f ->
        f = F_input \/ f = F_output ->
        for_items (AWSBedrockProvider.fm_item (Catalog.get_on_demand data))
          before models clock n = Returned (models1, n1) ->
        price_at models1 (LineItem.id li) f = None ->
        AWSBedrockProvider._parse_fm_data data models clock n
          = Returned (models', n') ->
        price_at models' (LineItem.id li) f = Some (LineItem.price_usd li)).
Proof.
  split; [exact parse_fm_keeps|].
  intros data before sku product after li f models clock n models1 n1
    models' n' Hsplit E Hf Hio Hbefore Hnone Hrun.
  unfold AWSBedrockProvider._parse_fm_data in Hrun.
  rewrite Hsplit, for_items_app, Hbefore in Hrun.
  simpl for_items in Hrun. unfold bind in Hrun.
  rewrite fm_item_view, E in Hrun.
  unfold LineItem.run, LineItem.apply in Hrun.
  set (models2 := Dict.set models1 _ _) in Hrun.
  assert (H2 : price_at models2 (LineItem.id li) f
               = Some (LineItem.price_usd li)).
  { unfold models2. rewrite price_at_set_same, (fm_write_class _ _ _ Hf).
    destruct f; try reflexivity;
      rewrite target_fields by apply fm_new_empty; now rewrite Hnone. }
  set (data_after := {| Catalog.products := Some after;
                        Catalog.terms := Catalog.terms data |}).
  apply (parse_fm_keeps data_after _ _ _ models2 clock
           (if Dict.mem models1 (LineItem.id li) then n1 else S n1) models' n');
    auto.
Qed.

Lemma first_writer_wins_fm_witness :
  price_at (Example.two_tiers_models 7)
    (LineItem.id Example.standard_item) F_input
  = Some (LineItem.price_usd Example.standard_item).
Proof.
  apply (proj2 first_writer_wins_fm Example.fm_two_tiers []
           "std" Example.standard_product
           [("lo", Example.optimized_product)]
           Example.standard_item F_input [] (fun _ => 7) 0%nat [] 0%nat
           (Example.two_tiers_models 7) 1%nat);
    try (vm_compute; reflexivity).
  now left.
Defined.

(** C1, as the claim has it, fails in the general catalog's parse and for
    the cache prices.  The general catalog [general_two_tiers] has two
    line-items for the input price of one model, 0.003 first and 0.005
    second: the fetch returns the second price.  The foundation-model
    catalog [fm_two_cache_reads] has two line-items for the cache-read
    price of one model, in the same order: again the second price is
    returned. *)
Lemma later_item_overwrites :
  (exists models n,
      AWSBedrockProvider._parse_bedrock_data Example.general_two_tiers []
        (fun _ => 0) 0%nat = Returned (models, n)
      /\ price_at models Example.claude_id F_input
         = Some Example.optimized_price)
  /\ (exists models n,
        AWSBedrockProvider._parse_fm_data Example.fm_two_cache_reads []
          (fun _ => 0) 0%nat = Returned (models, n)
        /\ price_at models Example.claude_id F_cached_input
           = Some Example.optimized_price)
  /\ Some Example.optimized_price <> Some Example.standard_price
  /\ (forall sku product,
        In (sku, product) (Catalog.get_products Example.general_two_tiers) ->
        exists li,
          LineItem.bedrock_extract
            (Catalog.get_on_demand Example.general_two_tiers) sku product
          = LineItem.Priced li
          /\ LineItem.id li = Example.claude_id
          /\ classify_bedrock li = C_input)
  /\ (forall sku product,
        In (sku, product) (Catalog.get_products Example.fm_two_cache_reads) ->
        exists li,
          LineItem.fm_extract
            (Catalog.get_on_demand Example.fm_two_cache_reads) sku product
          = LineItem.Priced li
          /\ LineItem.id li = Example.claude_id
          /\ classify_fm li = C_cache_read).
Proof.
  split; [|split; [|split; [|split]]].
  - eexists. eexists. split; vm_compute; reflexivity.
  - eexists. eexists. split; vm_compute; reflexivity.
  - intros H.
    apply (f_equal (fun o => match o with
                             | Some x => PrimFloat.eqb x Example.standard_price
                             | None => false
                             end)) in H.
    vm_compute in H. discriminate.
  - intros sku product [[= <- <-] | [[= <- <-] | []]];
      eexists; (split; [vm_compute; reflexivity|]); split; vm_compute; reflexivity.
  - intros sku product [[= <- <-] | [[= <- <-] | []]];
      eexists; (split; [vm_compute; reflexivity|]); split; vm_compute; reflexivity.
Qed.

(** ** The end-to-end example *)

Section EndToEnd.
Import AWSBedrockProvider.
Variable clock : nat -> datetime.
Variable n : nat.

(** After catalog A the dictionary has the record with the input price. *)
Lemma example_after_A :
  _parse_bedrock_data Example.catalog_A [] clock n
  = Returned
      ([(Example.claude_id,
         ModelPricing.set_pricing (Example.merged_record (clock n))
           (Pricing.set_input Pricing.empty Example.standard_price))],
       S n).
Proof. reflexivity. Qed.

(** Catalog B finds the record under the same id, and adds the output
    price without reading the clock. *)
Lemma example_after_B models :
  models = [(Example.claude_id,
             ModelPricing.set_pricing (Example.merged_record (clock n))
               (Pricing.set_input Pricing.empty Example.standard_price))] ->
  _parse_fm_data Example.catalog_B models clock (S n)
  = Returned ([(Example.claude_id, Example.merged_record (clock n))], S n).
Proof. intros ->. reflexivity. Qed.

End EndToEnd.

(** C4.  With catalog A holding SKU [s1] (usage type ["USE1-Input-Bytes"],
    model ["Claude Model"], price 0.003) and catalog B holding SKU [s2]
    (service name ["Claude Model (Amazon Bedrock Edition)"], usage type
    ["Output"], price 0.015), [fetch] returns exactly one record: its id is
    ["aws_bedrock:claude-model"], its input price 0.003
    ([Example.standard_price]), its output price 0.015
    ([Example.output_price]), its capabilities [["text"]]; it carries the
    one clock reading the fetch made. *)
Theorem end_to_end_example (clock : nat -> datetime) (n : nat) :
  AWSBedrockProvider.fetch
    (Returned (Build.ok_response Example.catalog_A,
               Build.ok_response Example.catalog_B)) clock n
  = Returned ([Example.merged_record (clock n)], S n)
  /\ ModelPricing.id (Example.merged_record (clock n))
     = "aws_bedrock:claude-model"
  /\ field_value F_input (Example.merged_record (clock n))
     = Some Example.standard_price
  /\ field_value F_output (Example.merged_record (clock n))
     = Some Example.output_price
  /\ ModelPricing.capabilities (Example.merged_record (clock n)) = ["text"].
Proof.
  split; [|repeat split].
  change (AWSBedrockProvider.fetch _ clock n)
    with (AWSBedrockProvider.normalize Example.catalog_A Example.catalog_B
            clock n).
  unfold AWSBedrockProvider.normalize, bind.
  rewrite example_after_A.
  rewrite (example_after_B clock n _ eq_refl).
  reflexivity.
Qed.

(** ** Prices are what the catalogs say *)

Section PriceOrigin.
Import AWSBedrockProvider.

(** A populated field of a record that was written is the line-item's
    price or was populated with the same value before. *)
Lemma bedrock_write_origin li m f v :
  field_value f (LineItem.bedrock_write li m) = Some v ->
  v = LineItem.price_usd li \/ field_value f m = Some v.
Proof.
  destruct (class_field (classify_bedrock li)) as [g|] eqn:E.
  - destruct (Field_eq_dec g f) as [->|Hne].
    + rewrite (bedrock_write_class _ _ _ E). intros [= <-]. now left.
    + rewrite bedrock_write_other by congruence. now right.
  - rewrite bedrock_write_other by congruence. now right.
Qed.

Lemma fm_write_origin li m f v :
  field_value f (LineItem.fm_write li m) = Some v ->
  v = LineItem.price_usd li \/ field_value f m = Some v.
Proof.
  destruct (class_field (classify_fm li)) as [g|] eqn:E.
  - destruct (Field_eq_dec g f) as [->|Hne].
    + rewrite (fm_write_class _ _ _ E).
      destruct f; destruct (field_value _ m);
        intros [= <-]; auto.
    + rewrite fm_write_other by congruence. now right.
  - rewrite fm_write_other by congruence. now right.
Qed.

Lemma all_nonneg_step new write li models t :
  (forall a b d u g, field_value g (new a b d u) = None) ->
  (forall m f v, field_value f (write li m) = Some v ->
                 v = LineItem.price_usd li \/ field_value f m = Some v) ->
  PyFloat.nonneg (LineItem.price_usd li) = true ->
  all_nonneg models ->
  all_nonneg (Dict.set models (LineItem.id li)
                (write li (LineItem.target new li models t))).
Proof.
  intros Hnew Horigin Hprice Hall k m f v Hin Hv.
  apply in_set in Hin. destruct Hin as [[-> ->] | Hin].
  - apply Horigin in Hv. destruct Hv as [-> | Hv]; auto.
    rewrite target_fields in Hv by assumption.
    unfold price_at in Hv.
    destruct (Dict.get models (LineItem.id li)) as [m0|] eqn:E;
      [|discriminate].
    apply get_in in E. eapply Hall; eauto.
  - eapply Hall; eauto.
Qed.

Lemma priced_nonneg data term_data price description sku :
  prices_nonneg data = true ->
  Dict.get (Catalog.get_on_demand data) sku = Some term_data ->
  price_of term_data = Returned (price, description) ->
  PyFloat.nonneg price = true.
Proof.
  unfold prices_nonneg. rewrite forallb_forall. intros Hall Hget Hp.
  apply get_in in Hget. apply Hall in Hget. simpl in Hget.
  now rewrite Hp in Hget.
Qed.

End PriceOrigin.

(** C8, as the code has it.  The parsers store the prices of the catalogs
    as they are, so when every price the terms of the two catalogs yield
    is at least 0.0, every populated price field of every returned record
    is at least 0.0. *)
Theorem populated_prices_nonneg bedrock_data fm_data clock n records n' :
  prices_nonneg bedrock_data = true ->
  prices_nonneg fm_data = true ->
  AWSBedrockProvider.normalize bedrock_data fm_data clock n
    = Returned (records, n') ->
  forall r f v,
    In r records -> field_value f r = Some v -> PyFloat.nonneg v = true.
Proof.
  intros Ha Hb Hrun r f v Hr Hv.
  apply normalize_inv in Hrun.
  destruct Hrun as (ma & na & mb & Hpa & Hpb & ->).
  assert (Hall_a : all_nonneg ma).
  { apply (parse_bedrock_invariant all_nonneg bedrock_data) in Hpa; auto.
    - intros sku product li models t _ E Hall.
      destruct (bedrock_extract_price _ _ _ _ E) as (td & d & Hget & Hp).
      apply all_nonneg_step;
        [ apply bedrock_new_empty
        | apply bedrock_write_origin
        | exact (priced_nonneg bedrock_data td _ d sku Ha Hget Hp)
        | exact Hall ].
    - intros k m g w []. }
  assert (Hall_b : all_nonneg mb).
  { apply (parse_fm_invariant all_nonneg fm_data) in Hpb; auto.
    intros sku product li models t _ E Hall.
    destruct (fm_extract_price _ _ _ _ E) as (td & d & Hget & Hp).
    apply all_nonneg_step;
      [ apply fm_new_empty
      | apply fm_write_origin
      | exact (priced_nonneg fm_data td _ d sku Hb Hget Hp)
      | exact Hall ]. }
  apply values_in in Hr. destruct Hr as [k Hin].
  eapply Hall_b; eauto.
Qed.

Lemma populated_prices_nonneg_witness :
  PyFloat.nonneg Example.output_price = true.
Proof.
  apply (populated_prices_nonneg Example.catalog_A Example.catalog_B
           (fun _ => 7) 0%nat [Example.merged_record 7] 1%nat
           eq_refl eq_refl eq_refl (Example.merged_record 7) F_output).
  - now left.
  - reflexivity.
Defined.

(** C8, as the claim has it, fails: nothing in the parsers looks at the
    sign of a price.  The general catalog [general_negative] prices the
    input of a model at -1, and the fetch returns that price in the input
    field. *)
Lemma negative_price_is_stored :
  exists r v,
    AWSBedrockProvider.normalize Example.general_negative Build.empty_catalog
      (fun _ => 0) 0%nat
    = Returned ([r], 1%nat)
    /\ field_value F_input r = Some v
    /\ PyFloat.float_of_str "-1" = Some v
    /\ PyFloat.nonneg v = false.
Proof.
  eexists. eexists. split; [vm_compute; reflexivity|].
  split; [reflexivity|]. split; vm_compute; reflexivity.
Qed.

(** ** Capabilities *)

Section Capabilities.
Import AWSBedrockProvider.

Lemma in_mem {V} (d : Dict.t V) k v : In (k, v) d -> Dict.mem d k = true.
Proof.
  intros Hin. unfold Dict.mem.
  destruct (Dict.get d k) eqn:E; auto.
  apply get_none_keys in E. exfalso. apply E.
  change k with (fst (k, v)). now apply in_map.
Qed.

Lemma mem_set_mono {V} (d : Dict.t V) k k' v :
  Dict.mem d k' = true -> Dict.mem (Dict.set d k v) k' = true.
Proof.
  unfold Dict.mem. destruct (string_dec k' k) as [->|Hne].
  - now rewrite get_set_same.
  - now rewrite get_set_other.
Qed.

Lemma detect_capabilities_cases model_name :
  detect_capabilities model_name <> []
  /\ (PyStr.contains "embed" (PyStr.lower model_name) = true ->
      detect_capabilities model_name = ["embedding"])
  /\ (PyStr.contains "embed" (PyStr.lower model_name) = false ->
      PyStr.any_in ["vision"; "vl"; "image"; "stable"] (PyStr.lower model_name)
        = false ->
      PyStr.any_in ["audio"; "sonic"; "voxtral"] (PyStr.lower model_name)
        = false ->
      detect_capabilities model_name = ["text"]).
Proof.
  unfold detect_capabilities. cbv zeta.
  destruct (PyStr.contains "embed" (PyStr.lower model_name));
    destruct (PyStr.any_in ["vision"; "vl"; "image"; "stable"]
                (PyStr.lower model_name));
    destruct (PyStr.any_in ["audio"; "sonic"; "voxtral"]
                (PyStr.lower model_name));
    simpl; repeat split; intros; try discriminate; reflexivity.
Qed.

(** The general catalog's parse gives every record [["text"]]. *)
Lemma parse_bedrock_text data clock n models n' :
  _parse_bedrock_data data [] clock n = Returned (models, n') ->
  forall k m, In (k, m) models -> ModelPricing.capabilities m = ["text"].
Proof.
  apply (parse_bedrock_invariant
           (fun ms => forall k m, In (k, m) ms ->
                                  ModelPricing.capabilities m = ["text"])).
  - intros sku product li ms t _ _ Hall k m Hin.
    apply in_set in Hin. destruct Hin as [[-> ->] | Hin]; [|eauto].
    unfold LineItem.bedrock_write.
    destruct (bedrock_update_frame
                (bedrock_is_batch (LineItem.usage_type li) (LineItem.description li))
                (bedrock_is_input (LineItem.usage_type li) (LineItem.description li))
                (bedrock_is_output (LineItem.usage_type li) (LineItem.description li))
                (LineItem.price_usd li)
                (LineItem.target bedrock_new li ms t))
      as (_ & _ & -> & _).
    unfold LineItem.target.
    destruct (Dict.get ms (LineItem.id li)) eqn:E; [|reflexivity].
    apply get_in in E. eauto.
  - intros k m [].
Qed.

(** What the foundation-model catalog's parse keeps true of a dictionary
    that started as [models_a]. *)
Lemma parse_fm_capabilities data models_a clock n models n' :
  (forall k m, In (k, m) models_a -> ModelPricing.capabilities m = ["text"]) ->
  _parse_fm_data data models_a clock n = Returned (models, n') ->
  forall k m,
    In (k, m) models ->
    (Dict.mem models_a k = true -> ModelPricing.capabilities m = ["text"])
    /\ (Dict.mem models_a k = false ->
        ModelPricing.capabilities m
        = detect_capabilities (ModelPricing.model_name m)).
Proof.
  intros Ha Hrun.
  apply (parse_fm_invariant
           (fun ms =>
              (forall k, Dict.mem models_a k = true -> Dict.mem ms k = true)
              /\ forall k m,
                   In (k, m) ms ->
                   (Dict.mem models_a k = true ->
                    ModelPricing.capabilities m = ["text"])
                   /\ (Dict.mem models_a k = false ->
                       ModelPricing.capabilities m
                       = detect_capabilities (ModelPricing.model_name m))))
    in Hrun.
  - apply Hrun.
  - intros sku product li ms t _ _ [Hsub Hall]. split.
    + intros k Hk. apply mem_set_mono. auto.
    + intros k m Hin. apply in_set in Hin.
      destruct Hin as [[-> ->] | Hin]; [|auto].
      unfold LineItem.fm_write.
      destruct (fm_update_frame
                  (fm_is_batch (LineItem.usage_type li) (LineItem.description li))
                  (fm_is_cache_read (LineItem.usage_type li) (LineItem.description li))
                  (fm_is_cache_write (LineItem.usage_type li) (LineItem.description li))
                  (fm_is_input (LineItem.usage_type li))
                  (fm_is_output (LineItem.usage_type li) (LineItem.description li))
                  (LineItem.price_usd li)
                  (LineItem.target fm_new li ms t))
        as (_ & -> & -> & _).
      unfold LineItem.target.
      destruct (Dict.get ms (LineItem.id li)) as [m0|] eqn:E.
      * apply get_in in E. auto.
      * split; [|reflexivity].
        intros Hk. apply Hsub in Hk. unfold Dict.mem in Hk.
        rewrite E in Hk. discriminate.
  - split; [auto|].
    intros k m Hin. split; [eauto|].
    intros Hk. rewrite (in_mem _ _ _ Hin) in Hk. discriminate.
Qed.

End Capabilities.

(** C7, as the code has it.  Every returned record has a non-empty list of
    capabilities.  A record the general catalog's parse created has
    exactly [["text"]], whatever its name.  A record the foundation-model
    catalog's parse created has what the keywords in its name say:
    exactly [["embedding"]] when the name has "embed", and exactly
    [["text"]] when it has none of the keywords. *)
Theorem capabilities_by_creator bedrock_data fm_data clock n records n' :
  AWSBedrockProvider.normalize bedrock_data fm_data clock n
    = Returned (records, n') ->
  exists models_a n_a,
    AWSBedrockProvider._parse_bedrock_data bedrock_data [] clock n
      = Returned (models_a, n_a)
    /\ forall r,
         In r records ->
         ModelPricing.capabilities r <> []
         /\ (Dict.mem models_a (ModelPricing.id r) = true ->
             ModelPricing.capabilities r = ["text"])
         /\ (Dict.mem models_a (ModelPricing.id r) = false ->
             ModelPricing.capabilities r
             = AWSBedrockProvider.detect_capabilities (ModelPricing.model_name r)
             /\ (PyStr.contains "embed" (PyStr.lower (ModelPricing.model_name r))
                 = true ->
                 ModelPricing.capabilities r = ["embedding"])
             /\ (PyStr.contains "embed" (PyStr.lower (ModelPricing.model_name r))
                 = false ->
                 PyStr.any_in ["vision"; "vl"; "image"; "stable"]
                   (PyStr.lower (ModelPricing.model_name r)) = false ->
                 PyStr.any_in ["audio"; "sonic"; "voxtral"]
                   (PyStr.lower (ModelPricing.model_name r)) = false ->
                 ModelPricing.capabilities r = ["text"])).
Proof.
  intros Hrun. apply normalize_inv in Hrun.
  destruct Hrun as (ma & na & mb & Hpa & Hpb & ->).
  exists ma, na. split; [exact Hpa|].
  intros r Hr. apply values_in in Hr. destruct Hr as [k Hin].
  assert (Hwk : well_keyed mb).
  { eapply parse_fm_well_keyed; [|exact Hpb].
    eapply parse_bedrock_well_keyed; [|exact Hpa]. apply well_keyed_nil. }
  assert (Hk : ModelPricing.id r = k) by (now apply Hwk).
  rewrite Hk.
  destruct (parse_fm_capabilities _ _ _ _ _ _
              (parse_bedrock_text _ _ _ _ _ Hpa) Hpb k r Hin) as [Htext Hdetect].
  destruct (detect_capabilities_cases (ModelPricing.model_name r))
    as (Hne & Hembed & Hplain).
  split; [|split].
  - destruct (Dict.mem ma k).
    + rewrite Htext by reflexivity. discriminate.
    + now rewrite Hdetect.
  - exact Htext.
  - intros Hfalse. rewrite (Hdetect Hfalse). auto.
Qed.

Lemma capabilities_by_creator_witness :
  exists models_a n_a,
    AWSBedrockProvider._parse_bedrock_data Example.catalog_A [] (fun _ => 7) 0%nat
      = Returned (models_a, n_a)
    /\ forall r,
         In r [Example.merged_record 7] ->
         ModelPricing.capabilities r <> []
         /\ (Dict.mem models_a (ModelPricing.id r) = true ->
             ModelPricing.capabilities r = ["text"])
         /\ (Dict.mem models_a (ModelPricing.id r) = false ->
             ModelPricing.capabilities r
             = AWSBedrockProvider.detect_capabilities (ModelPricing.model_name r)
             /\ (PyStr.contains "embed" (PyStr.lower (ModelPricing.model_name r))
                 = true ->
                 ModelPricing.capabilities r = ["embedding"])
             /\ (PyStr.contains "embed" (PyStr.lower (ModelPricing.model_name r))
                 = false ->
                 PyStr.any_in ["vision"; "vl"; "image"; "stable"]
                   (PyStr.lower (ModelPricing.model_name r)) = false ->
                 PyStr.any_in ["audio"; "sonic"; "voxtral"]
                   (PyStr.lower (ModelPricing.model_name r)) = false ->
                 ModelPricing.capabilities r = ["text"])).
Proof.
  apply (capabilities_by_creator Example.catalog_A Example.catalog_B
           (fun _ => 7) 0%nat [Example.merged_record 7] 1%nat).
  reflexivity.
Defined.

(** C7, as the claim has it, fails for an embedding model that the general
    catalog lists.  The name "Titan Embeddings" has the embedding keyword;
    the fetch of [general_embeddings] and [fm_embeddings] returns its
    record with [["text"]], because the general catalog's parse created
    the record, while the fetch of [fm_embeddings] alone returns it with
    [["embedding"]]. *)
Lemma embedding_model_keeps_text :
  exists r r',
    AWSBedrockProvider.normalize Example.general_embeddings
      Example.fm_embeddings (fun _ => 0) 0%nat
    = Returned ([r], 1%nat)
    /\ ModelPricing.model_name r = "Titan Embeddings"
    /\ PyStr.contains "embed" (PyStr.lower (ModelPricing.model_name r)) = true
    /\ ModelPricing.capabilities r = ["text"]
    /\ AWSBedrockProvider.normalize Build.empty_catalog
         Example.fm_embeddings (fun _ => 0) 0%nat
       = Returned ([r'], 1%nat)
    /\ ModelPricing.id r' = ModelPricing.id r
    /\ ModelPricing.capabilities r' = ["embedding"].
Proof.
  eexists. eexists.
  split; [vm_compute; reflexivity|].
  split; [reflexivity|]. split; [reflexivity|]. split; [reflexivity|].
  split; [vm_compute; reflexivity|].
  split; reflexivity.
Qed.

(** ** Two runs on the same catalogs *)

Section TwoRuns.
Import AWSBedrockProvider.

Lemma get_erase d k :
  Dict.get (erase_models d) k = option_map erase_timestamp (Dict.get d k).
Proof.
  induction d as [|[k' m] d IH]; simpl; auto.
  destruct (String.eqb k k'); auto.
Qed.

Lemma set_erase d k m :
  erase_models (Dict.set d k m) = Dict.set (erase_models d) k (erase_timestamp m).
Proof.
  induction d as [|[k' m'] d IH]; simpl; auto.
  destruct (String.eqb k k'); simpl; congruence.
Qed.

Lemma values_erase d :
  Dict.values (erase_models d) = map erase_timestamp (Dict.values d).
Proof.
  unfold Dict.values, erase_models. rewrite !map_map. reflexivity.
Qed.

Lemma mem_erase a b k :
  erase_models a = erase_models b -> Dict.mem a k = Dict.mem b k.
Proof.
  intros H. unfold Dict.mem.
  assert (E : option_map erase_timestamp (Dict.get a k)
              = option_map erase_timestamp (Dict.get b k))
    by (rewrite <- !get_erase; now rewrite H).
  destruct (Dict.get a k), (Dict.get b k); simpl in E; congruence.
Qed.

(** A write does not look at the timestamp. *)
Lemma bedrock_write_erase li m :
  erase_timestamp (LineItem.bedrock_write li m)
  = LineItem.bedrock_write li (erase_timestamp m).
Proof.
  unfold LineItem.bedrock_write, bedrock_update.
  destruct (bedrock_is_batch (LineItem.usage_type li) (LineItem.description li));
    destruct (bedrock_is_input (LineItem.usage_type li) (LineItem.description li));
    destruct (bedrock_is_output (LineItem.usage_type li) (LineItem.description li));
    reflexivity.
Qed.

Lemma fm_write_erase li m :
  erase_timestamp (LineItem.fm_write li m)
  = LineItem.fm_write li (erase_timestamp m).
Proof.
  unfold LineItem.fm_write, fm_update.
  destruct (fm_is_batch (LineItem.usage_type li) (LineItem.description li));
    destruct (fm_is_cache_read (LineItem.usage_type li) (LineItem.description li));
    destruct (fm_is_cache_write (LineItem.usage_type li) (LineItem.description li));
    destruct (fm_is_input (LineItem.usage_type li));
    destruct (fm_is_output (LineItem.usage_type li) (LineItem.description li));
    destruct m as [? ? ? ? [[?|] [?|] ? ? ? ? ?] ? ? ?]; reflexivity.
Qed.

Lemma target_erase new li a b t u :
  (forall x y z t1 t2,
      erase_timestamp (new x y z t1) = erase_timestamp (new x y z t2)) ->
  erase_models a = erase_models b ->
  erase_timestamp (LineItem.target new li a t)
  = erase_timestamp (LineItem.target new li b u).
Proof.
  intros Hnew H. unfold LineItem.target.
  assert (E : option_map erase_timestamp (Dict.get a (LineItem.id li))
              = option_map erase_timestamp (Dict.get b (LineItem.id li)))
    by (rewrite <- !get_erase; now rewrite H).
  destruct (Dict.get a (LineItem.id li)) as [ma|],
           (Dict.get b (LineItem.id li)) as [mb|];
    cbn [option_map] in E; try discriminate.
  - exact (f_equal (fun o => match o with
                             | Some x => x
                             | None => erase_timestamp ma
                             end) E).
  - apply Hnew.
Qed.

Lemma run_agree new write e a b c1 n1 c2 n2 :
  (forall x y z t1 t2,
      erase_timestamp (new x y z t1) = erase_timestamp (new x y z t2)) ->
  (forall li m, erase_timestamp (write li m) = write li (erase_timestamp m)) ->
  erase_models a = erase_models b ->
  agree (LineItem.run new write e a c1 n1) (LineItem.run new write e b c2 n2).
Proof.
  intros Hnew Hwrite H. destruct e as [|e|li]; simpl; auto.
  rewrite !set_erase, !Hwrite, H.
  now rewrite (target_erase new li a b (c1 n1) (c2 n2) Hnew H).
Qed.

Lemma for_items_agree {V} (body : string -> V -> Models -> M Models)
    (d : Dict.t V) :
  (forall k v a b c1 n1 c2 n2,
      erase_models a = erase_models b ->
      agree (body k v a c1 n1) (body k v b c2 n2)) ->
  forall a b c1 n1 c2 n2,
    erase_models a = erase_models b ->
    agree (for_items body d a c1 n1) (for_items body d b c2 n2).
Proof.
  intros Hbody. induction d as [|[k v] d IH]; intros a b c1 n1 c2 n2 H.
  - exact H.
  - simpl. unfold bind.
    specialize (Hbody k v a b c1 n1 c2 n2 H). unfold agree in Hbody.
    destruct (body k v a c1 n1) as [[a' m1]|e1],
             (body k v b c2 n2) as [[b' m2]|e2];
      try contradiction.
    + now apply IH.
    + exact Hbody.
Qed.

Lemma parse_bedrock_agree data a b c1 n1 c2 n2 :
  erase_models a = erase_models b ->
  agree (_parse_bedrock_data data a c1 n1) (_parse_bedrock_data data b c2 n2).
Proof.
  apply for_items_agree. intros k v a' b' d1 m1 d2 m2 H.
  rewrite !bedrock_item_view.
  apply run_agree; auto. apply bedrock_write_erase.
Qed.

Lemma parse_fm_agree data a b c1 n1 c2 n2 :
  erase_models a = erase_models b ->
  agree (_parse_fm_data data a c1 n1) (_parse_fm_data data b c2 n2).
Proof.
  apply for_items_agree. intros k v a' b' d1 m1 d2 m2 H.
  rewrite !fm_item_view.
  apply run_agree; auto. apply fm_write_erase.
Qed.

End TwoRuns.

(** C2, as the code has it.  Two normalizations of the same pair of
    catalogs, whatever the clock shows during each, raise the same
    exception or return the same records in the same order, equal in every
    field but [last_updated]. *)
Theorem normalize_deterministic_up_to_timestamp
    bedrock_data fm_data clock1 n1 clock2 n2 :
  timeless (AWSBedrockProvider.normalize bedrock_data fm_data clock1 n1)
  = timeless (AWSBedrockProvider.normalize bedrock_data fm_data clock2 n2).
Proof.
  unfold AWSBedrockProvider.normalize, bind.
  pose proof (parse_bedrock_agree bedrock_data [] [] clock1 n1 clock2 n2
                eq_refl) as Ha.
  unfold agree in Ha.
  destruct (AWSBedrockProvider._parse_bedrock_data bedrock_data [] clock1 n1)
    as [[a m1]|e1],
    (AWSBedrockProvider._parse_bedrock_data bedrock_data [] clock2 n2)
    as [[b m2]|e2]; try contradiction.
  - pose proof (parse_fm_agree fm_data a b clock1 m1 clock2 m2 Ha) as Hb.
    unfold agree in Hb.
    destruct (AWSBedrockProvider._parse_fm_data fm_data a clock1 m1)
      as [[a' k1]|e1],
      (AWSBedrockProvider._parse_fm_data fm_data b clock2 m2)
      as [[b' k2]|e2]; try contradiction.
    + unfold ret, timeless. rewrite <- !values_erase. now rewrite Hb.
    + simpl. now rewrite Hb.
  - simpl. now rewrite Ha.
Qed.

(** C2, as the claim has it, fails in one field: a record is stamped with
    [datetime.now()] when it is created.  The two catalogs of the
    end-to-end example, normalized when the clock shows 1 and again when it
    shows 2, give records that differ in [last_updated]. *)
Lemma two_runs_differ_in_timestamp :
  AWSBedrockProvider.normalize Example.catalog_A Example.catalog_B
    (fun _ => 1) 0%nat
  = Returned ([Example.merged_record 1], 1%nat)
  /\ AWSBedrockProvider.normalize Example.catalog_A Example.catalog_B
       (fun _ => 2) 0%nat
     = Returned ([Example.merged_record 2], 1%nat)
  /\ [Example.merged_record 1] <> [Example.merged_record 2]
  /\ ModelPricing.last_updated (Example.merged_record 1)
     <> ModelPricing.last_updated (Example.merged_record 2).
Proof.
  split; [reflexivity|]. split; [reflexivity|]. split.
  - intros H.
    apply (f_equal (map ModelPricing.last_updated)) in H. discriminate.
  - discriminate.
Qed.

(* ================================================================== *)
(** * Further properties of the provider *)

(** ** A parser as a loop over line-items

    The lemmas of this section hold for both parsers: a loop body that is
    "read the product as a line-item, then write it" ([body_view], which
    [bedrock_item_view] and [fm_item_view] provide). *)

Section Parser.
Import AWSBedrockProvider.
Variable new : string -> string -> string -> datetime -> ModelPricing.t.
Variable write : LineItem.t -> ModelPricing.t -> ModelPricing.t.
Variable extract :
  Dict.t (Dict.t Catalog.Term) -> string -> Catalog.Product -> LineItem.Extracted.
Variable body :
  Dict.t (Dict.t Catalog.Term) -> string -> Catalog.Product -> Models -> M Models.
Hypothesis body_view :
  forall terms sku product models clock n,
    body terms sku product models clock n
    = LineItem.run new write (extract terms sku product) models clock n.
Variable terms : Dict.t (Dict.t Catalog.Term).

(** A property of the dictionary and the count of clock readings that
    every written line-item preserves holds when the loop returns. *)
Lemma loop_state_invariant (P : Models -> nat -> Prop) products :
  (forall sku product li models n t,
      In (sku, product) products ->
      extract terms sku product = LineItem.Priced li ->
      P models n ->
      P (Dict.set models (LineItem.id li)
           (write li (LineItem.target new li models t)))
        (if Dict.mem models (LineItem.id li) then n else S n)) ->
  forall models clock n models' n',
    P models n ->
    for_items (body terms) products models clock n = Returned (models', n') ->
    P models' n'.
Proof.
  induction products as [|[sku product] rest IH];
    intros Hstep models clock n models' n' HP Hrun.
  - injection Hrun as <- <-. exact HP.
  - simpl in Hrun. unfold bind in Hrun. rewrite body_view in Hrun.
    destruct (extract terms sku product) as [|e|li] eqn:E; simpl in Hrun.
    + apply (IH (fun s q l m k t H => Hstep s q l m k t (or_intror H))
               models clock n models' n' HP Hrun).
    + discriminate.
    + unfold LineItem.apply in Hrun.
      refine (IH (fun s q l m k t H => Hstep s q l m k t (or_intror H))
                _ clock _ models' n' _ Hrun).
      apply Hstep with sku product; auto. now left.
Qed.

Lemma loop_returns products :
  (forall sku product e,
      In (sku, product) products ->
      extract terms sku product <> LineItem.Failed e) ->
  forall models clock n,
    exists models' n',
      for_items (body terms) products models clock n = Returned (models', n').
Proof.
  induction products as [|[sku product] rest IH]; intros Hok models clock n.
  - now exists models, n.
  - simpl. unfold bind. rewrite body_view.
    destruct (extract terms sku product) as [|e|li] eqn:E; simpl.
    + apply IH. intros s q e Hin. apply Hok. now right.
    + exfalso. apply (Hok sku product e); auto. now left.
    + unfold LineItem.apply. apply IH. intros s q e Hin. apply Hok. now right.
Qed.

Lemma loop_raises before sku product after e :
  (forall s q e',
      In (s, q) before -> extract terms s q <> LineItem.Failed e') ->
  extract terms sku product = LineItem.Failed e ->
  forall models clock n,
    for_items (body terms) (before ++ (sku, product) :: after)%list
      models clock n
    = Raised e.
Proof.
  intros Hok E models clock n. rewrite for_items_app.
  destruct (loop_returns before Hok models clock n) as (m1 & n1 & ->).
  simpl. unfold bind. now rewrite body_view, E.
Qed.

Lemma loop_skips products :
  (forall sku product,
      In (sku, product) products ->
      extract terms sku product = LineItem.Skipped) ->
  forall models clock n,
    for_items (body terms) products models clock n = Returned (models, n).
Proof.
  induction products as [|[sku product] rest IH]; intros Hskip models clock n.
  - reflexivity.
  - simpl. unfold bind. rewrite body_view, (Hskip sku product) by now left.
    simpl. unfold ret. apply IH. intros s q Hin. apply Hskip. now right.
Qed.

End Parser.

(** ** When a parse raises *)

(** X1.  A parse returns when the price of every product that gets as far
    as the price can be read, and otherwise raises what the first product
    with an unreadable price raises: one such product aborts the parse of
    the whole catalog, whatever follows it. *)
Theorem parse_raises_on_first_unreadable_price :
  (forall data models clock n,
      (forall sku product e,
          In (sku, product) (Catalog.get_products data) ->
          LineItem.bedrock_extract (Catalog.get_on_demand data) sku product
          <> LineItem.Failed e) ->
      exists models' n',
        AWSBedrockProvider._parse_bedrock_data data models clock n
        = Returned (models', n'))
  /\ (forall data before sku product after e models clock n,
        Catalog.get_products data = (before ++ (sku, product) :: after)%list ->
        (forall s q e',
            In (s, q) before ->
            LineItem.bedrock_extract (Catalog.get_on_demand data) s q
            <> LineItem.Failed e') ->
        LineItem.bedrock_extract (Catalog.get_on_demand data) sku product
        = LineItem.Failed e ->
        AWSBedrockProvider._parse_bedrock_data data models clock n = Raised e)
  /\ (forall data models clock n,
        (forall sku product e,
            In (sku, product) (Catalog.get_products data) ->
            LineItem.fm_extract (Catalog.get_on_demand data) sku product
            <> LineItem.Failed e) ->
        exists models' n',
          AWSBedrockProvider._parse_fm_data data models clock n
          = Returned (models', n'))
  /\ (forall data before sku product after e models clock n,
        Catalog.get_products data = (before ++ (sku, product) :: after)%list ->
        (forall s q e',
            In (s, q) before ->
            LineItem.fm_extract (Catalog.get_on_demand data) s q
            <> LineItem.Failed e') ->
        LineItem.fm_extract (Catalog.get_on_demand data) sku product
        = LineItem.Failed e ->
        AWSBedrockProvider._parse_fm_data data models clock n = Raised e).
Proof.
  split; [|split; [|split]].
  - intros data models clock n Hok.
    apply (loop_returns _ _ _ _ bedrock_item_view); auto.
  - intros data before sku product after e models clock n Hsplit Hok E.
    unfold AWSBedrockProvider._parse_bedrock_data. rewrite Hsplit.
    apply (loop_raises _ _ _ _ bedrock_item_view); auto.
  - intros data models clock n Hok.
    apply (loop_returns _ _ _ _ fm_item_view); auto.
  - intros data before sku product after e models clock n Hsplit Hok E.
    unfold AWSBedrockProvider._parse_fm_data. rewrite Hsplit.
    apply (loop_raises _ _ _ _ fm_item_view); auto.
Qed.

Lemma parse_raises_on_first_unreadable_price_witness :
  AWSBedrockProvider._parse_bedrock_data Sample.bad_price [] (fun _ => 0) 0%nat
  = Raised ValueError.
Proof.
  apply (proj1 (proj2 parse_raises_on_first_unreadable_price)
           Sample.bad_price [] "b1" Sample.claude_input
           [("g1", Sample.claude_output)] ValueError [] (fun _ => 0) 0%nat).
  - reflexivity.
  - intros s q e' [].
  - vm_compute. reflexivity.
Defined.

(** ** Products that are skipped *)

Section Skips.
Import AWSBedrockProvider.

Lemma bedrock_extract_no_terms terms sku product :
  falsy_term_data (Dict.get terms sku) = true ->
  LineItem.bedrock_extract terms sku product = LineItem.Skipped.
Proof.
  unfold LineItem.bedrock_extract, falsy_term_data.
  destruct (PyStr.is_empty _); [reflexivity|].
  destruct (_ || _)%bool; [reflexivity|].
  destruct (Dict.get terms sku) as [[|t0 td]|]; try reflexivity.
  discriminate.
Qed.

Lemma fm_extract_no_terms terms sku product :
  falsy_term_data (Dict.get terms sku) = true ->
  LineItem.fm_extract terms sku product = LineItem.Skipped.
Proof.
  unfold LineItem.fm_extract, falsy_term_data.
  destruct (PyStr.is_empty _); [reflexivity|].
  destruct (Dict.get terms sku) as [[|t0 td]|]; try reflexivity.
  discriminate.
Qed.

End Skips.

(** X2.  Products whose SKU has no on-demand terms (the key is absent from
    the terms, or its value is empty, or the catalog has no ["terms"] or no
    ["OnDemand"] at all) are passed over: when this is so for every
    product, both parsers return the dictionary they were given, without
    reading the clock and without raising. *)
Theorem products_without_terms_are_skipped data models clock n :
  (forall sku product,
      In (sku, product) (Catalog.get_products data) ->
      AWSBedrockProvider.falsy_term_data
        (Dict.get (Catalog.get_on_demand data) sku) = true) ->
  AWSBedrockProvider._parse_bedrock_data data models clock n
  = Returned (models, n)
  /\ AWSBedrockProvider._parse_fm_data data models clock n
     = Returned (models, n).
Proof.
  intros Hno. split.
  - apply (loop_skips _ _ _ _ bedrock_item_view).
    intros sku product Hin. apply bedrock_extract_no_terms.
    exact (Hno sku product Hin).
  - apply (loop_skips _ _ _ _ fm_item_view).
    intros sku product Hin. apply fm_extract_no_terms.
    exact (Hno sku product Hin).
Qed.

Lemma products_without_terms_are_skipped_witness :
  AWSBedrockProvider._parse_bedrock_data Sample.no_terms [] (fun _ => 0) 0%nat
  = Returned ([], 0%nat)
  /\ AWSBedrockProvider._parse_fm_data Sample.no_terms [] (fun _ => 0) 0%nat
     = Returned ([], 0%nat).
Proof.
  apply (products_without_terms_are_skipped Sample.no_terms []
           (fun _ => 0) 0%nat).
  intros sku product _. reflexivity.
Defined.

(** X3.  The two exclusions sit on different sides of the price.  The
    general catalog's loop passes over a Guardrail or CustomModel product
    before it looks at the terms, so such a product never raises.  The
    foundation-model catalog's loop reads the price first and passes over
    a ProvisionedThroughput product afterwards: the product changes
    nothing when its price can be read, and raises when it cannot. *)
Theorem exclusions_before_and_after_the_price :
  (forall terms sku product models clock n,
      (PyStr.contains "Guardrail"
         (Dict.get_default (Catalog.get_attributes product) "usagetype" "")
       || PyStr.contains "CustomModel"
            (Dict.get_default (Catalog.get_attributes product) "usagetype" ""))%bool
      = true ->
      AWSBedrockProvider.bedrock_item terms sku product models clock n
      = Returned (models, n))
  /\ (forall (terms : Dict.t (Dict.t Catalog.Term)) sku product
             (term_data : Dict.t Catalog.Term) models clock n,
        PyStr.is_empty
          (Dict.get_default (Catalog.get_attributes product) "servicename" "")
        = false ->
        PyStr.contains "ProvisionedThroughput"
          (Dict.get_default (Catalog.get_attributes product) "usagetype" "")
        = true ->
        Dict.get terms sku = Some term_data ->
        term_data <> [] ->
        AWSBedrockProvider.fm_item terms sku product models clock n
        = match AWSBedrockProvider.price_of term_data with
          | Returned _ => Returned (models, n)
          | Raised e => Raised e
          end).
Proof.
  split.
  - intros terms sku product models clock n H.
    unfold AWSBedrockProvider.bedrock_item. cbv zeta.
    destruct (PyStr.is_empty _); [reflexivity|].
    now rewrite H.
  - intros terms sku product term_data models clock n Hname Hprov Hget Hne.
    unfold AWSBedrockProvider.fm_item. cbv zeta. rewrite Hname, Hget.
    destruct term_data as [|t0 td]; [contradiction|].
    simpl AWSBedrockProvider.falsy_term_data. cbv iota.
    unfold bind.
    destruct (AWSBedrockProvider.price_of (t0 :: td)) as [[p d]|e];
      [|reflexivity].
    simpl. now rewrite Hprov.
Qed.

Lemma exclusions_before_and_after_the_price_witness :
  AWSBedrockProvider.fm_item [("p1", Sample.broken_term_data)] "p1"
    Sample.provisioned [] (fun _ => 0) 0%nat
  = Raised (KeyError "priceDimensions").
Proof.
  apply (proj2 exclusions_before_and_after_the_price
           [("p1", Sample.broken_term_data)] "p1" Sample.provisioned
           Sample.broken_term_data [] (fun _ => 0) 0%nat);
    try reflexivity.
  discriminate.
Defined.

(** ** What a parse does to the dictionary as a whole *)

Section ParserShape.
Import AWSBedrockProvider.
Variable new : string -> string -> string -> datetime -> ModelPricing.t.
Variable write : LineItem.t -> ModelPricing.t -> ModelPricing.t.
Variable extract :
  Dict.t (Dict.t Catalog.Term) -> string -> Catalog.Product -> LineItem.Extracted.
Variable body :
  Dict.t (Dict.t Catalog.Term) -> string -> Catalog.Product -> Models -> M Models.
Hypothesis body_view :
  forall terms sku product models clock n,
    body terms sku product models clock n
    = LineItem.run new write (extract terms sku product) models clock n.
Hypothesis write_identity : forall li m, same_identity m (write li m).
Hypothesis new_fields :
  forall a b c t,
    ModelPricing.id (new a b c t) = a
    /\ ModelPricing.provider (new a b c t) = name
    /\ ModelPricing.model_id (new a b c t) = b
    /\ ModelPricing.model_name (new a b c t) = c.
Variable terms : Dict.t (Dict.t Catalog.Term).
Variable products : Dict.t Catalog.Product.

(** New ids go to the end, one clock reading each. *)
Lemma loop_appends models clock n models' n' :
  for_items (body terms) products models clock n = Returned (models', n') ->
  exists added,
    Dict.keys models' = (Dict.keys models ++ added)%list
    /\ n' = (n + List.length added)%nat.
Proof.
  apply (loop_state_invariant new write extract body body_view terms
           (fun ms k => exists added,
                Dict.keys ms = (Dict.keys models ++ added)%list
                /\ k = (n + List.length added)%nat)).
  - intros sku product li ms k t _ _ (added & Hk & Hn).
    rewrite keys_set. destruct (Dict.mem ms (LineItem.id li)).
    + now exists added.
    + exists (added ++ [LineItem.id li])%list. split.
      * now rewrite Hk, app_assoc.
      * rewrite length_app. simpl. lia.
  - exists []. split; [now rewrite app_nil_r | simpl; lia].
Qed.

(** A record that was there before is there afterwards, with other prices
    at most. *)
Lemma loop_keeps_identity models clock n models' n' :
  for_items (body terms) products models clock n = Returned (models', n') ->
  forall k m,
    Dict.get models k = Some m ->
    exists m', Dict.get models' k = Some m' /\ same_identity m m'.
Proof.
  apply (loop_state_invariant new write extract body body_view terms
           (fun ms _ => forall k m,
                Dict.get models k = Some m ->
                exists m', Dict.get ms k = Some m' /\ same_identity m m')).
  - intros sku product li ms j t _ _ HP k m Hget.
    destruct (HP k m Hget) as (m1 & Hget1 & Hsame).
    destruct (string_dec k (LineItem.id li)) as [->|Hne].
    + rewrite get_set_same. eexists. split; [reflexivity|].
      unfold LineItem.target. rewrite Hget1.
      destruct (write_identity li m1) as (W1 & W2 & W3 & W4 & W5 & W6).
      destruct Hsame as (S1 & S2 & S3 & S4 & S5 & S6).
      repeat split; congruence.
    + rewrite get_set_other by assumption. eauto.
  - intros k m Hget. exists m. split; [exact Hget|].
    repeat split; reflexivity.
Qed.

Lemma loop_consistent models clock n models' n' :
  (forall k m, In (k, m) models -> consistent m) ->
  for_items (body terms) products models clock n = Returned (models', n') ->
  forall k m, In (k, m) models' -> consistent m.
Proof.
  intros H0.
  apply (loop_state_invariant new write extract body body_view terms
           (fun ms _ => forall k m, In (k, m) ms -> consistent m)); auto.
  intros sku product li ms j t _ _ HP k m Hin.
  apply in_set in Hin. destruct Hin as [[-> ->] | Hin]; [|eauto].
  assert (Ht : consistent (LineItem.target new li ms t)).
  { unfold LineItem.target.
    destruct (Dict.get ms (LineItem.id li)) as [m0|] eqn:E.
    - apply get_in in E. eauto.
    - destruct (new_fields (LineItem.id li) (LineItem.model_id li)
                  (LineItem.model_name li) t) as (N1 & N2 & N3 & N4).
      unfold consistent. rewrite N1, N2, N3, N4. auto. }
  destruct (write_identity li (LineItem.target new li ms t))
    as (W1 & W2 & W3 & W4 & _).
  destruct Ht as (C1 & C2 & C3).
  unfold consistent. rewrite <- W1, <- W2, <- W3, <- W4. auto.
Qed.

End ParserShape.

Section Identity.
Import AWSBedrockProvider.

Lemma bedrock_write_identity li m :
  same_identity m (LineItem.bedrock_write li m).
Proof.
  unfold same_identity, LineItem.bedrock_write.
  destruct (bedrock_update_frame
              (bedrock_is_batch (LineItem.usage_type li) (LineItem.description li))
              (bedrock_is_input (LineItem.usage_type li) (LineItem.description li))
              (bedrock_is_output (LineItem.usage_type li) (LineItem.description li))
              (LineItem.price_usd li) m)
    as (-> & -> & -> & -> & -> & ->).
  auto 10.
Qed.

Lemma fm_write_identity li m : same_identity m (LineItem.fm_write li m).
Proof.
  unfold same_identity, LineItem.fm_write.
  destruct (fm_update_frame
              (fm_is_batch (LineItem.usage_type li) (LineItem.description li))
              (fm_is_cache_read (LineItem.usage_type li) (LineItem.description li))
              (fm_is_cache_write (LineItem.usage_type li) (LineItem.description li))
              (fm_is_input (LineItem.usage_type li))
              (fm_is_output (LineItem.usage_type li) (LineItem.description li))
              (LineItem.price_usd li) m)
    as (-> & -> & -> & -> & -> & ->).
  auto 10.
Qed.

Lemma bedrock_new_fields a b c t :
  ModelPricing.id (bedrock_new a b c t) = a
  /\ ModelPricing.provider (bedrock_new a b c t) = name
  /\ ModelPricing.model_id (bedrock_new a b c t) = b
  /\ ModelPricing.model_name (bedrock_new a b c t) = c.
Proof. auto. Qed.

Lemma fm_new_fields a b c t :
  ModelPricing.id (fm_new a b c t) = a
  /\ ModelPricing.provider (fm_new a b c t) = name
  /\ ModelPricing.model_id (fm_new a b c t) = b
  /\ ModelPricing.model_name (fm_new a b c t) = c.
Proof. auto. Qed.

Lemma normalize_alphabet s :
  PyStr.all_chars SlugSpec.in_alphabet (_normalize_model_id s) = true.
Proof.
  unfold _normalize_model_id.
  rewrite <- (proj1 (hyphenate_sub_ws_runs _)).
  apply hyphenate_alphabet. unfold Regex.sub_non_slug.
  rewrite <- (all_chars_ext _ _ _ slug_char_spec).
  apply filter_chars_all.
Qed.

End Identity.

(** X4.  A parse keeps the dictionary's records in their places and puts
    the records it creates at the end, in the order in which it creates
    them; it reads the clock once for each record it creates and not
    otherwise. *)
Theorem parse_appends_new_records data models clock n models' n' :
  AWSBedrockProvider._parse_bedrock_data data models clock n
    = Returned (models', n')
  \/ AWSBedrockProvider._parse_fm_data data models clock n
     = Returned (models', n') ->
  exists added,
    Dict.keys models' = (Dict.keys models ++ added)%list
    /\ n' = (n + List.length added)%nat
    /\ List.length models' = (List.length models + List.length added)%nat.
Proof.
  intros H.
  assert (Hadd : exists added,
             Dict.keys models' = (Dict.keys models ++ added)%list
             /\ n' = (n + List.length added)%nat).
  { destruct H as [H | H].
    - apply (loop_appends _ _ _ _ bedrock_item_view _ _ _ _ _ _ _ H).
    - apply (loop_appends _ _ _ _ fm_item_view _ _ _ _ _ _ _ H). }
  destruct Hadd as (added & Hk & Hn). exists added.
  split; [exact Hk|]. split; [exact Hn|].
  apply (f_equal (@List.length string)) in Hk.
  unfold Dict.keys in Hk. rewrite length_app, !length_map in Hk. exact Hk.
Qed.

Lemma parse_appends_new_records_witness :
  exists added,
    Dict.keys (Example.two_tiers_models 7) = ([] ++ added)%list
    /\ 1%nat = (0 + List.length added)%nat
    /\ List.length (Example.two_tiers_models 7)
       = (List.length (@nil (string * ModelPricing.t)) + List.length added)%nat.
Proof.
  apply (parse_appends_new_records Example.fm_two_tiers [] (fun _ => 7) 0%nat
           (Example.two_tiers_models 7) 1%nat).
  right. vm_compute. reflexivity.
Defined.

(** X5.  A record that is in the dictionary when a parse starts is there
    when it ends, under the same key, with the same id, provider, model
    id, model name, capabilities and timestamp: a parse changes prices of
    an existing record and nothing else.  So the foundation-model catalog
    never renames or restamps a record of the general catalog. *)
Theorem parse_changes_prices_only data models clock n models' n' k m :
  AWSBedrockProvider._parse_bedrock_data data models clock n
    = Returned (models', n')
  \/ AWSBedrockProvider._parse_fm_data data models clock n
     = Returned (models', n') ->
  Dict.get models k = Some m ->
  exists m', Dict.get models' k = Some m' /\ same_identity m m'.
Proof.
  intros [H | H].
  - apply (loop_keeps_identity _ _ _ _ bedrock_item_view
             bedrock_write_identity _ _ _ _ _ _ _ H).
  - apply (loop_keeps_identity _ _ _ _ fm_item_view
             fm_write_identity _ _ _ _ _ _ _ H).
Qed.

Lemma parse_changes_prices_only_witness :
  exists m',
    Dict.get [(Example.claude_id, Example.merged_record 7)] Example.claude_id
    = Some m'
    /\ same_identity
         (ModelPricing.set_pricing (Example.merged_record 7)
            (Pricing.set_input Pricing.empty Example.standard_price))
         m'.
Proof.
  apply (parse_changes_prices_only Example.catalog_B
           (Example.two_tiers_models 7) (fun _ => 9) 1%nat
           [(Example.claude_id, Example.merged_record 7)] 1%nat
           Example.claude_id).
  - right. vm_compute. reflexivity.
  - reflexivity.
Defined.

(** X6.  Every record a normalization returns belongs to this provider:
    its provider is ["aws_bedrock"], its id is the provider name, a colon
    and its model id, its model id is the slug of its model name, and so
    its model id has only characters of [a-z0-9.-]. *)
Theorem records_are_consistent bedrock_data fm_data clock n records n' r :
  AWSBedrockProvider.normalize bedrock_data fm_data clock n
    = Returned (records, n') ->
  In r records ->
  ModelPricing.provider r = "aws_bedrock"
  /\ ModelPricing.id r = "aws_bedrock:" ++ ModelPricing.model_id r
  /\ ModelPricing.model_id r
     = AWSBedrockProvider._normalize_model_id (ModelPricing.model_name r)
  /\ PyStr.all_chars SlugSpec.in_alphabet (ModelPricing.model_id r) = true.
Proof.
  intros Hrun Hr. apply normalize_inv in Hrun.
  destruct Hrun as (ma & na & mb & Hpa & Hpb & ->).
  apply values_in in Hr. destruct Hr as [k Hin].
  assert (Hc : consistent r).
  { refine (loop_consistent _ _ _ _ fm_item_view fm_write_identity
              fm_new_fields _ _ ma clock na mb n' _ Hpb k r Hin).
    refine (loop_consistent _ _ _ _ bedrock_item_view bedrock_write_identity
              bedrock_new_fields _ _ [] clock n ma na _ Hpa).
    intros k0 m0 []. }
  destruct Hc as (C1 & C2 & C3).
  split; [exact C1|]. split; [exact C2|]. split; [exact C3|].
  rewrite C3. apply normalize_alphabet.
Qed.

Lemma records_are_consistent_witness :
  ModelPricing.provider (Example.merged_record 7) = "aws_bedrock"
  /\ ModelPricing.id (Example.merged_record 7)
     = "aws_bedrock:" ++ ModelPricing.model_id (Example.merged_record 7)
  /\ ModelPricing.model_id (Example.merged_record 7)
     = AWSBedrockProvider._normalize_model_id
         (ModelPricing.model_name (Example.merged_record 7))
  /\ PyStr.all_chars SlugSpec.in_alphabet
       (ModelPricing.model_id (Example.merged_record 7)) = true.
Proof.
  apply (records_are_consistent Example.catalog_A Example.catalog_B
           (fun _ => 7) 0%nat [Example.merged_record 7] 1%nat).
  - reflexivity.
  - now left.
Defined.

(** ** Where the prices of the records come from *)

Section ParserPrices.
Import AWSBedrockProvider.
Variable new : string -> string -> string -> datetime -> ModelPricing.t.
Variable write : LineItem.t -> ModelPricing.t -> ModelPricing.t.
Variable extract :
  Dict.t (Dict.t Catalog.Term) -> string -> Catalog.Product -> LineItem.Extracted.
Variable body :
  Dict.t (Dict.t Catalog.Term) -> string -> Catalog.Product -> Models -> M Models.
Variable classify : LineItem.t -> PriceClass.
Hypothesis body_view :
  forall terms sku product models clock n,
    body terms sku product models clock n
    = LineItem.run new write (extract terms sku product) models clock n.
Hypothesis new_empty : forall a b c t g, field_value g (new a b c t) = None.
Hypothesis new_name : forall a b c t, ModelPricing.model_name (new a b c t) = c.
Hypothesis write_name :
  forall li m, ModelPricing.model_name (write li m) = ModelPricing.model_name m.
Hypothesis write_other :
  forall li m f,
    class_field (classify li) <> Some f ->
    field_value f (write li m) = field_value f m.
Hypothesis write_origin :
  forall li m f v,
    field_value f (write li m) = Some v ->
    (class_field (classify li) = Some f /\ v = LineItem.price_usd li)
    \/ field_value f m = Some v.
Hypothesis write_populates :
  forall li m f,
    class_field (classify li) = Some f -> field_value f (write li m) <> None.
Variable terms : Dict.t (Dict.t Catalog.Term).

Lemma write_monotone li m f :
  field_value f m <> None -> field_value f (write li m) <> None.
Proof.
  intros H.
  destruct (class_field (classify li)) as [g|] eqn:E.
  - destruct (Field_eq_dec g f) as [->|Hne].
    + now apply write_populates.
    + rewrite write_other; auto. congruence.
  - rewrite write_other; auto. congruence.
Qed.

(** A populated field stays populated. *)
Lemma loop_keeps_populated products k f models clock n models' n' :
  price_at models k f <> None ->
  for_items (body terms) products models clock n = Returned (models', n') ->
  price_at models' k f <> None.
Proof.
  intros H0.
  apply (loop_state_invariant new write extract body body_view terms
           (fun ms _ => price_at ms k f <> None)); auto.
  intros sku product li ms j t _ _ HP.
  destruct (string_dec k (LineItem.id li)) as [->|Hne].
  - rewrite price_at_set_same. apply write_monotone.
    now rewrite target_fields.
  - now rewrite price_at_set_other.
Qed.

(** The field of the class of a line-item is populated at the end. *)
Lemma loop_populates products sku product li f models clock n models' n' :
  In (sku, product) products ->
  extract terms sku product = LineItem.Priced li ->
  class_field (classify li) = Some f ->
  for_items (body terms) products models clock n = Returned (models', n') ->
  price_at models' (LineItem.id li) f <> None.
Proof.
  intros Hin E Hf Hrun.
  apply in_split in Hin. destruct Hin as (before & after & ->).
  rewrite for_items_app in Hrun.
  destruct (for_items (body terms) before models clock n) as [[m1 n1]|e];
    [|discriminate].
  simpl in Hrun. unfold bind in Hrun. rewrite body_view, E in Hrun.
  unfold LineItem.run, LineItem.apply in Hrun.
  refine (loop_keeps_populated after _ f _ clock _ models' n' _ Hrun).
  rewrite price_at_set_same. now apply write_populates.
Qed.

(** The last line-item of a class that overwrites decides the field. *)
Lemma loop_last_writer before sku product after li f
    models clock n models' n' :
  (forall li' m, class_field (classify li') = Some f ->
                 field_value f (write li' m) = Some (LineItem.price_usd li')) ->
  extract terms sku product = LineItem.Priced li ->
  class_field (classify li) = Some f ->
  (forall s q li',
      In (s, q) after ->
      extract terms s q = LineItem.Priced li' ->
      ~ (LineItem.id li' = LineItem.id li
         /\ class_field (classify li') = Some f)) ->
  for_items (body terms) (before ++ (sku, product) :: after)%list
    models clock n = Returned (models', n') ->
  price_at models' (LineItem.id li) f = Some (LineItem.price_usd li).
Proof.
  intros Hsets E Hf Hlater Hrun.
  rewrite for_items_app in Hrun.
  destruct (for_items (body terms) before models clock n) as [[m1 n1]|e];
    [|discriminate].
  simpl in Hrun. unfold bind in Hrun. rewrite body_view, E in Hrun.
  unfold LineItem.run, LineItem.apply in Hrun.
  refine (loop_state_invariant new write extract body body_view terms
            (fun ms _ => price_at ms (LineItem.id li) f
                         = Some (LineItem.price_usd li))
            after _ _ clock _ models' n' _ Hrun).
  - intros s q li' ms j t Hin E' HP.
    destruct (string_dec (LineItem.id li) (LineItem.id li')) as [Heq|Hne].
    + rewrite Heq, price_at_set_same, write_other, target_fields; auto.
      * now rewrite <- Heq.
      * intros Hc. apply (Hlater s q li' Hin E'). auto.
    + now rewrite price_at_set_other.
  - rewrite price_at_set_same. now apply Hsets.
Qed.

(** Every populated field holds the price of a line-item of its class. *)
Lemma loop_price_origin products (Q : string -> Field -> PyFloat.float -> Prop)
    models clock n models' n' :
  (forall sku product li f,
      In (sku, product) products ->
      extract terms sku product = LineItem.Priced li ->
      class_field (classify li) = Some f ->
      Q (LineItem.id li) f (LineItem.price_usd li)) ->
  (forall k m f v,
      In (k, m) models -> field_value f m = Some v -> Q k f v) ->
  for_items (body terms) products models clock n = Returned (models', n') ->
  forall k m f v, In (k, m) models' -> field_value f m = Some v -> Q k f v.
Proof.
  intros Hitem H0.
  apply (loop_state_invariant new write extract body body_view terms
           (fun ms _ => forall k m f v,
                In (k, m) ms -> field_value f m = Some v -> Q k f v)); auto.
  intros sku product li ms j t Hin E HP k m f v Hkm Hv.
  apply in_set in Hkm. destruct Hkm as [[-> ->] | Hkm]; [|eauto].
  apply write_origin in Hv. destruct Hv as [[Hf ->] | Hv].
  - eapply Hitem; eauto.
  - rewrite target_fields in Hv by assumption. unfold price_at in Hv.
    destruct (Dict.get ms (LineItem.id li)) as [m0|] eqn:G; [|discriminate].
    apply get_in in G. eauto.
Qed.

(** Every record has the id and the name of a line-item. *)
Lemma loop_record_origin products (R : string -> string -> Prop)
    models clock n models' n' :
  (forall sku product li,
      In (sku, product) products ->
      extract terms sku product = LineItem.Priced li ->
      R (LineItem.id li) (LineItem.model_name li)) ->
  (forall k m, In (k, m) models -> R k (ModelPricing.model_name m)) ->
  for_items (body terms) products models clock n = Returned (models', n') ->
  forall k m, In (k, m) models' -> R k (ModelPricing.model_name m).
Proof.
  intros Hitem H0.
  apply (loop_state_invariant new write extract body body_view terms
           (fun ms _ => forall k m,
                In (k, m) ms -> R k (ModelPricing.model_name m))); auto.
  intros sku product li ms j t Hin E HP k m Hkm.
  apply in_set in Hkm. destruct Hkm as [[-> ->] | Hkm]; [|eauto].
  rewrite write_name. unfold LineItem.target.
  destruct (Dict.get ms (LineItem.id li)) as [m0|] eqn:G.
  - apply get_in in G. eauto.
  - rewrite new_name. eauto.
Qed.

End ParserPrices.

Section PriceInstances.
Import AWSBedrockProvider.

Lemma bedrock_write_origin_class li m f v :
  field_value f (LineItem.bedrock_write li m) = Some v ->
  (class_field (classify_bedrock li) = Some f /\ v = LineItem.price_usd li)
  \/ field_value f m = Some v.
Proof.
  destruct (class_field (classify_bedrock li)) as [g|] eqn:E.
  - destruct (Field_eq_dec g f) as [->|Hne].
    + rewrite (bedrock_write_class _ _ _ E). intros [= <-]. now left.
    + rewrite bedrock_write_other by congruence. now right.
  - rewrite bedrock_write_other by congruence. now right.
Qed.

Lemma fm_write_origin_class li m f v :
  field_value f (LineItem.fm_write li m) = Some v ->
  (class_field (classify_fm li) = Some f /\ v = LineItem.price_usd li)
  \/ field_value f m = Some v.
Proof.
  destruct (class_field (classify_fm li)) as [g|] eqn:E.
  - destruct (Field_eq_dec g f) as [->|Hne].
    + rewrite (fm_write_class _ _ _ E).
      destruct f; try (intros [= <-]; now left).
      * destruct (field_value F_input m) eqn:Ev; intros [= <-]; auto.
      * destruct (field_value F_output m) eqn:Ev; intros [= <-]; auto.
    + rewrite fm_write_other by congruence. now right.
  - rewrite fm_write_other by congruence. now right.
Qed.

Lemma bedrock_write_populates li m f :
  class_field (classify_bedrock li) = Some f ->
  field_value f (LineItem.bedrock_write li m) <> None.
Proof.
  intros Hf. rewrite (bedrock_write_class _ _ _ Hf). discriminate.
Qed.

Lemma fm_write_populates li m f :
  class_field (classify_fm li) = Some f ->
  field_value f (LineItem.fm_write li m) <> None.
Proof.
  intros Hf. rewrite (fm_write_class _ _ _ Hf).
  destruct f; try discriminate; destruct (field_value _ m); discriminate.
Qed.

Lemma bedrock_write_name li m :
  ModelPricing.model_name (LineItem.bedrock_write li m)
  = ModelPricing.model_name m.
Proof. symmetry. apply bedrock_write_identity. Qed.

Lemma fm_write_name li m :
  ModelPricing.model_name (LineItem.fm_write li m) = ModelPricing.model_name m.
Proof. symmetry. apply fm_write_identity. Qed.

(** A cache or batch price is overwritten by the foundation-model
    catalog's parser. *)
Lemma fm_write_sets li m f :
  f <> F_input -> f <> F_output ->
  class_field (classify_fm li) = Some f ->
  field_value f (LineItem.fm_write li m) = Some (LineItem.price_usd li).
Proof.
  intros Hi Ho Hf. rewrite (fm_write_class _ _ _ Hf).
  destruct f; try reflexivity; contradiction.
Qed.

(** Where the prices and the names in the result of a normalization come
    from, by key of the dictionary. *)
Lemma normalize_origin bedrock_data fm_data clock n models_a n_a models_b n' :
  _parse_bedrock_data bedrock_data [] clock n = Returned (models_a, n_a) ->
  _parse_fm_data fm_data models_a clock n_a = Returned (models_b, n') ->
  forall k m,
    In (k, m) models_b ->
    (forall f v,
        field_value f m = Some v ->
        exists li,
          ((priced_in_general bedrock_data li
            /\ class_field (classify_bedrock li) = Some f)
           \/ (priced_in_fm fm_data li
               /\ class_field (classify_fm li) = Some f))
          /\ LineItem.id li = k /\ LineItem.price_usd li = v)
    /\ exists li,
         (priced_in_general bedrock_data li \/ priced_in_fm fm_data li)
         /\ LineItem.id li = k
         /\ LineItem.model_name li = ModelPricing.model_name m.
Proof.
  intros Hpa Hpb k m Hin. split.
  - intros f v Hv.
    refine (loop_price_origin fm_new LineItem.fm_write LineItem.fm_extract
              fm_item classify_fm fm_item_view fm_new_empty
              fm_write_origin_class _ _
              (fun k f v => exists li,
                   ((priced_in_general bedrock_data li
                     /\ class_field (classify_bedrock li) = Some f)
                    \/ (priced_in_fm fm_data li
                        /\ class_field (classify_fm li) = Some f))
                   /\ LineItem.id li = k /\ LineItem.price_usd li = v)
              models_a clock n_a models_b n' _ _ Hpb k m f v Hin Hv).
    + intros sku product li g Hp E Hg. exists li.
      split; [right; split; [now exists sku, product | exact Hg]|]. auto.
    + refine (loop_price_origin bedrock_new LineItem.bedrock_write
                LineItem.bedrock_extract bedrock_item classify_bedrock
                bedrock_item_view bedrock_new_empty
                bedrock_write_origin_class _ _ _ [] clock n models_a n_a
                _ _ Hpa).
      * intros sku product li g Hp E Hg. exists li.
        split; [left; split; [now exists sku, product | exact Hg]|]. auto.
      * intros k0 m0 g w [].
  - pose (R := fun (k : string) (name : string) =>
                 exists li,
                   (priced_in_general bedrock_data li \/ priced_in_fm fm_data li)
                   /\ LineItem.id li = k /\ LineItem.model_name li = name).
    refine (loop_record_origin fm_new LineItem.fm_write LineItem.fm_extract
              fm_item fm_item_view (fun a b c t => eq_refl) fm_write_name
              _ _ R models_a clock n_a models_b n' _ _ Hpb k m Hin).
    + intros sku product li Hp E. exists li.
      split; [right; now exists sku, product|]. auto.
    + refine (loop_record_origin bedrock_new LineItem.bedrock_write
                LineItem.bedrock_extract bedrock_item bedrock_item_view
                (fun a b c t => eq_refl) bedrock_write_name
                _ _ R [] clock n models_a n_a _ _ Hpa).
      * intros sku product li Hp E. exists li.
        split; [left; now exists sku, product|]. auto.
      * intros k0 m0 [].
Qed.

End PriceInstances.

Section Members.
Import AWSBedrockProvider.
Variable new : string -> string -> string -> datetime -> ModelPricing.t.
Variable write : LineItem.t -> ModelPricing.t -> ModelPricing.t.
Variable extract :
  Dict.t (Dict.t Catalog.Term) -> string -> Catalog.Product -> LineItem.Extracted.
Variable body :
  Dict.t (Dict.t Catalog.Term) -> string -> Catalog.Product -> Models -> M Models.
Hypothesis body_view :
  forall terms sku product models clock n,
    body terms sku product models clock n
    = LineItem.run new write (extract terms sku product) models clock n.
Hypothesis write_identity : forall li m, same_identity m (write li m).

(** Every priced line-item has its record at the end. *)
Lemma loop_has_record terms products sku product li models clock n models' n' :
  In (sku, product) products ->
  extract terms sku product = LineItem.Priced li ->
  for_items (body terms) products models clock n = Returned (models', n') ->
  Dict.mem models' (LineItem.id li) = true.
Proof.
  intros Hin E Hrun.
  apply in_split in Hin. destruct Hin as (before & after & ->).
  rewrite for_items_app in Hrun.
  destruct (for_items (body terms) before models clock n) as [[m1 n1]|e];
    [|discriminate].
  simpl in Hrun. unfold bind in Hrun. rewrite body_view, E in Hrun.
  unfold LineItem.run, LineItem.apply in Hrun.
  destruct (loop_keeps_identity new write extract body body_view
              write_identity terms after _ clock _ models' n' Hrun
              (LineItem.id li) _ (get_set_same _ _ _)) as (m' & Hget & _).
  unfold Dict.mem. now rewrite Hget.
Qed.

End Members.

(** ** Which line-item decides a price *)

(** X7.  In the general catalog's parse the last line-item wins: when a
    line-item classifies to a price field of a model and no later
    line-item of the catalog classifies to the same field of the same
    model, the field ends with this line-item's price, whatever was
    written before. *)
Theorem last_writer_wins_general data before sku product after li f
    models clock n models' n' :
  Catalog.get_products data = (before ++ (sku, product) :: after)%list ->
  LineItem.bedrock_extract (Catalog.get_on_demand data) sku product
  = LineItem.Priced li ->
  class_field (classify_bedrock li) = Some f ->
  (forall s q li',
      In (s, q) after ->
      LineItem.bedrock_extract (Catalog.get_on_demand data) s q
      = LineItem.Priced li' ->
      ~ (LineItem.id li' = LineItem.id li
         /\ class_field (classify_bedrock li') = Some f)) ->
  AWSBedrockProvider._parse_bedrock_data data models clock n
  = Returned (models', n') ->
  price_at models' (LineItem.id li) f = Some (LineItem.price_usd li).
Proof.
  intros Hsplit E Hf Hlater Hrun.
  unfold AWSBedrockProvider._parse_bedrock_data in Hrun.
  rewrite Hsplit in Hrun.
  apply (loop_last_writer AWSBedrockProvider.bedrock_new
           LineItem.bedrock_write LineItem.bedrock_extract
           AWSBedrockProvider.bedrock_item classify_bedrock
           bedrock_item_view bedrock_new_empty bedrock_write_other
           (Catalog.get_on_demand data) before sku product after li f
           models clock n models' n'); auto.
  intros li' m Hc. now apply bedrock_write_class.
Qed.

Lemma last_writer_wins_general_witness :
  price_at (Sample.general_two_tiers_models 0)
    (LineItem.id Sample.optimized_general_item) F_input
  = Some (LineItem.price_usd Sample.optimized_general_item).
Proof.
  apply (last_writer_wins_general Example.general_two_tiers
           [("std", Sample.standard_general_product)]
           "lo" Sample.optimized_general_product []
           Sample.optimized_general_item F_input [] (fun _ => 0) 0%nat
           (Sample.general_two_tiers_models 0) 1%nat);
    [ reflexivity
    | vm_compute; reflexivity
    | vm_compute; reflexivity
    | intros s q li' []
    | vm_compute; reflexivity ].
Defined.

(** X8.  In the foundation-model catalog's parse the cache and batch
    prices are last-writer-wins too: a line-item that classifies to a
    field other than the input and the output price, with no later
    line-item for the same field of the same model, decides the field. *)
Theorem last_writer_wins_fm_cache_batch data before sku product after li f
    models clock n models' n' :
  Catalog.get_products data = (before ++ (sku, product) :: after)%list ->
  LineItem.fm_extract (Catalog.get_on_demand data) sku product
  = LineItem.Priced li ->
  class_field (classify_fm li) = Some f ->
  f <> F_input -> f <> F_output ->
  (forall s q li',
      In (s, q) after ->
      LineItem.fm_extract (Catalog.get_on_demand data) s q
      = LineItem.Priced li' ->
      ~ (LineItem.id li' = LineItem.id li
         /\ class_field (classify_fm li') = Some f)) ->
  AWSBedrockProvider._parse_fm_data data models clock n
  = Returned (models', n') ->
  price_at models' (LineItem.id li) f = Some (LineItem.price_usd li).
Proof.
  intros Hsplit E Hf Hi Ho Hlater Hrun.
  unfold AWSBedrockProvider._parse_fm_data in Hrun.
  rewrite Hsplit in Hrun.
  apply (loop_last_writer AWSBedrockProvider.fm_new
           LineItem.fm_write LineItem.fm_extract
           AWSBedrockProvider.fm_item classify_fm
           fm_item_view fm_new_empty fm_write_other
           (Catalog.get_on_demand data) before sku product after li f
           models clock n models' n'); auto.
  intros li' m Hc. now apply fm_write_sets.
Qed.

Lemma last_writer_wins_fm_cache_batch_witness :
  price_at (Sample.two_cache_reads_models 0)
    (LineItem.id Sample.optimized_cache_item) F_cached_input
  = Some (LineItem.price_usd Sample.optimized_cache_item).
Proof.
  apply (last_writer_wins_fm_cache_batch Example.fm_two_cache_reads
           [("std", Sample.standard_cache_product)]
           "lo" Sample.optimized_cache_product []
           Sample.optimized_cache_item F_cached_input [] (fun _ => 0) 0%nat
           (Sample.two_cache_reads_models 0) 1%nat);
    [ reflexivity
    | vm_compute; reflexivity
    | vm_compute; reflexivity
    | discriminate
    | discriminate
    | intros s q li' []
    | vm_compute; reflexivity ].
Defined.

(** ** The result against the catalogs *)

(** X9.  No price is invented or misfiled: every populated price field of
    every returned record holds the price of a line-item of one of the two
    catalogs that belongs to this record and that its parser classifies to
    this field. *)
Theorem prices_come_from_line_items bedrock_data fm_data clock n records n'
    r f v :
  AWSBedrockProvider.normalize bedrock_data fm_data clock n
    = Returned (records, n') ->
  In r records ->
  field_value f r = Some v ->
  exists li,
    ((priced_in_general bedrock_data li
      /\ class_field (classify_bedrock li) = Some f)
     \/ (priced_in_fm fm_data li /\ class_field (classify_fm li) = Some f))
    /\ LineItem.id li = ModelPricing.id r
    /\ LineItem.price_usd li = v.
Proof.
  intros Hrun Hr Hv. apply normalize_inv in Hrun.
  destruct Hrun as (ma & na & mb & Hpa & Hpb & ->).
  apply values_in in Hr. destruct Hr as [k Hin].
  assert (Hwk : well_keyed mb).
  { eapply parse_fm_well_keyed; [|exact Hpb].
    eapply parse_bedrock_well_keyed; [|exact Hpa]. apply well_keyed_nil. }
  rewrite (proj2 Hwk k r Hin).
  apply (proj1 (normalize_origin _ _ _ _ _ _ _ _ Hpa Hpb k r Hin) f v Hv).
Qed.

Lemma prices_come_from_line_items_witness :
  exists li,
    ((priced_in_general Example.catalog_A li
      /\ class_field (classify_bedrock li) = Some F_output)
     \/ (priced_in_fm Example.catalog_B li
         /\ class_field (classify_fm li) = Some F_output))
    /\ LineItem.id li = ModelPricing.id (Example.merged_record 7)
    /\ LineItem.price_usd li = Example.output_price.
Proof.
  apply (prices_come_from_line_items Example.catalog_A Example.catalog_B
           (fun _ => 7) 0%nat [Example.merged_record 7] 1%nat
           (Example.merged_record 7) F_output Example.output_price).
  - reflexivity.
  - now left.
  - reflexivity.
Defined.

(** X10.  No classified price is lost: for every line-item of either
    catalog that its parser classifies to a price field, the returned
    records have the record of its model, and that field of the record is
    populated. *)
Theorem classified_prices_are_kept bedrock_data fm_data clock n records n'
    li f :
  (priced_in_general bedrock_data li
   /\ class_field (classify_bedrock li) = Some f)
  \/ (priced_in_fm fm_data li /\ class_field (classify_fm li) = Some f) ->
  AWSBedrockProvider.normalize bedrock_data fm_data clock n
    = Returned (records, n') ->
  exists r,
    In r records
    /\ ModelPricing.id r = LineItem.id li
    /\ field_value f r <> None.
Proof.
  intros Hli Hrun. apply normalize_inv in Hrun.
  destruct Hrun as (ma & na & mb & Hpa & Hpb & ->).
  assert (Hwk : well_keyed mb).
  { eapply parse_fm_well_keyed; [|exact Hpb].
    eapply parse_bedrock_well_keyed; [|exact Hpa]. apply well_keyed_nil. }
  assert (Hpop : price_at mb (LineItem.id li) f <> None).
  { destruct Hli as [[(sku & product & Hin & E) Hf]
                    | [(sku & product & Hin & E) Hf]].
    - apply (loop_keeps_populated AWSBedrockProvider.fm_new LineItem.fm_write
               LineItem.fm_extract AWSBedrockProvider.fm_item classify_fm
               fm_item_view fm_new_empty fm_write_other fm_write_populates
               (Catalog.get_on_demand fm_data) (Catalog.get_products fm_data)
               (LineItem.id li) f ma clock na mb n'); [|exact Hpb].
      apply (loop_populates AWSBedrockProvider.bedrock_new
               LineItem.bedrock_write LineItem.bedrock_extract
               AWSBedrockProvider.bedrock_item classify_bedrock
               bedrock_item_view bedrock_new_empty bedrock_write_other
               bedrock_write_populates
               (Catalog.get_on_demand bedrock_data)
               (Catalog.get_products bedrock_data)
               sku product li f [] clock n ma na Hin E Hf Hpa).
    - apply (loop_populates AWSBedrockProvider.fm_new LineItem.fm_write
               LineItem.fm_extract AWSBedrockProvider.fm_item classify_fm
               fm_item_view fm_new_empty fm_write_other fm_write_populates
               (Catalog.get_on_demand fm_data) (Catalog.get_products fm_data)
               sku product li f ma clock na mb n' Hin E Hf Hpb). }
  unfold price_at in Hpop.
  destruct (Dict.get mb (LineItem.id li)) as [r|] eqn:G; [|contradiction].
  apply get_in in G. exists r. split.
  - unfold Dict.values. apply in_map_iff. now exists (LineItem.id li, r).
  - split; [now apply Hwk | exact Hpop].
Qed.

Lemma classified_prices_are_kept_witness :
  exists r,
    In r [Example.merged_record 7]
    /\ ModelPricing.id r = LineItem.id Sample.example_input_item
    /\ field_value F_input r <> None.
Proof.
  apply (classified_prices_are_kept Example.catalog_A Example.catalog_B
           (fun _ => 7) 0%nat [Example.merged_record 7] 1%nat
           Sample.example_input_item F_input).
  - left. split; [|vm_compute; reflexivity].
    exists "s1", Sample.example_input_product.
    split; [now left | vm_compute; reflexivity].
  - reflexivity.
Defined.

(** X11.  The records of a normalization and the priced line-items of the
    two catalogs match: every record has the id and the model name of one
    of the line-items, and every line-item, classified or not, has the
    record of its id among the records. *)
Theorem records_match_line_items bedrock_data fm_data clock n records n' :
  AWSBedrockProvider.normalize bedrock_data fm_data clock n
    = Returned (records, n') ->
  (forall r,
      In r records ->
      exists li,
        (priced_in_general bedrock_data li \/ priced_in_fm fm_data li)
        /\ LineItem.id li = ModelPricing.id r
        /\ LineItem.model_name li = ModelPricing.model_name r)
  /\ (forall li,
        priced_in_general bedrock_data li \/ priced_in_fm fm_data li ->
        exists r, In r records /\ ModelPricing.id r = LineItem.id li).
Proof.
  intros Hrun. apply normalize_inv in Hrun.
  destruct Hrun as (ma & na & mb & Hpa & Hpb & ->).
  assert (Hwk : well_keyed mb).
  { eapply parse_fm_well_keyed; [|exact Hpb].
    eapply parse_bedrock_well_keyed; [|exact Hpa]. apply well_keyed_nil. }
  split.
  - intros r Hr. apply values_in in Hr. destruct Hr as [k Hin].
    rewrite (proj2 Hwk k r Hin).
    apply (proj2 (normalize_origin _ _ _ _ _ _ _ _ Hpa Hpb k r Hin)).
  - intros li Hli.
    assert (Hmem : Dict.mem mb (LineItem.id li) = true).
    { destruct Hli as [(sku & product & Hin & E) | (sku & product & Hin & E)].
      - pose proof (loop_has_record AWSBedrockProvider.bedrock_new
                      LineItem.bedrock_write LineItem.bedrock_extract
                      AWSBedrockProvider.bedrock_item bedrock_item_view
                      bedrock_write_identity
                      (Catalog.get_on_demand bedrock_data)
                      (Catalog.get_products bedrock_data)
                      sku product li [] clock n ma na Hin E Hpa) as Ha.
        apply mem_get in Ha. destruct Ha as [m Hm].
        destruct (loop_keeps_identity AWSBedrockProvider.fm_new
                    LineItem.fm_write LineItem.fm_extract
                    AWSBedrockProvider.fm_item fm_item_view fm_write_identity
                    (Catalog.get_on_demand fm_data)
                    (Catalog.get_products fm_data)
                    ma clock na mb n' Hpb (LineItem.id li) m Hm)
          as (m' & Hm' & _).
        apply mem_get. now exists m'.
      - apply (loop_has_record AWSBedrockProvider.fm_new
                 LineItem.fm_write LineItem.fm_extract
                 AWSBedrockProvider.fm_item fm_item_view fm_write_identity
                 (Catalog.get_on_demand fm_data)
                 (Catalog.get_products fm_data)
                 sku product li ma clock na mb n' Hin E Hpb). }
    apply mem_get in Hmem. destruct Hmem as [r Hr].
    apply get_in in Hr. exists r. split.
    + unfold Dict.values. apply in_map_iff. now exists (LineItem.id li, r).
    + now apply Hwk.
Qed.

Lemma records_match_line_items_witness :
  (forall r,
      In r [Example.unmarked_record 0] ->
      exists li,
        (priced_in_general Build.empty_catalog li
         \/ priced_in_fm Example.fm_unmarked li)
        /\ LineItem.id li = ModelPricing.id r
        /\ LineItem.model_name li = ModelPricing.model_name r)
  /\ (forall li,
        priced_in_general Build.empty_catalog li
        \/ priced_in_fm Example.fm_unmarked li ->
        exists r,
          In r [Example.unmarked_record 0]
          /\ ModelPricing.id r = LineItem.id li).
Proof.
  apply (records_match_line_items Build.empty_catalog Example.fm_unmarked
           (fun _ => 0) 0%nat [Example.unmarked_record 0] 1%nat).
  vm_compute. reflexivity.
Defined.

(** ** Fields the provider never fills *)

Lemma class_field_range c f :
  class_field c = Some f ->
  f <> F_reasoning /\ f <> F_image_input /\ f <> F_embedding.
Proof.
  destruct c; intros [= <-]; repeat split; discriminate.
Qed.

(** X12.  The provider has no source for the reasoning, image-input and
    embedding prices: in every record a normalization returns these three
    fields are empty.  And the general catalog's parse knows no cache
    prices: starting from an empty dictionary it leaves the cache-read and
    the cache-write price of every record empty. *)
Theorem fields_never_populated :
  (forall bedrock_data fm_data clock n records n' r,
      AWSBedrockProvider.normalize bedrock_data fm_data clock n
        = Returned (records, n') ->
      In r records ->
      field_value F_reasoning r = None
      /\ field_value F_image_input r = None
      /\ field_value F_embedding r = None)
  /\ (forall data clock n models' n' k m,
        AWSBedrockProvider._parse_bedrock_data data [] clock n
          = Returned (models', n') ->
        In (k, m) models' ->
        field_value F_cached_input m = None
        /\ field_value F_cached_write m = None).
Proof.
  split.
  - intros bedrock_data fm_data clock n records n' r Hrun Hr.
    apply normalize_inv in Hrun.
    destruct Hrun as (ma & na & mb & Hpa & Hpb & ->).
    apply values_in in Hr. destruct Hr as [k Hin].
    pose proof (proj1 (normalize_origin _ _ _ _ _ _ _ _ Hpa Hpb k r Hin))
      as Horigin.
    assert (Hno : forall f,
               f = F_reasoning \/ f = F_image_input \/ f = F_embedding ->
               field_value f r = None).
    { intros f Hf. destruct (field_value f r) as [v|] eqn:Ev; auto.
      destruct (Horigin f v Ev) as (li & [[_ Hc] | [_ Hc]] & _);
        apply class_field_range in Hc; destruct Hc as (H1 & H2 & H3);
        destruct Hf as [-> | [-> | ->]]; contradiction. }
    repeat split; apply Hno; auto.
  - intros data clock n models' n' k m Hrun Hin.
    pose (Q := fun (_ : string) (f : Field) (_ : PyFloat.float) =>
                 f <> F_cached_input /\ f <> F_cached_write).
    assert (HQ : forall f v, field_value f m = Some v -> Q k f v).
    { intros f v Hv.
      refine (loop_price_origin AWSBedrockProvider.bedrock_new
                LineItem.bedrock_write LineItem.bedrock_extract
                AWSBedrockProvider.bedrock_item classify_bedrock
                bedrock_item_view bedrock_new_empty
                bedrock_write_origin_class
                (Catalog.get_on_demand data) (Catalog.get_products data)
                Q [] clock n models' n' _ _ Hrun k m f v Hin Hv).
      - intros sku product li g _ _. unfold Q.
        destruct (classify_bedrock_no_cache li) as [N1 N2]. revert N1 N2.
        destruct (classify_bedrock li); intros N1 N2 [= <-];
          try (split; discriminate).
        + exfalso. now apply N1.
        + exfalso. now apply N2.
      - intros k0 m0 g w []. }
    split.
    + destruct (field_value F_cached_input m) as [v|] eqn:Ev; auto.
      destruct (HQ _ _ Ev) as [H _]. contradiction.
    + destruct (field_value F_cached_write m) as [v|] eqn:Ev; auto.
      destruct (HQ _ _ Ev) as [_ H]. contradiction.
Qed.

Lemma fields_never_populated_witness :
  field_value F_reasoning (Example.merged_record 7) = None
  /\ field_value F_image_input (Example.merged_record 7) = None
  /\ field_value F_embedding (Example.merged_record 7) = None.
Proof.
  apply (proj1 fields_never_populated Example.catalog_A Example.catalog_B
           (fun _ => 7) 0%nat [Example.merged_record 7] 1%nat).
  - reflexivity.
  - now left.
Defined.

(** ** Names that give the same model id *)

Section SlugCollisions.
Import PyStr.

Lemma lower_char_idem c : lower_char (lower_char c) = lower_char c.
Proof. destruct c as [[] [] [] [] [] [] [] []]; reflexivity. Qed.

Lemma lower_idem s : lower (lower s) = lower s.
Proof.
  induction s as [|c r IH]; simpl; auto. now rewrite lower_char_idem, IH.
Qed.

Lemma lower_app a b : lower (a ++ b) = lower a ++ lower b.
Proof.
  induction a as [|c r IH]; simpl; auto. now rewrite IH.
Qed.

Lemma filter_chars_app p a b :
  filter_chars p (a ++ b) = filter_chars p a ++ filter_chars p b.
Proof.
  induction a as [|c r IH]; simpl; auto.
  destruct (p c); simpl; now rewrite IH.
Qed.

End SlugCollisions.

(** X13.  The model id does not see the case of the name, nor any
    character that the slug rule strips: a name and its lower-case form
    have the same model id, and so have two names of which one has such a
    character more, wherever it stands. *)
Theorem model_id_ignores_case_and_stripped_characters :
  (forall name,
      AWSBedrockProvider._normalize_model_id (PyStr.lower name)
      = AWSBedrockProvider._normalize_model_id name)
  /\ (forall a c b,
        Regex.slug_char (PyStr.lower_char c) = false ->
        AWSBedrockProvider._normalize_model_id (a ++ String c b)
        = AWSBedrockProvider._normalize_model_id (a ++ b)).
Proof.
  split.
  - intros name. unfold AWSBedrockProvider._normalize_model_id.
    now rewrite lower_idem.
  - intros a c b Hc. unfold AWSBedrockProvider._normalize_model_id.
    rewrite !lower_app. unfold Regex.sub_non_slug.
    rewrite !filter_chars_app. simpl. now rewrite Hc.
Qed.

Lemma model_id_ignores_case_and_stripped_characters_witness :
  AWSBedrockProvider._normalize_model_id ("Claude 3.5 " ++ String "("%char "v2")
  = AWSBedrockProvider._normalize_model_id ("Claude 3.5 " ++ "v2").
Proof.
  apply (proj2 model_id_ignores_case_and_stripped_characters
           "Claude 3.5 " "("%char "v2").
  reflexivity.
Defined.

(** ** The edition suffix *)

Section Edition.
Import PyStr Regex.

Lemma count_nonspace_app a b :
  count_nonspace (a ++ b) = (count_nonspace a + count_nonspace b)%nat.
Proof.
  induction a as [|c r IH]; simpl; auto.
  destruct (isspace c); simpl; now rewrite IH.
Qed.

Lemma count_nonspace_spaces w :
  all_chars isspace w = true -> count_nonspace w = O.
Proof.
  induction w as [|c r IH]; simpl; auto.
  destruct (isspace c); simpl; [auto | discriminate].
Qed.

Lemma count_nonspace_drop_while s :
  count_nonspace (drop_while isspace s) = count_nonspace s.
Proof.
  induction s as [|c r IH]; simpl; auto.
  destruct (isspace c) eqn:E; simpl; auto. now rewrite E.
Qed.

Lemma startswith_split p s :
  startswith p s = true -> s = p ++ drop (String.length p) s.
Proof.
  revert s. induction p as [|a p IH]; intros s; simpl.
  - reflexivity.
  - destruct s as [|b s]; [discriminate|].
    intros H. apply andb_true_iff in H. destruct H as [Hab Hp].
    apply Ascii.eqb_eq in Hab. subst b. f_equal. now apply IH.
Qed.

(** A string that matches the pattern has as many characters that are
    not whitespace as the suffix has. *)
Lemma edition_match_count t :
  edition_match t = true ->
  count_nonspace t = count_nonspace edition_suffix.
Proof.
  unfold edition_match. intros H.
  apply andb_true_iff in H. destruct H as [Hs Hw].
  rewrite <- count_nonspace_drop_while.
  rewrite (startswith_split _ _ Hs), count_nonspace_app.
  rewrite (count_nonspace_spaces _ Hw). lia.
Qed.

Lemma drop_while_spaces_app w t :
  all_chars isspace w = true ->
  drop_while isspace (w ++ t) = drop_while isspace t.
Proof.
  induction w as [|c r IH]; simpl; auto.
  destruct (isspace c); simpl; [auto | discriminate].
Qed.

Lemma edition_match_suffix w1 w2 :
  all_chars isspace w1 = true ->
  all_chars isspace w2 = true ->
  edition_match (w1 ++ edition_suffix ++ w2) = true.
Proof.
  intros H1 H2. unfold edition_match.
  rewrite (drop_while_spaces_app _ _ H1).
  change (drop_while isspace (edition_suffix ++ w2))
    with (edition_suffix ++ w2).
  change (drop (String.length edition_suffix) (edition_suffix ++ w2)) with w2.
  rewrite H2. reflexivity.
Qed.

Lemma ends_nonspace_count c r :
  ends_with_space (String c r) = false ->
  (1 <= count_nonspace (String c r))%nat.
Proof.
  revert c. induction r as [|d r IH]; intros c.
  - simpl. destruct (isspace c); [discriminate | lia].
  - intros H. change (ends_with_space (String d r) = false) in H.
    specialize (IH d H).
    change (count_nonspace (String c (String d r)))
      with (if isspace c then count_nonspace (String d r)
            else S (count_nonspace (String d r))).
    destruct (isspace c); lia.
Qed.

Lemma ends_with_space_tail c r :
  ends_with_space (String c r) = false -> ends_with_space r = false.
Proof.
  destruct r as [|d r]; [reflexivity | auto].
Qed.

Lemma startswith_contains p s : startswith p s = true -> contains p s = true.
Proof.
  destruct s as [|c r]; simpl; auto. intros ->. reflexivity.
Qed.

Lemma contains_tail p c r : contains p r = true -> contains p (String c r) = true.
Proof.
  intros H. simpl. rewrite H. apply orb_true_r.
Qed.

Lemma contains_drop_while p s :
  contains p (drop_while isspace s) = true -> contains p s = true.
Proof.
  induction s as [|c r IH]; simpl; auto.
  destruct (isspace c); auto.
  intros H. apply IH in H. rewrite H. apply orb_true_r.
Qed.

Lemma edition_match_contains t :
  edition_match t = true -> contains edition_suffix t = true.
Proof.
  unfold edition_match. intros H.
  apply andb_true_iff in H. destruct H as [Hs _].
  apply contains_drop_while. now apply startswith_contains.
Qed.

Lemma sub_edition_match s :
  edition_match s = true -> sub_edition s = EmptyString.
Proof.
  intros H. destruct s as [|c r]; [reflexivity|].
  change (sub_edition (String c r))
    with (if edition_match (String c r) then EmptyString
          else String c (sub_edition r)).
  now rewrite H.
Qed.

End Edition.

(** X14.  Taking the edition suffix off gives the model name back: a name
    that does not end in whitespace, followed by any whitespace, the
    suffix ["(Amazon Bedrock Edition)"] and any whitespace, is reduced to
    the name.  This is what lets the records of the two catalogs meet
    under one id. *)
Theorem sub_edition_recovers_name name w1 w2 :
  ends_with_space name = false ->
  PyStr.all_chars PyStr.isspace w1 = true ->
  PyStr.all_chars PyStr.isspace w2 = true ->
  Regex.sub_edition (name ++ w1 ++ Regex.edition_suffix ++ w2) = name.
Proof.
  intros Hname H1 H2. induction name as [|c r IH].
  - change (EmptyString ++ w1 ++ Regex.edition_suffix ++ w2)
      with (w1 ++ Regex.edition_suffix ++ w2).
    apply sub_edition_match. now apply edition_match_suffix.
  - assert (Hno : Regex.edition_match
                    (String c r ++ w1 ++ Regex.edition_suffix ++ w2) = false).
    { destruct (Regex.edition_match _) eqn:E; auto.
      apply edition_match_count in E.
      rewrite !count_nonspace_app in E.
      rewrite (count_nonspace_spaces _ H1), (count_nonspace_spaces _ H2) in E.
      pose proof (ends_nonspace_count c r Hname). lia. }
    change (Regex.sub_edition (String c r ++ w1 ++ Regex.edition_suffix ++ w2))
      with (if Regex.edition_match
                 (String c r ++ w1 ++ Regex.edition_suffix ++ w2)
            then EmptyString
            else String c
                   (Regex.sub_edition (r ++ w1 ++ Regex.edition_suffix ++ w2))).
    rewrite Hno. f_equal. apply IH. now apply ends_with_space_tail in Hname.
Qed.

Lemma sub_edition_recovers_name_witness :
  Regex.sub_edition ("Claude 3.5 Sonnet" ++ " " ++ Regex.edition_suffix ++ "")
  = "Claude 3.5 Sonnet".
Proof.
  apply (sub_edition_recovers_name "Claude 3.5 Sonnet" " " "");
    reflexivity.
Defined.

(** X15.  Taking the edition suffix off only ever cuts the end of the
    service name, and a service name in which the suffix does not occur
    is left as it is, trailing whitespace included. *)
Theorem sub_edition_cuts_the_end_only :
  (forall s, exists rest, s = Regex.sub_edition s ++ rest)
  /\ (forall s,
        PyStr.contains Regex.edition_suffix s = false ->
        Regex.sub_edition s = s).
Proof.
  split.
  - induction s as [|c r [rest IH]].
    + exists EmptyString. simpl.
      destruct (Regex.edition_match EmptyString); reflexivity.
    + simpl. destruct (Regex.edition_match (String c r)).
      * now exists (String c r).
      * exists rest. simpl. now rewrite <- IH.
  - induction s as [|c r IH]; intros Hno.
    + simpl. destruct (Regex.edition_match EmptyString); reflexivity.
    + assert (Hm : Regex.edition_match (String c r) = false).
      { destruct (Regex.edition_match (String c r)) eqn:E; auto.
        apply edition_match_contains in E. congruence. }
      simpl. rewrite Hm. f_equal. apply IH.
      destruct (PyStr.contains Regex.edition_suffix r) eqn:E; auto.
      apply (contains_tail _ c) in E. congruence.
Qed.

Lemma sub_edition_cuts_the_end_only_witness :
  Regex.sub_edition "Titan Text (Preview) " = "Titan Text (Preview) ".
Proof.
  apply (proj2 sub_edition_cuts_the_end_only "Titan Text (Preview) ").
  reflexivity.
Defined.

(** ** The prices after a parse, in closed form *)

Section ClosedForm.
Import AWSBedrockProvider.
Variable new : string -> string -> string -> datetime -> ModelPricing.t.
Variable write : LineItem.t -> ModelPricing.t -> ModelPricing.t.
Variable extract :
  Dict.t (Dict.t Catalog.Term) -> string -> Catalog.Product -> LineItem.Extracted.
Variable body :
  Dict.t (Dict.t Catalog.Term) -> string -> Catalog.Product -> Models -> M Models.
Variable classify : LineItem.t -> PriceClass.
Variable law :
  Field -> option PyFloat.float -> PyFloat.float -> option PyFloat.float.
Hypothesis body_view :
  forall terms sku product models clock n,
    body terms sku product models clock n
    = LineItem.run new write (extract terms sku product) models clock n.
Hypothesis new_empty : forall a b c t g, field_value g (new a b c t) = None.
Hypothesis write_other :
  forall li m f,
    class_field (classify li) <> Some f ->
    field_value f (write li m) = field_value f m.
Hypothesis write_law :
  forall li m f,
    class_field (classify li) = Some f ->
    field_value f (write li m)
    = law f (field_value f m) (LineItem.price_usd li).
Variable terms : Dict.t (Dict.t Catalog.Term).

(** One write, seen from a field of a record. *)
Lemma write_step li models t k f :
  price_at (Dict.set models (LineItem.id li)
              (write li (LineItem.target new li models t))) k f
  = if is_for classify k f li
    then law f (price_at models k f) (LineItem.price_usd li)
    else price_at models k f.
Proof.
  unfold is_for. destruct (String.eqb (LineItem.id li) k) eqn:Ek.
  - apply String.eqb_eq in Ek. subst k. rewrite price_at_set_same.
    destruct (class_field (classify li)) as [g|] eqn:Ec; simpl.
    + destruct (Field_eq_dec g f) as [->|Hne].
      * rewrite (write_law _ _ _ Ec). now rewrite target_fields.
      * rewrite write_other by congruence. now rewrite target_fields.
    + rewrite write_other by congruence. now rewrite target_fields.
  - apply String.eqb_neq in Ek. simpl.
    apply price_at_set_other. congruence.
Qed.

(** Every field of every record goes its own way: its value after the
    loop is a function of its value before and of the line-items. *)
Lemma loop_replay products models clock n models' n' k f :
  for_items (body terms) products models clock n = Returned (models', n') ->
  price_at models' k f
  = replay law classify k f (priced_items (extract terms) products)
      (price_at models k f).
Proof.
  revert models n. induction products as [|[sku product] rest IH];
    intros models n Hrun.
  - injection Hrun as <- _. reflexivity.
  - simpl in Hrun. unfold bind in Hrun. rewrite body_view in Hrun.
    simpl priced_items.
    destruct (extract terms sku product) as [|e|li]; simpl in Hrun.
    + now apply IH in Hrun.
    + discriminate.
    + unfold LineItem.apply in Hrun. apply IH in Hrun.
      rewrite Hrun. simpl replay. now rewrite write_step.
Qed.

(** Whether the loop returns does not depend on the dictionary or on the
    clock. *)
Lemma loop_returns_again products models clock n models' n' :
  for_items (body terms) products models clock n = Returned (models', n') ->
  forall models2 clock2 n2,
    exists models2' n2',
      for_items (body terms) products models2 clock2 n2
      = Returned (models2', n2').
Proof.
  revert models n. induction products as [|[sku product] rest IH];
    intros models n Hrun models2 clock2 n2.
  - now exists models2, n2.
  - simpl in Hrun |- *. unfold bind in Hrun |- *.
    rewrite body_view in Hrun. rewrite body_view.
    destruct (extract terms sku product) as [|e|li]; simpl in Hrun |- *.
    + eapply IH; eauto.
    + discriminate.
    + unfold LineItem.apply in Hrun |- *. eapply IH; eauto.
Qed.

End ClosedForm.

Section ReplayFacts.
Variable classify : LineItem.t -> PriceClass.
Variable k : string.
Variable f : Field.

Lemma replay_ext law1 law2 items old :
  (forall o p, law1 f o p = law2 f o p) ->
  replay law1 classify k f items old = replay law2 classify k f items old.
Proof.
  intros H. revert old. induction items as [|li rest IH]; intros old; simpl; auto.
  rewrite H. apply IH.
Qed.

Lemma replay_overwrite items old :
  replay bedrock_law classify k f items old
  = match last_price classify k f items with
    | Some p => Some p
    | None => old
    end.
Proof.
  revert old. induction items as [|li rest IH]; intros old; simpl; auto.
  rewrite IH. destruct (last_price classify k f rest); auto.
  unfold bedrock_law. destruct (is_for classify k f li); auto.
Qed.

Lemma replay_first_writer items old :
  f = F_input \/ f = F_output ->
  replay fm_law classify k f items old
  = match old with
    | Some v => Some v
    | None => first_price classify k f items
    end.
Proof.
  intros Hf. revert old. induction items as [|li rest IH]; intros old; simpl.
  - now destruct old.
  - rewrite IH. destruct (is_for classify k f li).
    + destruct old; destruct Hf as [-> | ->]; reflexivity.
    + reflexivity.
Qed.

Lemma replay_fm_overwrite items old :
  f <> F_input -> f <> F_output ->
  replay fm_law classify k f items old
  = match last_price classify k f items with
    | Some p => Some p
    | None => old
    end.
Proof.
  intros Hi Ho. rewrite <- replay_overwrite. apply replay_ext.
  intros o p. unfold fm_law, bedrock_law.
  destruct f; try reflexivity; contradiction.
Qed.

End ReplayFacts.

Section Laws.
Import AWSBedrockProvider.

Lemma bedrock_write_law li m f :
  class_field (classify_bedrock li) = Some f ->
  field_value f (LineItem.bedrock_write li m)
  = bedrock_law f (field_value f m) (LineItem.price_usd li).
Proof. apply bedrock_write_class. Qed.

Lemma fm_write_law li m f :
  class_field (classify_fm li) = Some f ->
  field_value f (LineItem.fm_write li m)
  = fm_law f (field_value f m) (LineItem.price_usd li).
Proof.
  intros Hf. rewrite (fm_write_class _ _ _ Hf). unfold fm_law.
  destruct f; reflexivity.
Qed.

End Laws.

(** X16.  The general catalog's parse in closed form: afterwards every
    price field of every record holds the price of the last line-item of
    the catalog that belongs to the record and classifies to the field,
    and when there is no such line-item, what it held before. *)
Theorem general_parse_closed_form data models clock n models' n' k f :
  AWSBedrockProvider._parse_bedrock_data data models clock n
  = Returned (models', n') ->
  price_at models' k f
  = match last_price classify_bedrock k f
            (priced_items (LineItem.bedrock_extract (Catalog.get_on_demand data))
               (Catalog.get_products data)) with
    | Some p => Some p
    | None => price_at models k f
    end.
Proof.
  intros Hrun. rewrite <- replay_overwrite.
  apply (loop_replay AWSBedrockProvider.bedrock_new LineItem.bedrock_write
           LineItem.bedrock_extract AWSBedrockProvider.bedrock_item
           classify_bedrock bedrock_law bedrock_item_view bedrock_new_empty
           bedrock_write_other bedrock_write_law
           (Catalog.get_on_demand data) (Catalog.get_products data)
           models clock n models' n' k f Hrun).
Qed.

Lemma general_parse_closed_form_witness :
  price_at (Sample.general_two_tiers_models 0) Example.claude_id F_input
  = match last_price classify_bedrock Example.claude_id F_input
            (priced_items
               (LineItem.bedrock_extract
                  (Catalog.get_on_demand Example.general_two_tiers))
               (Catalog.get_products Example.general_two_tiers)) with
    | Some p => Some p
    | None => price_at [] Example.claude_id F_input
    end.
Proof.
  apply (general_parse_closed_form Example.general_two_tiers []
           (fun _ => 0) 0%nat (Sample.general_two_tiers_models 0) 1%nat).
  vm_compute. reflexivity.
Defined.

(** X17.  The foundation-model catalog's parse in closed form.  An input
    or output price that was populated before is kept; one that was not
    holds afterwards the price of the first line-item for it, if there is
    one.  Every other field holds the price of the last line-item for it,
    and what it held before when there is none. *)
Theorem fm_parse_closed_form data models clock n models' n' k f :
  AWSBedrockProvider._parse_fm_data data models clock n
  = Returned (models', n') ->
  price_at models' k f
  = match f with
    | F_input | F_output =>
        match price_at models k f with
        | Some v => Some v
        | None =>
            first_price classify_fm k f
              (priced_items (LineItem.fm_extract (Catalog.get_on_demand data))
                 (Catalog.get_products data))
        end
    | _ =>
        match last_price classify_fm k f
                (priced_items (LineItem.fm_extract (Catalog.get_on_demand data))
                   (Catalog.get_products data)) with
        | Some p => Some p
        | None => price_at models k f
        end
    end.
Proof.
  intros Hrun.
  rewrite (loop_replay AWSBedrockProvider.fm_new LineItem.fm_write
             LineItem.fm_extract AWSBedrockProvider.fm_item
             classify_fm fm_law fm_item_view fm_new_empty
             fm_write_other fm_write_law
             (Catalog.get_on_demand data) (Catalog.get_products data)
             models clock n models' n' k f Hrun).
  destruct f;
    try (apply replay_fm_overwrite; discriminate);
    apply replay_first_writer; auto.
Qed.

Lemma fm_parse_closed_form_witness :
  price_at (Example.two_tiers_models 7) Example.claude_id F_input
  = match price_at [] Example.claude_id F_input with
    | Some v => Some v
    | None =>
        first_price classify_fm Example.claude_id F_input
          (priced_items
             (LineItem.fm_extract (Catalog.get_on_demand Example.fm_two_tiers))
             (Catalog.get_products Example.fm_two_tiers))
    end.
Proof.
  apply (fm_parse_closed_form Example.fm_two_tiers [] (fun _ => 7) 0%nat
           (Example.two_tiers_models 7) 1%nat Example.claude_id F_input).
  vm_compute. reflexivity.
Defined.

(** ** Parsing a catalog a second time *)

Section Extensionality.

Lemma record_ext (a b : ModelPricing.t) :
  same_identity a b ->
  (forall f, field_value f a = field_value f b) ->
  match ModelPricing.batch_pricing a with Some _ => true | None => false end
  = match ModelPricing.batch_pricing b with Some _ => true | None => false end ->
  a = b.
Proof.
  intros (H1 & H2 & H3 & H4 & H5 & H6) Hf Hb.
  pose proof (Hf F_input) as F1. pose proof (Hf F_output) as F2.
  pose proof (Hf F_cached_input) as F3. pose proof (Hf F_cached_write) as F4.
  pose proof (Hf F_reasoning) as F5. pose proof (Hf F_image_input) as F6.
  pose proof (Hf F_embedding) as F7.
  pose proof (Hf F_batch_input) as F8. pose proof (Hf F_batch_output) as F9.
  clear Hf.
  destruct a as [i p mi mn [a1 a2 a3 a4 a5 a6 a7] ba ca la].
  destruct b as [j q mj mm [b1 b2 b3 b4 b5 b6 b7] bb cb lb].
  unfold field_value in *. simpl in *. subst.
  destruct ba as [[x1 x2]|], bb as [[y1 y2]|]; simpl in *;
    try discriminate; subst; reflexivity.
Qed.

Lemma dict_ext {V} (a b : Dict.t V) :
  NoDup (Dict.keys a) ->
  Dict.keys a = Dict.keys b ->
  (forall k, Dict.get a k = Dict.get b k) ->
  a = b.
Proof.
  revert b. induction a as [|[k v] a IH]; intros [|[k' v'] b] Hnd Hk Hget;
    try discriminate; auto.
  simpl in Hk. injection Hk as <- Hk.
  inversion Hnd as [|? ? Hnotin Hnd']; subst.
  assert (Hv : v = v').
  { specialize (Hget k). simpl in Hget. rewrite String.eqb_refl in Hget.
    now injection Hget. }
  subst v'. f_equal. apply IH; auto.
  intros k0. specialize (Hget k0). simpl in Hget.
  destruct (String.eqb k0 k) eqn:E; auto.
  apply String.eqb_eq in E. subst k0.
  assert (Ha : Dict.get a k = None) by now apply get_none_keys.
  assert (Hb : Dict.get b k = None)
    by (apply get_none_keys; now rewrite <- Hk).
  now rewrite Ha, Hb.
Qed.

End Extensionality.

Section Again.
Import AWSBedrockProvider.
Variable new : string -> string -> string -> datetime -> ModelPricing.t.
Variable write : LineItem.t -> ModelPricing.t -> ModelPricing.t.
Variable extract :
  Dict.t (Dict.t Catalog.Term) -> string -> Catalog.Product -> LineItem.Extracted.
Variable body :
  Dict.t (Dict.t Catalog.Term) -> string -> Catalog.Product -> Models -> M Models.
Variable classify : LineItem.t -> PriceClass.
Variable law :
  Field -> option PyFloat.float -> PyFloat.float -> option PyFloat.float.
Variable flag : LineItem.t -> bool.
Hypothesis body_view :
  forall terms sku product models clock n,
    body terms sku product models clock n
    = LineItem.run new write (extract terms sku product) models clock n.
Hypothesis write_identity : forall li m, same_identity m (write li m).
Hypothesis new_empty : forall a b c t g, field_value g (new a b c t) = None.
Hypothesis new_no_batch :
  forall a b c t, ModelPricing.batch_pricing (new a b c t) = None.
Hypothesis write_other :
  forall li m f,
    class_field (classify li) <> Some f ->
    field_value f (write li m) = field_value f m.
Hypothesis write_law :
  forall li m f,
    class_field (classify li) = Some f ->
    field_value f (write li m)
    = law f (field_value f m) (LineItem.price_usd li).
Hypothesis write_batch :
  forall li m,
    match ModelPricing.batch_pricing (write li m) with
    | Some _ => true | None => false end
    = (match ModelPricing.batch_pricing m with
       | Some _ => true | None => false end
       || flag li)%bool.
Hypothesis replay_idem :
  forall k f items old,
    replay law classify k f items (replay law classify k f items old)
    = replay law classify k f items old.
Variable terms : Dict.t (Dict.t Catalog.Term).

(** A record has a batch object afterwards when it had one before or a
    line-item flagged as batch belongs to it. *)
Lemma loop_has_batch products models clock n models' n' k :
  for_items (body terms) products models clock n = Returned (models', n') ->
  has_batch models' k
  = (has_batch models k
     || existsb (fun li => (String.eqb (LineItem.id li) k && flag li)%bool)
          (priced_items (extract terms) products))%bool.
Proof.
  revert models n. induction products as [|[sku product] rest IH];
    intros models n Hrun.
  - injection Hrun as <- _. simpl. now rewrite orb_false_r.
  - simpl in Hrun. unfold bind in Hrun. rewrite body_view in Hrun.
    simpl priced_items.
    destruct (extract terms sku product) as [|e|li]; simpl in Hrun.
    + now apply IH in Hrun.
    + discriminate.
    + unfold LineItem.apply in Hrun. apply IH in Hrun.
      rewrite Hrun. cbn [existsb]. rewrite orb_assoc. f_equal.
      unfold has_batch at 1.
      destruct (String.eqb (LineItem.id li) k) eqn:Ek.
      * apply String.eqb_eq in Ek. subst k.
        rewrite get_set_same, write_batch. cbn [andb]. f_equal.
        unfold has_batch, LineItem.target.
        destruct (Dict.get models (LineItem.id li)); auto.
        now rewrite new_no_batch.
      * apply String.eqb_neq in Ek.
        rewrite get_set_other by congruence.
        cbn [andb]. now rewrite orb_false_r.
Qed.

(** When the records of all line-items are there already, the loop adds
    no key and does not read the clock. *)
Lemma loop_adds_nothing products models clock n models' n' :
  (forall sku product li,
      In (sku, product) products ->
      extract terms sku product = LineItem.Priced li ->
      Dict.mem models (LineItem.id li) = true) ->
  for_items (body terms) products models clock n = Returned (models', n') ->
  Dict.keys models' = Dict.keys models /\ n' = n.
Proof.
  intros Hmem.
  apply (loop_state_invariant new write extract body body_view terms
           (fun ms j => Dict.keys ms = Dict.keys models /\ j = n)); auto.
  intros sku product li ms j t Hin E [Hk ->].
  assert (Hm : Dict.mem ms (LineItem.id li) = true).
  { specialize (Hmem sku product li Hin E). unfold Dict.mem in *.
    destruct (Dict.get ms (LineItem.id li)) eqn:G; auto.
    apply get_none_keys in G. rewrite Hk in G.
    destruct (Dict.get models (LineItem.id li)) eqn:G'; [|discriminate].
    exfalso. apply G. apply get_in in G'.
    change (LineItem.id li) with (fst (LineItem.id li, t0)).
    now apply in_map. }
  rewrite keys_set, Hm. auto.
Qed.

(** Running the loop over the same products again gives the dictionary
    back. *)
Lemma loop_again products models clock n models1 n1 clock2 :
  NoDup (Dict.keys models) ->
  for_items (body terms) products models clock n = Returned (models1, n1) ->
  for_items (body terms) products models1 clock2 n1 = Returned (models1, n1).
Proof.
  intros Hnd Hrun.
  destruct (loop_returns_again new write extract body body_view terms
              products models clock n models1 n1 Hrun models1 clock2 n1)
    as (models2 & n2 & Hrun2).
  assert (Hnd1 : NoDup (Dict.keys models1)).
  { revert Hrun.
    apply (loop_state_invariant new write extract body body_view terms
             (fun ms _ => NoDup (Dict.keys ms))); auto.
    intros. now apply nodup_keys_set. }
  destruct (loop_adds_nothing products models1 clock2 n1 models2 n2) as [Hk ->];
    auto.
  { intros sku product li Hin E.
    apply (loop_has_record new write extract body body_view write_identity
             terms products sku product li models clock n models1 n1 Hin E Hrun). }
  rewrite Hrun2. f_equal. f_equal.
  apply dict_ext.
  - now rewrite Hk.
  - exact Hk.
  - intros k. destruct (Dict.get models1 k) as [m1|] eqn:G1.
    + destruct (loop_keeps_identity new write extract body body_view
                  write_identity terms products models1 clock2 n1 models2 n1
                  Hrun2 k m1 G1) as (m2 & G2 & Hsame).
      rewrite G2. f_equal. symmetry. apply record_ext; auto.
      * intros f.
        pose proof (loop_replay new write extract body classify law body_view
                      new_empty write_other write_law terms products
                      models clock n models1 n1 k f Hrun) as R1.
        pose proof (loop_replay new write extract body classify law body_view
                      new_empty write_other write_law terms products
                      models1 clock2 n1 models2 n1 k f Hrun2) as R2.
        unfold price_at in R1 at 1. unfold price_at in R2 at 1 2.
        rewrite G1 in R1, R2. rewrite G2 in R2.
        rewrite R2, R1. symmetry. apply replay_idem.
      * pose proof (loop_has_batch products models clock n models1 n1 k Hrun)
          as B1.
        pose proof (loop_has_batch products models1 clock2 n1 models2 n1 k Hrun2)
          as B2.
        unfold has_batch in B1 at 1. unfold has_batch in B2 at 1 2.
        rewrite G1 in B1, B2. rewrite G2 in B2.
        rewrite B2, B1.
        destruct (has_batch models k), (existsb _ _); reflexivity.
    + apply get_none_keys in G1. rewrite <- Hk in G1.
      now apply get_none_keys in G1.
Qed.

End Again.

Section AgainInstances.
Import AWSBedrockProvider.

Lemma bedrock_write_batch li m :
  match ModelPricing.batch_pricing (LineItem.bedrock_write li m) with
  | Some _ => true | None => false end
  = (match ModelPricing.batch_pricing m with
     | Some _ => true | None => false end
     || bedrock_is_batch (LineItem.usage_type li) (LineItem.description li))%bool.
Proof.
  unfold LineItem.bedrock_write, bedrock_update.
  destruct (bedrock_is_batch (LineItem.usage_type li) (LineItem.description li));
    destruct (bedrock_is_input (LineItem.usage_type li) (LineItem.description li));
    destruct (bedrock_is_output (LineItem.usage_type li) (LineItem.description li));
    destruct m as [? ? ? ? ? [?|] ? ?]; reflexivity.
Qed.

Lemma fm_write_batch li m :
  match ModelPricing.batch_pricing (LineItem.fm_write li m) with
  | Some _ => true | None => false end
  = (match ModelPricing.batch_pricing m with
     | Some _ => true | None => false end
     || fm_is_batch (LineItem.usage_type li) (LineItem.description li))%bool.
Proof.
  unfold LineItem.fm_write, fm_update.
  destruct (fm_is_batch (LineItem.usage_type li) (LineItem.description li));
    destruct (fm_is_cache_read (LineItem.usage_type li) (LineItem.description li));
    destruct (fm_is_cache_write (LineItem.usage_type li) (LineItem.description li));
    destruct (fm_is_input (LineItem.usage_type li));
    destruct (fm_is_output (LineItem.usage_type li) (LineItem.description li));
    destruct m as [? ? ? ? [[?|] [?|] ? ? ? ? ?] [?|] ? ?]; reflexivity.
Qed.

Lemma replay_bedrock_idem classify k f items old :
  replay bedrock_law classify k f items
    (replay bedrock_law classify k f items old)
  = replay bedrock_law classify k f items old.
Proof.
  rewrite !replay_overwrite. now destruct (last_price classify k f items).
Qed.

Lemma replay_fm_idem classify k f items old :
  replay fm_law classify k f items (replay fm_law classify k f items old)
  = replay fm_law classify k f items old.
Proof.
  destruct (Field_eq_dec f F_input) as [Hi|Hi];
    [|destruct (Field_eq_dec f F_output) as [Ho|Ho]].
  - rewrite !replay_first_writer by auto.
    destruct old; auto. now destruct (first_price classify k f items).
  - rewrite !replay_first_writer by auto.
    destruct old; auto. now destruct (first_price classify k f items).
  - rewrite !replay_fm_overwrite by assumption.
    now destruct (last_price classify k f items).
Qed.

End AgainInstances.

(** X18.  Parsing a catalog into the dictionary a second time changes
    nothing: the parse returns the very dictionary it was given, record
    for record and price for price, and does not read the clock.  (The
    dictionary the first parse started from has no key twice.) *)
Theorem parsing_again_changes_nothing data models clock n models1 n1 clock2 :
  NoDup (Dict.keys models) ->
  (AWSBedrockProvider._parse_bedrock_data data models clock n
   = Returned (models1, n1) ->
   AWSBedrockProvider._parse_bedrock_data data models1 clock2 n1
   = Returned (models1, n1))
  /\ (AWSBedrockProvider._parse_fm_data data models clock n
      = Returned (models1, n1) ->
      AWSBedrockProvider._parse_fm_data data models1 clock2 n1
      = Returned (models1, n1)).
Proof.
  intros Hnd. split; intros Hrun.
  - apply (loop_again AWSBedrockProvider.bedrock_new LineItem.bedrock_write
             LineItem.bedrock_extract AWSBedrockProvider.bedrock_item
             classify_bedrock bedrock_law
             (fun li => AWSBedrockProvider.bedrock_is_batch
                          (LineItem.usage_type li) (LineItem.description li))
             bedrock_item_view bedrock_write_identity bedrock_new_empty
             (fun a b c t => eq_refl) bedrock_write_other bedrock_write_law
             bedrock_write_batch (replay_bedrock_idem classify_bedrock)
             (Catalog.get_on_demand data) (Catalog.get_products data)
             models clock n models1 n1 clock2 Hnd Hrun).
  - apply (loop_again AWSBedrockProvider.fm_new LineItem.fm_write
             LineItem.fm_extract AWSBedrockProvider.fm_item
             classify_fm fm_law
             (fun li => AWSBedrockProvider.fm_is_batch
                          (LineItem.usage_type li) (LineItem.description li))
             fm_item_view fm_write_identity fm_new_empty
             (fun a b c t => eq_refl) fm_write_other fm_write_law
             fm_write_batch (replay_fm_idem classify_fm)
             (Catalog.get_on_demand data) (Catalog.get_products data)
             models clock n models1 n1 clock2 Hnd Hrun).
Qed.

Lemma parsing_again_changes_nothing_witness :
  AWSBedrockProvider._parse_fm_data Example.fm_two_tiers
    (Example.two_tiers_models 7) (fun _ => 9) 1%nat
  = Returned (Example.two_tiers_models 7, 1%nat).
Proof.
  apply (proj2 (parsing_again_changes_nothing Example.fm_two_tiers []
                  (fun _ => 7) 0%nat (Example.two_tiers_models 7) 1%nat
                  (fun _ => 9) (NoDup_nil _))).
  vm_compute. reflexivity.
Defined.
